(** * Behavioural-biometrics authentication: a shallow embedding

    The development follows the repository's decision pipeline:

    - [JsNumber]         the numbers of the JavaScript code (exact rationals
                         extended with the two infinities and NaN);
    - [BiometricCapture] client/src/lib/biometrics.ts, the keystroke capture;
    - [LocalRisk]        the client-side risk calculator (a TensorFlow model
                         seen through its prediction function);
    - [Types]            server/types.ts;
    - [RiskCalculator]   server/services/riskCalculator.js, the fusion engine;
    - [UserManager]      server/services/userManager.js, users and profiles;
    - [ChallengeManager] the step-up challenge life cycle;
    - [AuthController]   the Express controller's [login] and [stepUp];
    - [Demo], [Scenario] stand-ins for the external functions and sample data
                         on which the model is run;
    - [Trace]            sequences of keyboard events;
    - [Client]           the login form's [handleSubmit] and the API client's
                         [login];
    - [RateLimiter]      server/utils/rateLimiter.ts;
    - [UserAdmin]        [createUser], the synthetic profiles and
                         [deleteUser] of server/services/userManager.js;
    - [Matching]         [fuzzyMatch] and [levenshteinDistance] of the
                         challenge manager.

    The properties come after the definitions, component by component.

    Numbers are exact: the rounding, the overflow and the underflow of IEEE
    doubles are not modelled, and zero has no sign.  A computed value can
    therefore differ from the code's in its last digits, and a mean of
    values of mixed signs even in its sign.  The properties of numbers are
    stated on what rounding to nearest keeps: the order of two computed
    values through the monotone steps that follow, the clamps at 0 and at 1,
    NaN and its propagation, and hypotheses on the stored values rather than
    on their means.  Every clock read of one handler call is the same
    instant, given as an argument, and every random draw is an argument too.
    Strings are ASCII text. *)

From Stdlib Require Import QArith Qabs Qround Lqa ZArith Lia Ascii.
From stdpp Require Import gmap strings list.

Local Open Scope Q_scope.

(* ===================================================================== *)
(** ** JavaScript numbers *)
(* ===================================================================== *)

Module JsNumber.

Inductive number : Type :=
| Num (q : Q)
| PosInf
| NegInf
| NaN.

Definition of_Z (z : Z) : number := Num (inject_Z z).
Definition of_nat (n : nat) : number := of_Z (Z.of_nat n).

Definition isNaN (a : number) : bool :=
  match a with NaN => true | _ => false end.

Definition neg (a : number) : number :=
  match a with
  | Num q => Num (- q)
  | PosInf => NegInf
  | NegInf => PosInf
  | NaN => NaN
  end.

(** [a + b] *)
Definition add (a b : number) : number :=
  match a, b with
  | NaN, _ | _, NaN => NaN
  | Num p, Num q => Num (p + q)
  | PosInf, NegInf | NegInf, PosInf => NaN
  | PosInf, _ | _, PosInf => PosInf
  | NegInf, _ | _, NegInf => NegInf
  end.

(** [a - b] *)
Definition sub (a b : number) : number := add a (neg b).

(** An infinity of the sign of [s] times the sign of [q]; NaN when [q] is
    zero. *)
Definition inf_times (s : bool) (q : Q) : number :=
  match q ?= 0 with
  | Eq => NaN
  | Gt => if s then PosInf else NegInf
  | Lt => if s then NegInf else PosInf
  end.

(** [a * b] *)
Definition mul (a b : number) : number :=
  match a, b with
  | NaN, _ | _, NaN => NaN
  | Num p, Num q => Num (p * q)
  | PosInf, Num q | Num q, PosInf => inf_times true q
  | NegInf, Num q | Num q, NegInf => inf_times false q
  | PosInf, PosInf | NegInf, NegInf => PosInf
  | PosInf, NegInf | NegInf, PosInf => NegInf
  end.

(** [a / b]; a finite number over zero is an infinity of its sign, and
    [0 / 0] is NaN. *)
Definition div (a b : number) : number :=
  match a, b with
  | NaN, _ | _, NaN => NaN
  | Num p, Num q =>
      if Qeq_bool q 0 then
        match p ?= 0 with
        | Eq => NaN
        | Gt => PosInf
        | Lt => NegInf
        end
      else Num (p / q)
  | Num _, (PosInf | NegInf) => Num 0
  | PosInf, Num q => match q ?= 0 with Lt => NegInf | _ => PosInf end
  | NegInf, Num q => match q ?= 0 with Lt => PosInf | _ => NegInf end
  | (PosInf | NegInf), (PosInf | NegInf) => NaN
  end.

(** [Math.abs] *)
Definition abs (a : number) : number :=
  match a with
  | Num q => Num (Qabs q)
  | PosInf | NegInf => PosInf
  | NaN => NaN
  end.

Definition Qmin (p q : Q) : Q := if Qle_bool p q then p else q.
Definition Qmax (p q : Q) : Q := if Qle_bool p q then q else p.

(** [Math.min(a, b)] *)
Definition min (a b : number) : number :=
  match a, b with
  | NaN, _ | _, NaN => NaN
  | NegInf, _ | _, NegInf => NegInf
  | PosInf, x | x, PosInf => x
  | Num p, Num q => Num (Qmin p q)
  end.

(** [Math.max(a, b)] *)
Definition max (a b : number) : number :=
  match a, b with
  | NaN, _ | _, NaN => NaN
  | PosInf, _ | _, PosInf => PosInf
  | NegInf, x | x, NegInf => x
  | Num p, Num q => Num (Qmax p q)
  end.

(** [a < b]: false as soon as one side is NaN. *)
Definition lt (a b : number) : bool :=
  match a, b with
  | NaN, _ | _, NaN => false
  | Num p, Num q => match p ?= q with Lt => true | _ => false end
  | NegInf, (Num _ | PosInf) => true
  | Num _, PosInf => true
  | _, _ => false
  end.

(** [a > b] *)
Definition gt (a b : number) : bool := lt b a.

(** [a <= b] *)
Definition le (a b : number) : bool :=
  match a, b with
  | NaN, _ | _, NaN => false
  | Num p, Num q => match p ?= q with Gt => false | _ => true end
  | NegInf, _ => true
  | _, PosInf => true
  | _, _ => false
  end.

(** [a >= b] *)
Definition ge (a b : number) : bool := le b a.

(** [a === b] on numbers: NaN is not equal to itself. *)
Definition strict_eq (a b : number) : bool :=
  match a, b with
  | Num p, Num q => Qeq_bool p q
  | PosInf, PosInf | NegInf, NegInf => true
  | _, _ => false
  end.

(** A number is falsy when it is zero or NaN. *)
Definition truthy (a : number) : bool :=
  match a with
  | Num q => negb (Qeq_bool q 0)
  | NaN => false
  | _ => true
  end.

(** [a || b] on numbers *)
Definition or_else (a b : number) : number := if truthy a then a else b.

(** The same value, rationals being compared by [==]. *)
Definition same (a b : number) : Prop :=
  match a, b with
  | Num p, Num q => p == q
  | PosInf, PosInf | NegInf, NegInf | NaN, NaN => True
  | _, _ => False
  end.

(** A finite number within the closed interval from [lo] to [hi]. *)
Definition within (lo hi : Q) (a : number) : Prop :=
  match a with
  | Num q => lo <= q <= hi
  | _ => False
  end.

(** A number in the unit interval, or NaN (which the weighted score
    skips). *)
Definition unit_or_nan (a : number) : Prop :=
  match a with
  | Num q => 0 <= q <= 1
  | NaN => True
  | _ => False
  end.

(** A finite number that is at most 1, or NaN. *)
Definition le1_or_nan (a : number) : Prop :=
  match a with
  | Num q => q <= 1
  | NaN => True
  | _ => False
  end.

(** A rational or NaN: not an infinity. *)
Definition finite_or_nan (a : number) : Prop :=
  match a with
  | Num _ | NaN => True
  | _ => False
  end.

(** Not below zero: a non-negative rational, +Infinity or NaN. *)
Definition not_negative (a : number) : Prop :=
  match a with
  | Num q => 0 <= q
  | PosInf | NaN => True
  | NegInf => False
  end.

(** [array.reduce((sum, val) => sum + val, 0)] *)
Definition sum (l : list number) : number := fold_left add l (Num 0).

Definition Qsum (l : list Q) : Q := fold_left Qplus l 0.

End JsNumber.

Import JsNumber.

Declare Scope js_scope.
Delimit Scope js_scope with js.
Bind Scope js_scope with number.
Infix "+" := add : js_scope.
Infix "-" := sub : js_scope.
Infix "*" := mul : js_scope.
Infix "/" := div : js_scope.
Infix "<?" := lt : js_scope.
Infix ">?" := gt : js_scope.
Infix "<=?" := le : js_scope.
Infix ">=?" := ge : js_scope.
Infix "||" := or_else : js_scope.

(* ===================================================================== *)
(** ** client/src/lib/biometrics.ts: [BiometricCapture] *)
(* ===================================================================== *)

Module BiometricCapture.

Record KeyMetrics := mkKeyMetrics {
  downTime : Q;
  upTime : Q;
  km_holdTimes : list Q;
  km_flightTimes : list Q;
  lastKeyUp : Q;
  character : string
}.

Record TypingSession := mkTypingSession {
  holdTimes : list Q;
  flightTimes : list Q;
  errorRate : Q;
  typingSpeed : number;
  consistencyScore : Q;
  sessionStart : Q;
  totalKeystrokes : Z;
  corrections : Z
}.

(** The two mutable fields of the class that the handlers touch. *)
Record Capture := mkCapture {
  metrics : gmap string KeyMetrics;
  sessionData : TypingSession
}.

(** [initializeSession()], the clock reading [now]. *)
Definition initializeSession (now : Q) : TypingSession :=
  {| holdTimes := []; flightTimes := []; errorRate := 0;
     typingSpeed := Num 0; consistencyScore := 0; sessionStart := now;
     totalKeystrokes := 0; corrections := 0 |}.

Definition new_capture (now : Q) : Capture :=
  {| metrics := ∅; sessionData := initializeSession now |}.

Definition modifierKeys : list string :=
  ["Shift"; "Control"; "Alt"; "Meta"; "CapsLock"; "Tab"; "Escape"; "Enter";
   "ArrowUp"; "ArrowDown"; "ArrowLeft"; "ArrowRight"; "Home"; "End";
   "PageUp"; "PageDown"; "Insert"; "Delete"]%string.

(** [modifierKeys.includes(key) || key.startsWith("F")] *)
Definition isModifierKey (key : string) : bool :=
  existsb (String.eqb key) modifierKeys || String.prefix "F" key.

(** [calculateVariance(values)] of the capture class: 0 on the empty array. *)
Definition calculateVariance (values : list Q) : Q :=
  match values with
  | [] => 0
  | _ =>
      let n := inject_Z (Z.of_nat (length values)) in
      let mean := Qsum values / n in
      let squaredDiffs := map (fun val => (val - mean) ^ 2) values in
      Qsum squaredDiffs / n
  end.

(** [calculateTypingSpeed()] *)
Definition calculateTypingSpeed (now : Q) (s : TypingSession) : TypingSession :=
  let timeElapsed := (now - sessionStart s) / 1000 / 60 in
  let wordsTyped := inject_Z (totalKeystrokes s) / 5 in
  {| holdTimes := holdTimes s; flightTimes := flightTimes s;
     errorRate := errorRate s;
     typingSpeed := (Num wordsTyped / Num timeElapsed)%js;
     consistencyScore := consistencyScore s; sessionStart := sessionStart s;
     totalKeystrokes := totalKeystrokes s; corrections := corrections s |}.

(** [calculateErrorRate()] *)
Definition calculateErrorRate (s : TypingSession) : TypingSession :=
  let rate :=
    if (totalKeystrokes s =? 0)%Z then 0
    else inject_Z (corrections s) / inject_Z (totalKeystrokes s) * 100 in
  {| holdTimes := holdTimes s; flightTimes := flightTimes s;
     errorRate := rate;
     typingSpeed := typingSpeed s;
     consistencyScore := consistencyScore s; sessionStart := sessionStart s;
     totalKeystrokes := totalKeystrokes s; corrections := corrections s |}.

(** [calculateConsistencyScore()] *)
Definition calculateConsistencyScore (s : TypingSession) : TypingSession :=
  let score :=
    if (length (holdTimes s) <? 2)%nat then 0
    else
      let holdTimeVariance := calculateVariance (holdTimes s) in
      let flightTimeVariance :=
        if (1 <? length (flightTimes s))%nat
        then calculateVariance (flightTimes s) else 0 in
      let normalizedHoldVar := Qmax 0 (100 - holdTimeVariance / 10) in
      let normalizedFlightVar := Qmax 0 (100 - flightTimeVariance / 10) in
      (normalizedHoldVar + normalizedFlightVar) / 2 in
  {| holdTimes := holdTimes s; flightTimes := flightTimes s;
     errorRate := errorRate s;
     typingSpeed := typingSpeed s;
     consistencyScore := score; sessionStart := sessionStart s;
     totalKeystrokes := totalKeystrokes s; corrections := corrections s |}.

(** [updateSession()]; the listener only receives a copy of the session. *)
Definition updateSession (now : Q) (c : Capture) : Capture :=
  {| metrics := metrics c;
     sessionData :=
       calculateConsistencyScore
         (calculateErrorRate (calculateTypingSpeed now (sessionData c))) |}.

Definition add_correction (s : TypingSession) : TypingSession :=
  {| holdTimes := holdTimes s; flightTimes := flightTimes s;
     errorRate := errorRate s; typingSpeed := typingSpeed s;
     consistencyScore := consistencyScore s; sessionStart := sessionStart s;
     totalKeystrokes := totalKeystrokes s;
     corrections := (corrections s + 1)%Z |}.

Definition add_keystroke (s : TypingSession) : TypingSession :=
  {| holdTimes := holdTimes s; flightTimes := flightTimes s;
     errorRate := errorRate s; typingSpeed := typingSpeed s;
     consistencyScore := consistencyScore s; sessionStart := sessionStart s;
     totalKeystrokes := (totalKeystrokes s + 1)%Z;
     corrections := corrections s |}.

(** [captureKeyDown(event)] with [timestamp = performance.now()]. *)
Definition captureKeyDown (key : string) (timestamp : Q) (c : Capture)
  : Capture :=
  if isModifierKey key then c
  else if String.eqb key "Backspace" then
    updateSession timestamp
      {| metrics := metrics c; sessionData := add_correction (sessionData c) |}
  else
    {| metrics :=
         <[ key := {| downTime := timestamp; upTime := 0;
                      km_holdTimes := []; km_flightTimes := [];
                      lastKeyUp := 0; character := key |} ]> (metrics c);
       sessionData := add_keystroke (sessionData c) |}.

(** The flight time pushed by [captureKeyUp], if any: the guard
    [metric.lastKeyUp > 0] and the difference
    [metric.downTime - metric.lastKeyUp]. *)
Definition flight_sample (metric : KeyMetrics) : list Q :=
  if Qlt_le_dec 0 (lastKeyUp metric)
  then [downTime metric - lastKeyUp metric] else [].

(** [captureKeyUp(event)] with [timestamp = performance.now()]. *)
Definition captureKeyUp (key : string) (timestamp : Q) (c : Capture)
  : Capture :=
  if isModifierKey key then c
  else
    match metrics c !! key with
    | None => c
    | Some metric =>
        let holdTime := timestamp - downTime metric in
        let flight := flight_sample metric in
        let metric' :=
          {| downTime := downTime metric; upTime := timestamp;
             km_holdTimes := km_holdTimes metric ++ [holdTime];
             km_flightTimes := km_flightTimes metric ++ flight;
             lastKeyUp := timestamp; character := character metric |} in
        let s := sessionData c in
        updateSession timestamp
          {| metrics := <[ key := metric' ]> (metrics c);
             sessionData :=
               {| holdTimes := holdTimes s ++ [holdTime];
                  flightTimes := flightTimes s ++ flight;
                  errorRate := errorRate s; typingSpeed := typingSpeed s;
                  consistencyScore := consistencyScore s;
                  sessionStart := sessionStart s;
                  totalKeystrokes := totalKeystrokes s;
                  corrections := corrections s |} |}
    end.

(** The DOM events the two listeners receive, each with the clock reading
    of its handler. *)
Inductive KeyboardEvent :=
| KeyDown (key : string) (timestamp : Q)
| KeyUp (key : string) (timestamp : Q).

Definition handle (c : Capture) (e : KeyboardEvent) : Capture :=
  match e with
  | KeyDown key t => captureKeyDown key t c
  | KeyUp key t => captureKeyUp key t c
  end.

(** A capture created at [start] that then receives [events] in order. *)
Definition run (start : Q) (events : list KeyboardEvent) : Capture :=
  fold_left handle events (new_capture start).

(** The keys that are pressed and not yet released after a list of events,
    for a trace in which a key is released only while it is held. *)
Definition held_after_event (held : gset string) (e : KeyboardEvent)
  : gset string :=
  match e with
  | KeyDown key _ =>
      if isModifierKey key || String.eqb key "Backspace" then held
      else {[ key ]} ∪ held
  | KeyUp key _ => held ∖ {[ key ]}
  end.

(** Every release of a key that the capture tracks follows a press of that
    key with no release of it in between. *)
Fixpoint releases_follow_presses (held : gset string)
  (events : list KeyboardEvent) : Prop :=
  match events with
  | [] => True
  | e :: rest =>
      match e with
      | KeyUp key _ =>
          isModifierKey key = true \/ String.eqb key "Backspace" = true
          \/ key ∈ held
      | KeyDown _ _ => True
      end
      /\ releases_follow_presses (held_after_event held e) rest
  end.

(** The flight times as the specification words them, for comparison with
    what the capture records: the press time of a key minus the release
    time of the key before it, once a previous release exists.  [previous]
    is the time of the latest release seen so far. *)
Fixpoint flight_times_by_spec (previous : option Q)
  (events : list KeyboardEvent) : list Q :=
  match events with
  | [] => []
  | KeyDown key t :: rest =>
      if isModifierKey key || String.eqb key "Backspace"
      then flight_times_by_spec previous rest
      else
        match previous with
        | Some released => (t - released) :: flight_times_by_spec previous rest
        | None => flight_times_by_spec previous rest
        end
  | KeyUp key t :: rest =>
      if isModifierKey key || String.eqb key "Backspace"
      then flight_times_by_spec previous rest
      else flight_times_by_spec (Some t) rest
  end.

(** The invariant behind the missing flight times: every key that is held
    has a record whose [lastKeyUp] is the 0 written by [captureKeyDown],
    no record exists for Backspace, and no flight time was pushed. *)
Definition no_flight_invariant (held : gset string) (c : Capture) : Prop :=
  flightTimes (sessionData c) = []
  /\ metrics c !! "Backspace"%string = None
  /\ forall key, key ∈ held ->
       exists metric, metrics c !! key = Some metric /\ lastKeyUp metric = 0.

End BiometricCapture.

(* ===================================================================== *)
(** ** The client-side risk calculator (TensorFlow.js model) *)
(* ===================================================================== *)

Module LocalRisk.

Inductive Recommendation := GRANT | DENY | STEP_UP.

Record RiskPrediction := mkRiskPrediction {
  riskScore : number;
  confidence : number;
  recommendation : Recommendation;
  features : list number
}.

(** A loaded [tf.LayersModel], seen through what [calculateRisk] reads of
    it: [predict] followed by [data()[0]] on one row of normalised features.
    [None] stands for an exception raised by the tensor code. *)
Record LayersModel := mkLayersModel {
  predict : list number -> option number
}.

Record NormalizeParams := mkNormalizeParams {
  mean : list number;
  std : list number
}.

(** The private fields of the class. *)
Record State := mkState {
  model : option LayersModel;
  isModelReady : bool;
  normalizeParams : option NormalizeParams
}.

(** The fields as the class declares them, before any model is loaded. *)
Definition initial : State :=
  {| model := None; isModelReady := false; normalizeParams := None |}.

(** [isReady()] *)
Definition isReady (st : State) : bool :=
  isModelReady st && match model st with Some _ => true | None => false end.

(** An array element, [undefined] (NaN in a comparison) past the end. *)
Definition elem (l : list number) (i : nat) : number := nth i l NaN.

(** [calculateConfidence(features)] *)
Definition calculateConfidence (features : list number) : number :=
  let holdTime := elem features 0 in
  let flightTime := elem features 1 in
  let speed := elem features 4 in
  let errorRate := elem features 5 in
  let consistency := elem features 6 in
  let confidence := Num 1 in
  let confidence :=
    if (holdTime <? Num 20)%js || (holdTime >? Num 300)%js
    then (confidence * Num 0.8)%js else confidence in
  let confidence :=
    if (flightTime <? Num 10)%js || (flightTime >? Num 500)%js
    then (confidence * Num 0.8)%js else confidence in
  let confidence :=
    if (speed <? Num 10)%js || (speed >? Num 200)%js
    then (confidence * Num 0.7)%js else confidence in
  let confidence :=
    if (errorRate >? Num 20)%js
    then (confidence * Num 0.6)%js else confidence in
  let confidence :=
    if (consistency <? Num 30)%js
    then (confidence * Num 0.7)%js else confidence in
  max (Num 0.1) confidence.

(** [getRecommendation(riskScore, confidence)] *)
Definition getRecommendation (riskScore confidence : number)
  : Recommendation :=
  if (confidence <? Num 0.5)%js then STEP_UP
  else if (riskScore <? Num 0.3)%js then GRANT
  else if (riskScore >? Num 0.7)%js then DENY
  else STEP_UP.

(** The object returned when the model is not ready or the prediction
    fails. *)
Definition moderate_risk (features : list number) : RiskPrediction :=
  {| riskScore := Num 0.5; confidence := Num 0.1;
     recommendation := STEP_UP; features := features |}.

(** [featureTensor.sub(mean).div(std)] on one row *)
Fixpoint normalize (features mean std : list number) : list number :=
  match features, mean, std with
  | x :: xs, m :: ms, s :: ss => ((x - m) / s)%js :: normalize xs ms ss
  | _, _, _ => []
  end.

(** [calculateRisk(features)] *)
Definition calculateRisk (st : State) (features : list number)
  : RiskPrediction :=
  match isModelReady st, model st, normalizeParams st with
  | true, Some m, Some params =>
      match predict m (normalize features (mean params) (std params)) with
      | Some risk =>
          let confidence := calculateConfidence features in
          {| riskScore := risk; confidence := confidence;
             recommendation := getRecommendation risk confidence;
             features := features |}
      | None => moderate_risk features
      end
  | _, _, _ => moderate_risk features
  end.

(** [dispose()] *)
Definition dispose (st : State) : State :=
  {| model := None; isModelReady := false; normalizeParams := None |}.

End LocalRisk.

(* ===================================================================== *)
(** ** server/types.ts *)
(* ===================================================================== *)

Module Types.

Record BiometricFeatures := mkBiometricFeatures {
  holdTimes : list Q;
  flightTimes : list Q;
  errorRate : Q;
  typingSpeed : Q;
  timestamp : Q
}.

(** A stored sample.  The averages and variances are quotients by an array
    length that may be zero, so they are [number]s; [holdVelocityVariance]
    and [timestamp] are optional. *)
Record BiometricSampleSummary := mkBiometricSampleSummary {
  avgHoldTime : number;
  avgFlightTime : number;
  holdTimeVariance : number;
  flightTimeVariance : number;
  s_errorRate : number;
  s_typingSpeed : number;
  holdVelocityVariance : option number;
  s_timestamp : option Z
}.

(** Dates are held as their epoch milliseconds. *)
Record BiometricProfile := mkBiometricProfile {
  userId : string;
  createdAt : Z;
  lastUpdated : Z;
  samples : list BiometricSampleSummary
}.

Record UserRecord := mkUserRecord {
  id : string;
  username : string;
  password : string;
  u_createdAt : Z;
  lastLogin : option Z;
  loginCount : Z;
  isActive : bool
}.

End Types.

(** What the server code calls and this development leaves abstract:
    [Math.sqrt], [bcrypt.compare], [parseFloat] and the fuzzy matcher of
    security-question answers. *)
Class Externals := mkExternals {
  Math_sqrt : number -> number;
  bcrypt_compare : string -> string -> bool;
  parseFloat : string -> number;
  fuzzyMatch : string -> string -> bool
}.

(* ===================================================================== *)
(** ** server/services/riskCalculator.js: [RiskCalculator] *)
(* ===================================================================== *)

Module RiskCalculator.
Import Types.

Record RiskFactors := mkRiskFactors {
  temporal : number;
  behavioral : number;
  consistency : number;
  deviation : number;
  velocity : number;
  client : number
}.

(** The [analysis] text: the fixed sentence of a new user, or the risk
    level that opens the generated sentence (its "primary concern" suffix
    is not modelled). *)
Inductive Analysis :=
| NewUser
| RiskLevel (level : string)
| CalculationFailed.

(** The object returned by [calculateRisk]; [factors] is [None] for the
    [{ error: true }] of the failure fallback. *)
Record RiskAnalysis := mkRiskAnalysis {
  finalScore : number;
  factors : option RiskFactors;
  confidence : number;
  analysis : Analysis
}.

(** [calculateAverage(array)] *)
Definition calculateAverage (array : list number) : number :=
  match array with
  | [] => Num 0
  | _ => (sum array / of_nat (length array))%js
  end.

(** [calculateVariance(array)] *)
Definition calculateVariance (array : list number) : number :=
  if (length array <? 2)%nat then Num 0
  else
    let avg := calculateAverage array in
    let squaredDiffs := map (fun val => ((val - avg) * (val - avg))%js) array in
    calculateAverage squaredDiffs.

(** [calculateStandardDeviation(array)] *)
Definition calculateStandardDeviation `{Externals} (array : list number)
  : number :=
  Math_sqrt (calculateVariance array).

(** [calculateZScore(value, historicalValues)] *)
Definition calculateZScore `{Externals} (value : number)
  (historicalValues : list number) : number :=
  if (length historicalValues <? 2)%nat then Num 0
  else
    let mean := calculateAverage historicalValues in
    let std := calculateStandardDeviation historicalValues in
    if (std >? Num 0)%js then ((value - mean) / std)%js else Num 0.

(** The arrays of a feature vector as arrays of numbers. *)
Definition holds (current : BiometricFeatures) : list number :=
  map Num (holdTimes current).
Definition flights (current : BiometricFeatures) : list number :=
  map Num (flightTimes current).

(** [calculateTemporalRisk(current, profile)] *)
Definition calculateTemporalRisk (current : BiometricFeatures)
  (profile : BiometricProfile) : number :=
  let avgHoldTimes := calculateAverage (map avgHoldTime (samples profile)) in
  let avgFlightTimes :=
    calculateAverage (map avgFlightTime (samples profile)) in
  let currentHoldAvg := calculateAverage (holds current) in
  let currentFlightAvg := calculateAverage (flights current) in
  let holdDeviation :=
    (abs (currentHoldAvg - avgHoldTimes) / avgHoldTimes)%js in
  let flightDeviation :=
    (abs (currentFlightAvg - avgFlightTimes) / avgFlightTimes)%js in
  let holdRisk := min (holdDeviation * Num 2)%js (Num 1) in
  let flightRisk := min (flightDeviation * Num 2)%js (Num 1) in
  ((holdRisk + flightRisk) / Num 2)%js.

(** [calculateBehavioralRisk(current, profile)] *)
Definition calculateBehavioralRisk (current : BiometricFeatures)
  (profile : BiometricProfile) : number :=
  let avgErrorRate := calculateAverage (map s_errorRate (samples profile)) in
  let avgTypingSpeed :=
    calculateAverage (map s_typingSpeed (samples profile)) in
  let errorDeviation := abs (Num (errorRate current) - avgErrorRate)%js in
  let speedDeviation :=
    (abs (Num (typingSpeed current) - avgTypingSpeed) / avgTypingSpeed)%js in
  let errorRisk := min (errorDeviation * Num 5)%js (Num 1) in
  let speedRisk := min (speedDeviation * Num 3)%js (Num 1) in
  ((errorRisk + speedRisk) / Num 2)%js.

(** [calculateConsistencyRisk(current, profile)] *)
Definition calculateConsistencyRisk (current : BiometricFeatures)
  (profile : BiometricProfile) : number :=
  let currentHoldVariance := calculateVariance (holds current) in
  let currentFlightVariance := calculateVariance (flights current) in
  let historicalHoldVariances :=
    map (fun s => (holdTimeVariance s || Num 0)%js) (samples profile) in
  let historicalFlightVariances :=
    map (fun s => (flightTimeVariance s || Num 0)%js) (samples profile) in
  let avgHoldVariance := calculateAverage historicalHoldVariances in
  let avgFlightVariance := calculateAverage historicalFlightVariances in
  let holdConsistencyRisk :=
    if (avgHoldVariance >? Num 0)%js
    then (abs (currentHoldVariance - avgHoldVariance) / avgHoldVariance)%js
    else Num 0 in
  let flightConsistencyRisk :=
    if (avgFlightVariance >? Num 0)%js
    then (abs (currentFlightVariance - avgFlightVariance)
          / avgFlightVariance)%js
    else Num 0 in
  min ((holdConsistencyRisk + flightConsistencyRisk) / Num 2)%js (Num 1).

(** [calculateDeviationRisk(current, profile)] *)
Definition calculateDeviationRisk `{Externals} (current : BiometricFeatures)
  (profile : BiometricProfile) : number :=
  let samples := samples profile in
  let holdTimeZScore :=
    calculateZScore (calculateAverage (holds current))
      (map avgHoldTime samples) in
  let flightTimeZScore :=
    calculateZScore (calculateAverage (flights current))
      (map avgFlightTime samples) in
  let typingSpeedZScore :=
    calculateZScore (Num (typingSpeed current))
      (map s_typingSpeed samples) in
  let holdRisk := min (abs holdTimeZScore / Num 3)%js (Num 1) in
  let flightRisk := min (abs flightTimeZScore / Num 3)%js (Num 1) in
  let speedRisk := min (abs typingSpeedZScore / Num 3)%js (Num 1) in
  ((holdRisk + flightRisk + speedRisk) / Num 3)%js.

(** The loop [for (i = 1; i < times.length; i++)] that pushes
    [times[i] - times[i - 1]]. *)
Fixpoint velocities (times : list number) : list number :=
  match times with
  | a :: (b :: _) as rest => (b - a)%js :: velocities rest
  | _ => []
  end.

(** [s.holdVelocityVariance || 0], the field being optional. *)
Definition holdVelocityVariance_or_0 (s : BiometricSampleSummary) : number :=
  match holdVelocityVariance s with
  | Some v => (v || Num 0)%js
  | None => Num 0
  end.

(** [calculateVelocityRisk(current, profile)]; the variance of the flight
    velocities is computed by the source and never read. *)
Definition calculateVelocityRisk (current : BiometricFeatures)
  (profile : BiometricProfile) : number :=
  let holdTimes := holds current in
  let flightTimes := flights current in
  if (length holdTimes <? 3)%nat || (length flightTimes <? 3)%nat
  then Num 0.3
  else
    let holdVelocities := velocities holdTimes in
    let holdVelocityVariance := calculateVariance holdVelocities in
    let historicalHoldVelocityVariance :=
      calculateAverage (map holdVelocityVariance_or_0 (samples profile)) in
    let velocityRisk :=
      if (historicalHoldVelocityVariance >? Num 0)%js
      then (abs (holdVelocityVariance - historicalHoldVelocityVariance)
            / historicalHoldVelocityVariance)%js
      else Num 0.3 in
    min velocityRisk (Num 1).

(** The [weights] object of [calculateWeightedScore]. *)
Definition weights : list (string * Q) :=
  [("temporal", 0.25); ("behavioral", 0.2); ("consistency", 0.2);
   ("deviation", 0.15); ("velocity", 0.1); ("client", 0.1)]%string.

(** [weights[factor]], [undefined] for a name that is not a key. *)
Fixpoint weight_of (table : list (string * Q)) (factor : string) : option Q :=
  match table with
  | [] => None
  | (name, w) :: rest =>
      if String.eqb name factor then Some w else weight_of rest factor
  end.

(** [Object.entries(factors)], in the order the object literal lists its
    keys. *)
Definition entries (f : RiskFactors) : list (string * number) :=
  [("temporal", temporal f); ("behavioral", behavioral f);
   ("consistency", consistency f); ("deviation", deviation f);
   ("velocity", velocity f); ("client", client f)]%string.

(** One turn of the loop of [calculateWeightedScore]: the factor counts
    when it is a number other than NaN whose weight is defined and truthy. *)
Definition accumulate (acc : number * number) (entry : string * number)
  : number * number :=
  let '(weightedSum, totalWeight) := acc in
  let '(factor, value) := entry in
  match weight_of weights factor with
  | Some w =>
      if negb (isNaN value) && truthy (Num w)
      then ((weightedSum + value * Num w)%js, (totalWeight + Num w)%js)
      else acc
  | None => acc
  end.

Definition weighted_score_of (es : list (string * number)) : number :=
  let '(weightedSum, totalWeight) :=
    fold_left accumulate es (Num 0, Num 0) in
  if (totalWeight >? Num 0)%js then (weightedSum / totalWeight)%js
  else Num 0.5.

(** [calculateWeightedScore(factors)] *)
Definition calculateWeightedScore (f : RiskFactors) : number :=
  weighted_score_of (entries f).

Definition ms_per_day : Q := 1000 * 60 * 60 * 24.

(** [calculateConfidence(profile)], [now] being [Date.now()]. *)
Definition calculateConfidence (now : Z) (profile : BiometricProfile)
  : number :=
  let sampleCount := of_nat (length (samples profile)) in
  let daysSinceFirstSample :=
    ((of_Z now - of_Z (createdAt profile)) / Num ms_per_day)%js in
  let sampleConfidence := min (sampleCount / Num 20)%js (Num 1) in
  let timeConfidence := min (daysSinceFirstSample / Num 30)%js (Num 1) in
  ((sampleConfidence + timeConfidence) / Num 2)%js.

(** The risk level that opens the text of [generateAnalysis]. *)
Definition generateAnalysis (finalScore : number) : Analysis :=
  RiskLevel
    (if (finalScore <? Num 0.3)%js then "Low"
     else if (finalScore <? Num 0.7)%js then "Medium" else "High")%string.

(** The factors of a user without history. *)
Definition new_user_factors (clientRiskScore : Q) : RiskFactors :=
  {| temporal := Num 0.4; behavioral := Num 0.4; consistency := Num 0.5;
     deviation := Num 0.3; velocity := Num 0.3;
     client := (Num clientRiskScore || Num 0)%js |}.

(** The object of the [catch] branch.  No operation of this model raises,
    so [calculateRisk] below never returns it. *)
Definition failure_fallback : RiskAnalysis :=
  {| finalScore := Num 0.8; factors := None; confidence := Num 0;
     analysis := CalculationFailed |}.

(** [calculateRisk(currentFeatures, userProfile, clientRiskScore)], [now]
    being [Date.now()].  The feature vector and the client score are finite
    numbers, as the request schema and JSON deliver them; a profile without
    a [samples] array is not modelled apart from the absent profile. *)
Definition calculateRisk `{Externals} (now : Z)
  (currentFeatures : BiometricFeatures)
  (userProfile : option BiometricProfile) (clientRiskScore : Q)
  : RiskAnalysis :=
  match userProfile with
  | None =>
      let factors := new_user_factors clientRiskScore in
      {| finalScore := calculateWeightedScore factors;
         factors := Some factors; confidence := Num 0.3;
         analysis := NewUser |}
  | Some profile =>
      match samples profile with
      | [] =>
          let factors := new_user_factors clientRiskScore in
          {| finalScore := calculateWeightedScore factors;
             factors := Some factors; confidence := Num 0.3;
             analysis := NewUser |}
      | _ =>
          let factors :=
            {| temporal := calculateTemporalRisk currentFeatures profile;
               behavioral := calculateBehavioralRisk currentFeatures profile;
               consistency :=
                 calculateConsistencyRisk currentFeatures profile;
               deviation := calculateDeviationRisk currentFeatures profile;
               velocity := calculateVelocityRisk currentFeatures profile;
               client := (Num clientRiskScore || Num 0)%js |} in
          let finalScore := calculateWeightedScore factors in
          {| finalScore := finalScore; factors := Some factors;
             confidence := calculateConfidence now profile;
             analysis := generateAnalysis finalScore |}
      end
  end.

End RiskCalculator.

(* ===================================================================== *)
(** ** server/services/userManager.js: [UserManager] *)
(* ===================================================================== *)

Module UserManager.
Import Types.

(** The two static maps.  [users] keeps the insertion order that
    [Array.from(this.users.values()).find] walks. *)
Record Store := mkStore {
  users : list UserRecord;
  biometricProfiles : gmap string BiometricProfile
}.

(** [users.find((user) => user.username === username && user.isActive)] *)
Definition find_active (username : string) (us : list UserRecord)
  : option UserRecord :=
  List.find (fun user => String.eqb (Types.username user) username
                         && isActive user) us.

(** The in-place update [user.lastLogin = now; user.loginCount++] on the
    record whose id is [uid]. *)
Definition record_login (now : Z) (uid : string) (us : list UserRecord)
  : list UserRecord :=
  map (fun user =>
         if String.eqb (id user) uid then
           {| id := id user; username := Types.username user;
              password := password user; u_createdAt := u_createdAt user;
              lastLogin := Some now; loginCount := (loginCount user + 1)%Z;
              isActive := isActive user |}
         else user) us.

(** The user object after [user.lastLogin = now; user.loginCount++]. *)
Definition logged_in (now : Z) (user : UserRecord) : UserRecord :=
  {| id := id user; username := Types.username user;
     password := password user; u_createdAt := u_createdAt user;
     lastLogin := Some now; loginCount := (loginCount user + 1)%Z;
     isActive := isActive user |}.

(** [validateUser(username, password)]: the object returned is the stored
    user itself, so it shows the login just counted; the profile attached
    to it is the object held by [biometricProfiles] at that moment. *)
Definition validateUser `{Externals} (now : Z) (username password : string)
  (st : Store) : option (UserRecord * option BiometricProfile) * Store :=
  match find_active username (users st) with
  | None => (None, st)
  | Some user =>
      if bcrypt_compare password (Types.password user) then
        let us := record_login now (id user) (users st) in
        (Some (logged_in now user, biometricProfiles st !! id user),
         {| users := us; biometricProfiles := biometricProfiles st |})
      else (None, st)
  end.

(** [getUserById(userId)] *)
Definition getUserById (userId : string) (st : Store) : option UserRecord :=
  List.find (fun user => String.eqb (id user) userId) (users st).

(** [values.reduce((sum, val) => sum + val, 0) / values.length], without
    the guard of [calculateAverage]. *)
Definition mean_of (values : list Q) : number :=
  (Num (Qsum values) / of_nat (length values))%js.

(** [values.reduce((sum, val) => sum + Math.pow(val - avg, 2), 0)
     / values.length] *)
Definition variance_about (avg : number) (values : list Q) : number :=
  (fold_left (fun s val => (s + (Num val - avg) * (Num val - avg))%js)
     values (Num 0)
   / of_nat (length values))%js.

(** The sample that [updateBiometricProfile] builds from the features. *)
Definition summarize (now : Z) (features : BiometricFeatures)
  : BiometricSampleSummary :=
  let avgHoldTime := mean_of (holdTimes features) in
  let avgFlightTime := mean_of (flightTimes features) in
  {| avgHoldTime := avgHoldTime;
     avgFlightTime := avgFlightTime;
     holdTimeVariance := variance_about avgHoldTime (holdTimes features);
     flightTimeVariance :=
       variance_about avgFlightTime (flightTimes features);
     s_errorRate := Num (errorRate features);
     s_typingSpeed := Num (typingSpeed features);
     holdVelocityVariance := None;
     s_timestamp := Some now |}.

(** [samples.push(newSample); if (samples.length > 50) samples.shift()] *)
Definition push_sample (newSample : BiometricSampleSummary)
  (samples : list BiometricSampleSummary) : list BiometricSampleSummary :=
  let pushed := samples ++ [newSample] in
  if (50 <? length pushed)%nat then tl pushed else pushed.

(** [updateBiometricProfile(userId, features)] *)
Definition updateBiometricProfile (now : Z) (userId : string)
  (features : BiometricFeatures) (st : Store) : bool * Store :=
  match biometricProfiles st !! userId with
  | None => (false, st)
  | Some profile =>
      let profile' :=
        {| Types.userId := Types.userId profile;
           createdAt := createdAt profile;
           lastUpdated := now;
           samples := push_sample (summarize now features)
                        (samples profile) |} in
      (true,
       {| users := users st;
          biometricProfiles :=
            <[ userId := profile' ]> (biometricProfiles st) |})
  end.

(** [resetBiometricProfile(userId)] *)
Definition resetBiometricProfile (now : Z) (userId : string) (st : Store)
  : bool * Store :=
  match List.find (fun user => String.eqb (id user) userId) (users st) with
  | None => (false, st)
  | Some _ =>
      (true,
       {| users := users st;
          biometricProfiles :=
            <[ userId := {| Types.userId := userId; createdAt := now;
                            lastUpdated := now; samples := [] |} ]>
              (biometricProfiles st) |})
  end.

End UserManager.

(* ===================================================================== *)
(** ** [ChallengeManager] *)
(* ===================================================================== *)

Module ChallengeManager.

(** [answer] holds [challenge.answer.toString()]; dates are epoch
    milliseconds. *)
Record ChallengeData := mkChallengeData {
  id : string;
  userId : string;
  type : string;
  question : string;
  answer : string;
  hints : list string;
  createdAt : Z;
  expiresAt : Z;
  attempts : Z;
  maxAttempts : Z;
  completed : bool
}.

(** The objects [verifyChallenge] returns. *)
Inductive VerifyResult :=
| Valid (userId challengeType : string) (attempts : Z)
| Invalid (error : string) (attemptsRemaining : option Z).

(** What [createChallenge] returns to its caller. *)
Record PublicChallenge := mkPublicChallenge {
  p_id : string;
  p_type : string;
  p_question : string;
  p_hints : list string;
  expiresIn : Z
}.

(** The outcome of the random draws of [createChallenge]: the uuid, the
    type picked when none is given, and the generated question. *)
Record Drawn := mkDrawn {
  d_id : string;
  d_type : string;
  d_question : string;
  d_answer : string;
  d_hints : list string
}.

Definition lower_ascii (c : ascii) : ascii :=
  let n := nat_of_ascii c in
  if (65 <=? n)%nat && (n <=? 90)%nat then ascii_of_nat (n + 32) else c.

(** [toLowerCase()] on the ASCII letters *)
Fixpoint toLowerCase (s : string) : string :=
  match s with
  | EmptyString => EmptyString
  | String c rest => String (lower_ascii c) (toLowerCase rest)
  end.

Definition is_space (c : ascii) : bool :=
  let n := nat_of_ascii c in
  (n =? 32)%nat || ((9 <=? n)%nat && (n <=? 13)%nat).

Fixpoint trim_start (s : string) : string :=
  match s with
  | String c rest => if is_space c then trim_start rest else s
  | EmptyString => EmptyString
  end.

(** [trim()] on the ASCII white space *)
Definition trim (s : string) : string :=
  String.rev (trim_start (String.rev (trim_start s))).

(** [verifySolution(challenge, solution)] *)
Definition verifySolution `{Externals} (challenge : ChallengeData)
  (solution : string) : bool :=
  let normalizedSolution := trim (toLowerCase solution) in
  let normalizedAnswer := trim (toLowerCase (answer challenge)) in
  if String.eqb (type challenge) "math" then
    strict_eq (parseFloat normalizedSolution) (parseFloat normalizedAnswer)
  else if String.eqb (type challenge) "security_questions" then
    fuzzyMatch normalizedSolution normalizedAnswer
  else String.eqb normalizedSolution normalizedAnswer.

(** [challenge.attempts++] *)
Definition count_attempt (c : ChallengeData) : ChallengeData :=
  {| id := id c; userId := userId c; type := type c;
     question := question c; answer := answer c; hints := hints c;
     createdAt := createdAt c; expiresAt := expiresAt c;
     attempts := (attempts c + 1)%Z; maxAttempts := maxAttempts c;
     completed := completed c |}.

(** [challenge.completed = true] *)
Definition complete (c : ChallengeData) : ChallengeData :=
  {| id := id c; userId := userId c; type := type c;
     question := question c; answer := answer c; hints := hints c;
     createdAt := createdAt c; expiresAt := expiresAt c;
     attempts := attempts c; maxAttempts := maxAttempts c;
     completed := true |}.

(** [verifyChallenge(challengeId, solution)], [now] being [new Date()]. *)
Definition verifyChallenge `{Externals} (now : Z) (challengeId : string)
  (solution : string) (challenges : gmap string ChallengeData)
  : VerifyResult * gmap string ChallengeData :=
  match challenges !! challengeId with
  | None => (Invalid "Challenge not found or expired" None, challenges)
  | Some challenge =>
      if (expiresAt challenge <? now)%Z then
        (Invalid "Challenge expired" None, delete challengeId challenges)
      else if completed challenge then
        (Invalid "Challenge already completed" None, challenges)
      else if (maxAttempts challenge <=? attempts challenge)%Z then
        (Invalid "Maximum attempts exceeded" None,
         delete challengeId challenges)
      else
        let challenge := count_attempt challenge in
        if verifySolution challenge solution then
          (Valid (userId challenge) (type challenge) (attempts challenge),
           <[ challengeId := complete challenge ]> challenges)
        else
          (Invalid "Incorrect solution"
             (Some (maxAttempts challenge - attempts challenge)%Z),
           <[ challengeId := challenge ]> challenges)
  end.

(** Successive calls of [verifyChallenge] on one id, each with its clock
    reading and its solution: the results in order, and the map left. *)
Fixpoint verify_all `{Externals} (calls : list (Z * string))
  (challengeId : string) (challenges : gmap string ChallengeData)
  : list VerifyResult * gmap string ChallengeData :=
  match calls with
  | [] => ([], challenges)
  | (now, solution) :: rest =>
      let '(result, challenges) :=
        verifyChallenge now challengeId solution challenges in
      let '(results, challenges) := verify_all rest challengeId challenges in
      (result :: results, challenges)
  end.

(** [cleanupExpiredChallenges()] *)
Definition cleanupExpiredChallenges (now : Z)
  (challenges : gmap string ChallengeData) : gmap string ChallengeData :=
  filter (fun entry => ¬ (expiresAt entry.2 < now)%Z) challenges.

(** [createChallenge(userId, type)] for the draws [d]. *)
Definition createChallenge (now : Z) (d : Drawn) (userId : string)
  (type : option string) (challenges : gmap string ChallengeData)
  : PublicChallenge * gmap string ChallengeData :=
  let challengeType := default (d_type d) type in
  let challengeData :=
    {| id := d_id d; userId := userId; type := challengeType;
       question := d_question d; answer := d_answer d; hints := d_hints d;
       createdAt := now; expiresAt := (now + 5 * 60 * 1000)%Z;
       attempts := 0; maxAttempts := 3; completed := false |} in
  ({| p_id := d_id d; p_type := challengeType; p_question := d_question d;
      p_hints := d_hints d; expiresIn := 300 |},
   cleanupExpiredChallenges now (<[ d_id d := challengeData ]> challenges)).

End ChallengeManager.

(* ===================================================================== *)
(** ** The Express auth controller: [login] and [stepUp] *)
(* ===================================================================== *)

Module AuthController.
Import Types.

Inductive Action := GRANT | STEP_UP | DENY | RETRY.

(** The body of a login request, already of the shape the schema expects
    (strings where it wants strings, numbers where it wants numbers). *)
Record LoginBody := mkLoginBody {
  username : string;
  password : string;
  riskScore : Q;
  features : BiometricFeatures
}.

(** The payload that [generateToken] signs. *)
Record Token := mkToken {
  t_userId : string;
  t_username : string;
  t_riskScore : number;
  iat : Z;
  exp : Z
}.

(** The JSON answer of a handler, with its HTTP status. *)
Record Response := mkResponse {
  status : Z;
  success : bool;
  action : Action;
  message : string;
  sessionToken : option Token;
  challengeId : option string;
  challengeType : option string;
  r_riskScore : option number;
  attemptsRemaining : option Z
}.

(** The state the handlers work on: the maps of [UserManager] and of
    [ChallengeManager]. *)
Record Server := mkServer {
  store : UserManager.Store;
  challenges : gmap string ChallengeManager.ChallengeData
}.

Definition in_range (lo hi : nat) (s : string) : bool :=
  (lo <=? String.length s)%nat && (String.length s <=? hi)%nat.

Definition Qbetween (lo hi q : Q) : bool := Qle_bool lo q && Qle_bool q hi.

(** [biometricSchema]: [errorRate] within 0..1 and [typingSpeed] at least 0. *)
Definition biometricSchema (f : BiometricFeatures) : bool :=
  Qbetween 0 1 (errorRate f) && Qle_bool 0 (typingSpeed f).

(** [loginSchema.parse(req.body)]: [None] stands for the [ZodError]. *)
Definition loginSchema_parse (body : LoginBody) : option LoginBody :=
  if in_range 3 50 (username body) && in_range 6 100 (password body)
     && Qbetween 0 1 (riskScore body) && biometricSchema (features body)
  then Some {| username := ChallengeManager.trim (username body);
               password := password body; riskScore := riskScore body;
               features := features body |}
  else None.

(** [generateToken(user, riskScore)] *)
Definition generateToken (now : Z) (user : UserRecord) (riskScore : number)
  : Token :=
  {| t_userId := id user; t_username := Types.username user;
     t_riskScore := riskScore; iat := (now / 1000)%Z;
     exp := (now / 1000 + 60 * 60)%Z |}.

(** [mapType] *)
Definition mapType (t : string) : string :=
  if String.eqb t "captcha" then "CAPTCHA"%string else "MATH"%string.

Definition denied (status : Z) (message : string) (score : option number)
  : Response :=
  {| status := status; success := false; action := DENY; message := message;
     sessionToken := None; challengeId := None; challengeType := None;
     r_riskScore := score; attemptsRemaining := None |}.

(** The three-way branch of [login] on [riskAnalysis.finalScore]. *)
Definition decide_action (finalScore : number) : Action :=
  if (finalScore <? Num 0.3)%js then GRANT
  else if (finalScore <? Num 0.7)%js then STEP_UP
  else DENY.

(** [login(req, res, next)] for the clock reading [now] and the draws [d]
    that a challenge would use. *)
Definition login `{Externals} (now : Z) (d : ChallengeManager.Drawn)
  (body : LoginBody) (srv : Server) : Response * Server :=
  match loginSchema_parse body with
  | None => (denied 400 "Invalid request data" (Some (Num 1)), srv)
  | Some validatedData =>
      match UserManager.validateUser now (username validatedData)
              (password validatedData) (store srv) with
      | (None, _) => (denied 500 "Invalid credentials" (Some (Num 1)), srv)
      | (Some (user, biometricProfile), st1) =>
          let riskAnalysis :=
            RiskCalculator.calculateRisk now (features validatedData)
              biometricProfile (riskScore validatedData) in
          let finalScore := RiskCalculator.finalScore riskAnalysis in
          let st2 :=
            snd (UserManager.updateBiometricProfile now (id user)
                   (features validatedData) st1) in
          match decide_action finalScore with
          | GRANT =>
              ({| status := 200; success := true; action := GRANT;
                  message := "Authentication successful";
                  sessionToken := Some (generateToken now user finalScore);
                  challengeId := None; challengeType := None;
                  r_riskScore := Some finalScore;
                  attemptsRemaining := None |},
               {| store := st2; challenges := challenges srv |})
          | STEP_UP =>
              let '(challenge, cs) :=
                ChallengeManager.createChallenge now d (id user) None
                  (challenges srv) in
              ({| status := 200; success := true; action := STEP_UP;
                  message := "Additional verification required";
                  sessionToken := None;
                  challengeId := Some (ChallengeManager.p_id challenge);
                  challengeType :=
                    Some (mapType (ChallengeManager.p_type challenge));
                  r_riskScore := Some finalScore;
                  attemptsRemaining := None |},
               {| store := st2; challenges := cs |})
          | _ =>
              (denied 200 "Authentication denied due to high risk score"
                 (Some finalScore),
               {| store := st2; challenges := challenges srv |})
          end
      end
  end.

(** [stepUp(req, res, next)] on a body that passed [stepUpSchema]. *)
Definition stepUp `{Externals} (now : Z) (challengeId solution : string)
  (srv : Server) : Response * Server :=
  let '(challengeResult, cs) :=
    ChallengeManager.verifyChallenge now challengeId solution
      (challenges srv) in
  let srv' := {| store := store srv; challenges := cs |} in
  match challengeResult with
  | ChallengeManager.Invalid error remaining =>
      match remaining with
      | Some n =>
          if (0 <? n)%Z then
            ({| status := 200; success := false; action := RETRY;
                message := "Incorrect solution. Please try again.";
                sessionToken := None; challengeId := None;
                challengeType := None; r_riskScore := None;
                attemptsRemaining := Some n |}, srv')
          else (denied 200 error None, srv')
      | None => (denied 200 error None, srv')
      end
  | ChallengeManager.Valid userId _ _ =>
      match UserManager.getUserById userId (store srv) with
      | None => (denied 500 "User not found" None, srv')
      | Some user =>
          ({| status := 200; success := true; action := GRANT;
              message := "Authentication successful";
              sessionToken := Some (generateToken now user (Num 0.2));
              challengeId := None; challengeType := None;
              r_riskScore := None; attemptsRemaining := None |}, srv')
      end
  end.

(** The profile of [uid] held by the baseline store. *)
Definition profile_of (uid : string) (srv : Server)
  : option BiometricProfile :=
  UserManager.biometricProfiles (store srv) !! uid.

End AuthController.

(* ===================================================================== *)
(** ** Stand-ins and sample data for running the model *)
(* ===================================================================== *)

Module Demo.
Import Types.

(** [Math.sqrt] to six decimal places, rounded down. *)
Definition sqrt_approx (a : number) : number :=
  match a with
  | Num q =>
      match q ?= 0 with
      | Lt => NaN
      | _ =>
          Num (Z.sqrt (Qnum q * 1000000000000 / Zpos (Qden q)) # 1000000)
      end
  | PosInf => PosInf
  | _ => NaN
  end.

Fixpoint digits_value (acc : Z) (s : string) : option Z :=
  match s with
  | EmptyString => Some acc
  | String c rest =>
      let n := nat_of_ascii c in
      if (48 <=? n)%nat && (n <=? 57)%nat
      then digits_value (acc * 10 + Z.of_nat (n - 48))%Z rest
      else None
  end.

(** [parseFloat] on strings of decimal digits; NaN elsewhere. *)
Definition parse_digits (s : string) : number :=
  match s with
  | EmptyString => NaN
  | _ => match digits_value 0 s with Some z => of_Z z | None => NaN end
  end.

(** Stand-ins for the external functions: hashes are the password behind a
    prefix, and the fuzzy matcher is plain equality. *)
#[global] Instance externals : Externals :=
  {| Math_sqrt := sqrt_approx;
     bcrypt_compare := fun password hash =>
       String.eqb (String.append "bcrypt:" password) hash;
     parseFloat := parse_digits;
     fuzzyMatch := String.eqb |}.

Definition alice : UserRecord :=
  {| id := "u-1"; username := "alice"; password := "bcrypt:pass123";
     u_createdAt := 0; lastLogin := None; loginCount := 0;
     isActive := true |}.

(** One stored session of the kind [generateSyntheticSample] makes: 100 ms
    holds and flights, 100 words a minute, no correction, variances 10, and
    a hold-velocity variance of 5. *)
Definition steady_sample : BiometricSampleSummary :=
  {| avgHoldTime := Num 100; avgFlightTime := Num 100;
     holdTimeVariance := Num 10; flightTimeVariance := Num 10;
     s_errorRate := Num 0; s_typingSpeed := Num 100;
     holdVelocityVariance := Some (Num 5); s_timestamp := Some 0%Z |}.

Definition alice_profile : BiometricProfile :=
  {| userId := "u-1"; createdAt := 0; lastUpdated := 0;
     samples := [steady_sample] |}.

Definition server0 : AuthController.Server :=
  {| AuthController.store :=
       {| UserManager.users := [alice];
          UserManager.biometricProfiles :=
            {[ "u-1"%string := alice_profile ]} |};
     AuthController.challenges := ∅ |}.

(** A session ten times slower than the stored one. *)
Definition slow_features : BiometricFeatures :=
  {| holdTimes := [1000; 1000]; flightTimes := [1000; 1000];
     errorRate := 1; typingSpeed := 1000; timestamp := 0 |}.

(** A session with the stored flights and holds ten times longer: against
    [alice_profile] its factors are temporal 0.5, behavioral 1, consistency
    1, deviation 0 and velocity 1. *)
Definition threshold_features : BiometricFeatures :=
  {| holdTimes := [1000; 1000; 1000]; flightTimes := [100; 100; 100];
     errorRate := 1; typingSpeed := 1000; timestamp := 0 |}.

(** A session equal to the stored one. *)
Definition steady_features : BiometricFeatures :=
  {| holdTimes := [100; 100; 100]; flightTimes := [100; 100; 100];
     errorRate := 0; typingSpeed := 100; timestamp := 0 |}.

Definition body (f : BiometricFeatures) (risk : Q) : AuthController.LoginBody :=
  {| AuthController.username := "alice";
     AuthController.password := "pass123";
     AuthController.riskScore := risk;
     AuthController.features := f |}.

Definition drawn : ChallengeManager.Drawn :=
  {| ChallengeManager.d_id := "c-1"; ChallengeManager.d_type := "captcha";
     ChallengeManager.d_question := "Type the following characters: AB2CD";
     ChallengeManager.d_answer := "AB2CD"; ChallengeManager.d_hints := [] |}.

(** A captcha challenge of user [u-1], created at 0 and expiring after five
    minutes. *)
Definition captcha : ChallengeManager.ChallengeData :=
  {| ChallengeManager.id := "c-1"; ChallengeManager.userId := "u-1";
     ChallengeManager.type := "captcha";
     ChallengeManager.question := "Type the following characters: AB2CD";
     ChallengeManager.answer := "AB2CD"; ChallengeManager.hints := [];
     ChallengeManager.createdAt := 0; ChallengeManager.expiresAt := 300000;
     ChallengeManager.attempts := 0; ChallengeManager.maxAttempts := 3;
     ChallengeManager.completed := false |}.

(** A session whose timings are negative numbers, which the request schema
    lets through, and the one-sample profile it leaves behind. *)
Definition negative_features : BiometricFeatures :=
  {| holdTimes := [-100; -100]; flightTimes := [-100; -100];
     errorRate := 0; typingSpeed := 100; timestamp := 0 |}.

Definition negative_profile : BiometricProfile :=
  {| userId := "u-1"; createdAt := 0; lastUpdated := 0;
     samples := [UserManager.summarize 0 negative_features] |}.

(** The server after [resetBiometricProfile] on [alice] at clock 0, and
    after her login with [negative_features] at that same reading. *)
Definition server_reset : AuthController.Server :=
  {| AuthController.store :=
       (UserManager.resetBiometricProfile 0 "u-1"
          (AuthController.store server0)).2;
     AuthController.challenges := ∅ |}.

Definition server_negative : AuthController.Server :=
  (AuthController.login 0 drawn (body negative_features 0.5) server_reset).2.




End Demo.

(* ===================================================================== *)
(** ** Ranges of factors *)
(* ===================================================================== *)

(** A usable factor: a rational between [lo] and [hi]; NaN is left out of
    the weighted score. *)
Definition between_or_nan (lo hi : Q) (a : number) : Prop :=
  match a with
  | Num q => lo <= q <= hi
  | NaN => True
  | _ => False
  end.

(** Some factor of the list is a number other than NaN. *)
Definition some_usable (es : list (string * number)) : Prop :=
  Exists (fun e => isNaN e.2 = false) es.



(* ===================================================================== *)
(** ** More sample data *)
(* ===================================================================== *)

Module Scenario.
Import Types.

(** A profile that has reached the bound of fifty samples. *)
Definition full_profile : BiometricProfile :=
  {| userId := "u-1"; createdAt := 0; lastUpdated := 0;
     samples := replicate 50 Demo.steady_sample |}.

Definition full_store : UserManager.Store :=
  {| UserManager.users := [Demo.alice];
     UserManager.biometricProfiles := {[ "u-1"%string := full_profile ]} |}.

(** Twenty samples, created at clock 0. *)
Definition mature_profile : BiometricProfile :=
  {| userId := "u-1"; createdAt := 0; lastUpdated := 0;
     samples := replicate 20 Demo.steady_sample |}.

(** What the capture sends after four keystrokes: hold times and, as it
    never records any, no flight time. *)
Definition no_flight_features : BiometricFeatures :=
  {| holdTimes := [80; 82; 79; 81]; flightTimes := [];
     errorRate := 0; typingSpeed := 55; timestamp := 0 |}.

(** Factors of which the temporal one is NaN. *)
Definition partial_factors : RiskCalculator.RiskFactors :=
  {| RiskCalculator.temporal := NaN;
     RiskCalculator.behavioral := Num 0.2;
     RiskCalculator.consistency := Num 0.4;
     RiskCalculator.deviation := Num 0.3;
     RiskCalculator.velocity := Num 0.3;
     RiskCalculator.client := Num 0.25 |}.

(** The demo server with the captcha challenge of [alice] pending. *)
Definition server_challenged : AuthController.Server :=
  {| AuthController.store := AuthController.store Demo.server0;
     AuthController.challenges := {[ "c-1"%string := Demo.captcha ]} |}.


(** A loaded local model that answers 0.1 on every row, and a row of
    ordinary typing features. *)
Definition ready_model : LocalRisk.State :=
  {| LocalRisk.model :=
       Some {| LocalRisk.predict := fun _ => Some (Num 0.1) |};
     LocalRisk.isModelReady := true;
     LocalRisk.normalizeParams :=
       Some {| LocalRisk.mean := []; LocalRisk.std := [] |} |}.

Definition typical_features : list number :=
  [Num 100; Num 150; Num 10; Num 20; Num 60; Num 2; Num 80; Num 12].

(** A session with one keystroke and one correction. *)
Definition corrected_session : BiometricCapture.TypingSession :=
  BiometricCapture.sessionData
    (BiometricCapture.run 0
       [BiometricCapture.KeyDown "a" 100; BiometricCapture.KeyUp "a" 180;
        BiometricCapture.KeyDown "Backspace" 300]).


End Scenario.

(* ===================================================================== *)
(** ** Traces of keyboard events *)
(* ===================================================================== *)

Module Trace.
Import BiometricCapture.

Definition event_key (e : KeyboardEvent) : string :=
  match e with
  | KeyDown key _ => key
  | KeyUp key _ => key
  end.

(** A press that [captureKeyDown] counts in [totalKeystrokes]. *)
Definition is_keystroke (e : KeyboardEvent) : bool :=
  match e with
  | KeyDown key _ =>
      negb (isModifierKey key) && negb (String.eqb key "Backspace")
  | KeyUp _ _ => false
  end.

(** A press that [captureKeyDown] counts in [corrections]. *)
Definition is_correction (e : KeyboardEvent) : bool :=
  match e with
  | KeyDown key _ => negb (isModifierKey key) && String.eqb key "Backspace"
  | KeyUp _ _ => false
  end.

(** [key.startsWith("F")] on the key of an event. *)
Definition starts_with_F (e : KeyboardEvent) : bool :=
  String.prefix "F" (event_key e).

(** Two keys held at once: [a] is pressed, [b] is pressed and released,
    then [a] is released. *)
Definition overlapping : list KeyboardEvent :=
  [KeyDown "a" 100; KeyDown "b" 150; KeyUp "b" 210; KeyUp "a" 260].

End Trace.


(* ===================================================================== *)
(** ** The login form and the API client *)
(* ===================================================================== *)

Module Client.

(** The [features] of a [LoginRequest], the numbers as JavaScript holds
    them. *)
Record Features := mkFeatures {
  holdTimes : list Q;
  flightTimes : list Q;
  typingSpeed : number;
  errorRate : Q;
  consistencyScore : Q;
  timestamp : Q
}.

Record LoginRequest := mkLoginRequest {
  username : string;
  password : string;
  riskScore : number;
  features : Features
}.

(** [handleSubmit] of the login form, up to the request it hands to the
    API client: [None] when it returns early on an empty field.
    [currentRisk] is the latest local prediction, [session] the copy that
    [getSessionData()] returns and [now] the reading of [Date.now()]. *)
Definition handleSubmit (username password : string)
  (currentRisk : option LocalRisk.RiskPrediction)
  (session : BiometricCapture.TypingSession) (now : Q)
  : option LoginRequest :=
  match username, password with
  | EmptyString, _ | _, EmptyString => None
  | _, _ =>
      Some {| username := username; password := password;
              riskScore :=
                match currentRisk with
                | Some risk => or_else (LocalRisk.riskScore risk) (Num 0.5)
                | None => Num 0.5
                end;
              features :=
                {| holdTimes := BiometricCapture.holdTimes session;
                   flightTimes := BiometricCapture.flightTimes session;
                   typingSpeed := BiometricCapture.typingSpeed session;
                   errorRate := BiometricCapture.errorRate session;
                   consistencyScore :=
                     BiometricCapture.consistencyScore session;
                   timestamp := now |} |}
  end.

(** [JSON.stringify] writes a number that is not finite as [null]. *)
Definition json_number (n : number) : option Q :=
  match n with
  | Num q => Some q
  | _ => None
  end.

(** The body that the controller finds in [req.body]: [None] when a number
    arrived as [null], which [z.number()] refuses; the key
    [consistencyScore] is not part of the schema. *)
Definition received (request : LoginRequest)
  : option AuthController.LoginBody :=
  match json_number (riskScore request),
        json_number (typingSpeed (features request)) with
  | Some score, Some speed =>
      Some {| AuthController.username := username request;
              AuthController.password := password request;
              AuthController.riskScore := score;
              AuthController.features :=
                {| Types.holdTimes := holdTimes (features request);
                   Types.flightTimes := flightTimes (features request);
                   Types.errorRate := errorRate (features request);
                   Types.typingSpeed := speed;
                   Types.timestamp := timestamp (features request) |} |}
  | _, _ => None
  end.

(** The controller's answer to the request sent as JSON, once the request
    has passed the middleware in front of [login]. *)
Definition post_login `{Externals} (now : Z) (d : ChallengeManager.Drawn)
  (request : LoginRequest) (srv : AuthController.Server)
  : AuthController.Response * AuthController.Server :=
  match received request with
  | Some body => AuthController.login now d body srv
  | None =>
      (AuthController.denied 400 "Invalid request data" (Some (Num 1)), srv)
  end.

(** [LoginResponse] as the form reads it. *)
Record LoginResponse := mkLoginResponse {
  success : bool;
  action : AuthController.Action;
  message : string;
  sessionToken : option AuthController.Token;
  r_riskScore : option number
}.

(** The object returned from the [catch] of [AuthClient.login]. *)
Definition network_error : LoginResponse :=
  {| success := false; action := AuthController.DENY;
     message := "Network error occurred. Please try again.";
     sessionToken := None; r_riskScore := Some (Num 1) |}.

(** [AuthClient.login] from the HTTP response on: the answer given to the
    form and the token kept by the client, [stored] being the token held
    before. *)
Definition AuthClient_login (response : AuthController.Response)
  (stored : option AuthController.Token)
  : LoginResponse * option AuthController.Token :=
  if (200 <=? AuthController.status response)%Z
     && (AuthController.status response <=? 299)%Z
  then
    ({| success := AuthController.success response;
        action := AuthController.action response;
        message := AuthController.message response;
        sessionToken := AuthController.sessionToken response;
        r_riskScore := AuthController.r_riskScore response |},
     if AuthController.success response then
       match AuthController.sessionToken response with
       | Some token => Some token
       | None => stored
       end
     else stored)
  else (network_error, stored).

End Client.


(* ===================================================================== *)
(** ** server/utils/rateLimiter.ts *)
(* ===================================================================== *)

Module RateLimiter.

Record Bucket := mkBucket {
  count : Z;
  resetTime : Z;
  firstRequest : Z
}.

(** [cleanup()] at the clock reading [now]: a bucket goes when
    [now > data.resetTime]. *)
Definition cleanup (now : Z) (store : gmap string Bucket)
  : gmap string Bucket :=
  filter (fun entry => ¬ (resetTime entry.2 < now)%Z) store.

(** The key [`${identifier}:${endpoint}`]. *)
Definition key_of (identifier endpoint : string) : string :=
  identifier ++ ":" ++ endpoint.

(** [checkLimit(identifier, endpoint, windowMs, maxRequests)] at the clock
    reading [now]; [sweep] tells whether [Math.random() < 0.01] held.  The
    bucket is an object of the map, so the increment is seen there. *)
Definition checkLimit (sweep : bool) (now : Z) (identifier endpoint : string)
  (windowMs maxRequests : Z) (store : gmap string Bucket)
  : bool * gmap string Bucket :=
  let key := key_of identifier endpoint in
  let store := if sweep then cleanup now store else store in
  let fresh :=
    {| count := 0; resetTime := (now + windowMs)%Z; firstRequest := now |} in
  let '(bucket, store) :=
    match store !! key with
    | Some bucket =>
        if (resetTime bucket <? now)%Z
        then (fresh, <[ key := fresh ]> store)
        else (bucket, store)
    | None => (fresh, <[ key := fresh ]> store)
    end in
  if (maxRequests <=? count bucket)%Z then (false, store)
  else
    (true,
     <[ key := {| count := (count bucket + 1)%Z;
                  resetTime := resetTime bucket;
                  firstRequest := firstRequest bucket |} ]> store).

Record Status := mkStatus {
  st_count : Z;
  st_resetTime : option Z;
  remaining : option Z
}.

(** [getStatus(identifier, endpoint)] *)
Definition getStatus (now : Z) (identifier endpoint : string)
  (store : gmap string Bucket) : Status :=
  match store !! key_of identifier endpoint with
  | None => {| st_count := 0; st_resetTime := None; remaining := None |}
  | Some bucket =>
      {| st_count := count bucket;
         st_resetTime := Some (resetTime bucket);
         remaining := Some (Z.max 0 (resetTime bucket - now)) |}
  end.

(** [reset(identifier, endpoint = null)]: an endpoint that is [null] or
    the empty string is falsy and resets every endpoint. *)
Definition reset (identifier : string) (endpoint : option string)
  (store : gmap string Bucket) : gmap string Bucket :=
  match endpoint with
  | Some (String a rest) =>
      delete (key_of identifier (String a rest)) store
  | _ =>
      filter (fun entry => String.prefix (identifier ++ ":") entry.1 = false)
        store
  end.

(** The answers to a sequence of calls for one identifier and endpoint,
    each call with its sweep flag and its clock reading. *)
Fixpoint serve (calls : list (bool * Z)) (identifier endpoint : string)
  (windowMs maxRequests : Z) (store : gmap string Bucket)
  : list bool * gmap string Bucket :=
  match calls with
  | [] => ([], store)
  | (sweep, now) :: rest =>
      let '(allowed, store) :=
        checkLimit sweep now identifier endpoint windowMs maxRequests store in
      let '(answers, store) :=
        serve rest identifier endpoint windowMs maxRequests store in
      (allowed :: answers, store)
  end.

(** A store with one expired and one live bucket. *)
Definition sample_store : gmap string Bucket :=
  <[ "10.0.0.1:/api/login"%string :=
       {| count := 10; resetTime := 500; firstRequest := 0 |} ]>
    {[ "10.0.0.2:/api/login"%string :=
         {| count := 3; resetTime := 5000; firstRequest := 4000 |} ]}.

End RateLimiter.


(* ===================================================================== *)
(** ** [UserManager]: creating and deleting users *)
(* ===================================================================== *)

Module UserAdmin.
Import Types UserManager.

(** The constants that [generateSyntheticSample] picks by profile type. *)
Record Base := mkBase {
  baseHoldTime : Q;
  baseFlightTime : Q;
  baseErrorRate : Q;
  baseTypingSpeed : Q;
  variance : Q
}.

Definition base_of (profileType : string) : Base :=
  if String.eqb profileType "consistent" then
    {| baseHoldTime := 80; baseFlightTime := 120; baseErrorRate := 0.02;
       baseTypingSpeed := 250; variance := 0.1 |}
  else if String.eqb profileType "robotic" then
    {| baseHoldTime := 100; baseFlightTime := 100; baseErrorRate := 0;
       baseTypingSpeed := 300; variance := 0.05 |}
  else
    {| baseHoldTime := 90; baseFlightTime := 110; baseErrorRate := 0.05;
       baseTypingSpeed := 200; variance := 0.2 |}.

(** The values of [Math.random()] that one synthetic sample uses: one for
    each of the 8 hold times and of the 7 flight times, then one each for
    the error rate, the typing speed and the hold-velocity variance. *)
Record SampleDraws := mkSampleDraws {
  holdDraw : nat -> Q;
  flightDraw : nat -> Q;
  errorDraw : Q;
  speedDraw : Q;
  velocityDraw : Q
}.

(** [base * (1 + (Math.random() - 0.5) * variance)] *)
Definition spread (base variance random : Q) : Q :=
  base * (1 + (random - 0.5) * variance).

(** [generateSyntheticSample(profileType)] *)
Definition generateSyntheticSample (profileType : string)
  (draws : SampleDraws) : BiometricSampleSummary :=
  let b := base_of profileType in
  let holdTimes :=
    map (fun i => spread (baseHoldTime b) (variance b) (holdDraw draws i))
      (seq 0 8) in
  let flightTimes :=
    map (fun i => spread (baseFlightTime b) (variance b) (flightDraw draws i))
      (seq 0 7) in
  let avgHoldTime := mean_of holdTimes in
  let avgFlightTime := mean_of flightTimes in
  {| avgHoldTime := avgHoldTime;
     avgFlightTime := avgFlightTime;
     holdTimeVariance := variance_about avgHoldTime holdTimes;
     flightTimeVariance := variance_about avgFlightTime flightTimes;
     s_errorRate := Num (spread (baseErrorRate b) (variance b)
                           (errorDraw draws));
     s_typingSpeed := Num (spread (baseTypingSpeed b) (variance b)
                             (speedDraw draws));
     holdVelocityVariance := Some (Num (velocityDraw draws * 10));
     s_timestamp := None |}.

(** [createBiometricProfile(userId, profileType)], every reading of the
    clock within the call being [now]: [countDraw] is the draw behind
    [sampleCount], and [draws i] are the draws of the sample number [i],
    which is dated [i] days back. *)
Definition createBiometricProfile (now : Z) (userId profileType : string)
  (countDraw : Q) (draws : nat -> SampleDraws) : BiometricProfile :=
  let sampleCount := (Qfloor (countDraw * 15) + 5)%Z in
  {| Types.userId := userId; createdAt := now; lastUpdated := now;
     samples :=
       map (fun i =>
              let sample := generateSyntheticSample profileType (draws i) in
              {| avgHoldTime := avgHoldTime sample;
                 avgFlightTime := avgFlightTime sample;
                 holdTimeVariance := holdTimeVariance sample;
                 flightTimeVariance := flightTimeVariance sample;
                 s_errorRate := s_errorRate sample;
                 s_typingSpeed := s_typingSpeed sample;
                 holdVelocityVariance := holdVelocityVariance sample;
                 s_timestamp :=
                   Some (now - Z.of_nat i * (24 * 60 * 60 * 1000))%Z |})
         (seq 0 (Z.to_nat sampleCount)) |}.

(** [users.set(user.id, user)] on the list of the map's values: the value
    under an id that is present is replaced where it stands, a new id goes
    to the end. *)
Definition set_user (user : UserRecord) (us : list UserRecord)
  : list UserRecord :=
  if existsb (fun u => String.eqb (id u) (id user)) us
  then map (fun u => if String.eqb (id u) (id user) then user else u) us
  else us ++ [user].

(** What one call of [createUser] draws: the uuid, the bcrypt hash of the
    password and the random numbers of the profile. *)
Record Creation := mkCreation {
  c_userId : string;
  c_hashedPassword : string;
  c_countDraw : Q;
  c_draws : nat -> SampleDraws
}.

(** [createUser(username, password, profileType)] *)
Definition createUser (now : Z) (drawn : Creation)
  (username profileType : string) (st : Store)
  : option UserRecord * Store :=
  match List.find (fun user => String.eqb (Types.username user) username)
          (users st) with
  | Some _ => (None, st)
  | None =>
      let user :=
        {| id := c_userId drawn; username := username;
           password := c_hashedPassword drawn; u_createdAt := now;
           lastLogin := None; loginCount := 0; isActive := true |} in
      let biometricProfile :=
        createBiometricProfile now (c_userId drawn) profileType
          (c_countDraw drawn) (c_draws drawn) in
      (Some user,
       {| users := set_user user (users st);
          biometricProfiles :=
            <[ c_userId drawn := biometricProfile ]>
              (biometricProfiles st) |})
  end.

(** [deleteUser(userId)] *)
Definition deleteUser (userId : string) (st : Store) : bool * Store :=
  (existsb (fun u => String.eqb (id u) userId) (users st),
   {| users :=
        List.filter (fun u => negb (String.eqb (id u) userId)) (users st);
      biometricProfiles := delete userId (biometricProfiles st) |}).

(** The ids and the user names of the store are each without repetition. *)
Definition unique_users (st : Store) : Prop :=
  List.NoDup (map id (users st))
  /\ List.NoDup (map Types.username (users st)).

(** Every draw of a sample lies in the range of [Math.random()]. *)
Definition unit_draws (d : SampleDraws) : Prop :=
  (forall i, 0 <= holdDraw d i < 1) /\ (forall i, 0 <= flightDraw d i < 1)
  /\ 0 <= errorDraw d < 1 /\ 0 <= speedDraw d < 1
  /\ 0 <= velocityDraw d < 1.

(** A sample whose means lie within a tenth of the base values, whose
    variances are finite and not negative and whose hold-velocity variance
    lies within 0..10. *)
Definition near_base (b : Base) (s : BiometricSampleSummary) : Prop :=
  within (0.9 * baseHoldTime b) (1.1 * baseHoldTime b) (avgHoldTime s)
  /\ within (0.9 * baseFlightTime b) (1.1 * baseFlightTime b)
       (avgFlightTime s)
  /\ within (0.9 * baseErrorRate b) (1.1 * baseErrorRate b) (s_errorRate s)
  /\ within (0.9 * baseTypingSpeed b) (1.1 * baseTypingSpeed b)
       (s_typingSpeed s)
  /\ (exists v, holdTimeVariance s = Num v /\ 0 <= v)
  /\ (exists v, flightTimeVariance s = Num v /\ 0 <= v)
  /\ (exists v, holdVelocityVariance s = Some (Num v) /\ 0 <= v <= 10).

(** Draws in the middle of the range, and a creation that uses them. *)
Definition middle_draws : SampleDraws :=
  {| holdDraw := fun _ => 0.5; flightDraw := fun _ => 0.5;
     errorDraw := 0.5; speedDraw := 0.5; velocityDraw := 0.5 |}.

Definition bob_creation : Creation :=
  {| c_userId := "u-2"; c_hashedPassword := "bcrypt:hunter22";
     c_countDraw := 0.5; c_draws := fun _ => middle_draws |}.

End UserAdmin.


(* ===================================================================== *)
(** ** [ChallengeManager]: the fuzzy matcher of security questions *)
(* ===================================================================== *)

Module Matching.
Import ChallengeManager.

(** The class [a-z0-9] of the first pattern. *)
Definition is_lower_or_digit (c : ascii) : bool :=
  let n := nat_of_ascii c in
  ((97 <=? n)%nat && (n <=? 122)%nat) || ((48 <=? n)%nat && (n <=? 57)%nat).

(** The word characters [A-Za-z0-9_] between which [\b] finds no
    boundary. *)
Definition is_word_char (c : ascii) : bool :=
  let n := nat_of_ascii c in
  ((97 <=? n)%nat && (n <=? 122)%nat) || ((65 <=? n)%nat && (n <=? 90)%nat)
  || ((48 <=? n)%nat && (n <=? 57)%nat) || (n =? 95)%nat.

(** [.replace(/[^a-z0-9\s]/g, <empty>)] on ASCII text *)
Fixpoint strip_symbols (s : string) : string :=
  match s with
  | EmptyString => EmptyString
  | String c rest =>
      if is_lower_or_digit c || is_space c
      then String c (strip_symbols rest)
      else strip_symbols rest
  end.

Definition stopWords : list string :=
  ["the"; "a"; "an"; "and"; "or"; "but"; "in"; "on"; "at"; "to"; "for";
   "of"; "with"; "by"]%string.

(** What is left of a maximal run of word characters: nothing when the run
    is one of the words of the pattern. *)
Definition kept (word : string) : string :=
  if existsb (String.eqb word) stopWords then EmptyString else word.

(** [.replace(/\b(the|a|an|and|or|but|in|on|at|to|for|of|with|by)\b/g,
    <empty>)]: between two [\b] the pattern can only match a whole run of
    word characters.  [word] is the run read so far. *)
Fixpoint remove_stop_words (word : string) (s : string) : string :=
  match s with
  | EmptyString => kept word
  | String c rest =>
      if is_word_char c
      then remove_stop_words (word ++ String c EmptyString) rest
      else (kept word ++ String c (remove_stop_words EmptyString rest))
  end%string.

(** [.replace(/\s+/g, " ")]; [in_run] tells that the character before was
    white space. *)
Fixpoint collapse_spaces (in_run : bool) (s : string) : string :=
  match s with
  | EmptyString => EmptyString
  | String c rest =>
      if is_space c then
        if in_run then collapse_spaces true rest
        else String " " (collapse_spaces true rest)
      else String c (collapse_spaces false rest)
  end.

(** The [normalize] of [fuzzyMatch] *)
Definition normalize (str : string) : string :=
  trim (collapse_spaces false
          (remove_stop_words EmptyString (strip_symbols str))).

(** [hay.includes(needle)] *)
Fixpoint includes (hay needle : string) : bool :=
  String.prefix needle hay
  || match hay with
     | EmptyString => false
     | String _ rest => includes rest needle
     end.

(** The cells [matrix[i][j]], [j >= 1], of one row, for the character
    [ai = a[i - 1]]: [above] is row [i - 1] from column [j - 1] on, and
    [left] is [matrix[i][j - 1]]. *)
Fixpoint fill_row (ai : ascii) (b : string) (above : list nat) (left : nat)
  : list nat :=
  match b, above with
  | String bj rest, diagonal :: ((up :: _) as above') =>
      let cost := if Ascii.eqb ai bj then 0%nat else 1%nat in
      let cell :=
        Nat.min (Nat.min (up + 1) (left + 1)) (diagonal + cost) in
      cell :: fill_row ai rest above' cell
  | _, _ => []
  end.

(** The last row of the matrix: [above] is row [i], whose column 0 holds
    [i], and the rows of the rest of [a] are filled from it. *)
Fixpoint last_row (a b : string) (i : nat) (above : list nat) : list nat :=
  match a with
  | EmptyString => above
  | String ai rest =>
      last_row rest b (S i) (S i :: fill_row ai b above (S i))
  end.

(** [levenshteinDistance(a, b)]: [matrix[a.length][b.length]], row 0
    holding [0 .. b.length]. *)
Definition levenshteinDistance (a b : string) : nat :=
  List.last (last_row a b 0 (seq 0 (S (String.length b)))) 0%nat.

(** [fuzzyMatch(solution, answer)] *)
Definition fuzzyMatch (solution answer : string) : bool :=
  let normalizedSolution := normalize solution in
  let normalizedAnswer := normalize answer in
  if String.eqb normalizedSolution normalizedAnswer then true
  else if includes normalizedSolution normalizedAnswer
          || includes normalizedAnswer normalizedSolution then true
  else
    let distance :=
      levenshteinDistance normalizedSolution normalizedAnswer in
    let maxLength :=
      Nat.max (String.length normalizedSolution)
        (String.length normalizedAnswer) in
    let similarity :=
      1 - inject_Z (Z.of_nat distance)
          / inject_Z (Z.of_nat (if (maxLength =? 0)%nat then 1 else maxLength))
    in
    Qle_bool 0.8 similarity.

(** The recurrence that the matrix is filled by, on the reversed prefixes:
    the head of each list is the last character of the prefix. *)
Fixpoint edit_distance (ra : list ascii) : list ascii -> nat :=
  match ra with
  | [] => fun rb => length rb
  | x :: ra' =>
      fix inner (rb : list ascii) : nat :=
        match rb with
        | [] => length ra
        | y :: rb' =>
            Nat.min
              (Nat.min (edit_distance ra' rb + 1) (inner rb' + 1))
              (edit_distance ra' rb' + if Ascii.eqb x y then 0 else 1)
        end
  end%nat.

(** One row of the matrix by the recurrence: the distances from the prefix
    [ra] to the prefix [rp] of [b] and to each longer one. *)
Fixpoint row_of (ra rp : list ascii) (rest : string) : list nat :=
  edit_distance ra rp
  :: match rest with
     | EmptyString => []
     | String y rest' => row_of ra (y :: rp) rest'
     end.

(** The externals of the demonstrations, with the matcher of the source in
    the place of the stand-in. *)
Definition source_matcher : Externals :=
  mkExternals Demo.sqrt_approx
    (fun password hash => String.eqb (String.append "bcrypt:" password) hash)
    Demo.parse_digits fuzzyMatch.

(** The first question of [createSecurityQuestionChallenge], stored. *)
Definition pet_question : ChallengeData :=
  {| id := "c-9"; userId := "u-1"; type := "security_questions";
     question := "What was the name of your first pet?";
     answer := "buddy"; hints := []; createdAt := 0; expiresAt := 300000;
     attempts := 0; maxAttempts := 3; completed := false |}.

End Matching.


(* ===================================================================== *)
(** ** Proof tactics *)
(* ===================================================================== *)

(** Case analysis on every comparison of rationals in the goal. *)
Ltac qcases :=
  repeat match goal with
    | |- context [Qeq_bool ?p ?q] =>
        let E := fresh "E" in
        destruct (Qeq_bool p q) eqn:E;
        [apply Qeq_bool_iff in E | apply Qeq_bool_neq in E]
    | |- context [Qle_bool ?p ?q] =>
        let E := fresh "E" in
        destruct (Qle_bool p q) eqn:E;
        [apply Qle_bool_iff in E
        | assert (~ p <= q)
            by (let H := fresh in
                intro H; apply Qle_bool_iff in H; congruence);
          clear E]
    | |- context [?p ?= ?q] => destruct (Qcompare_spec p q)
    end.

(** Unfold the operations of [number], and nothing of [Q]. *)
Ltac js_simpl :=
  cbn [abs sub add neg div mul min max lt gt le ge inf_times isNaN truthy
       or_else not_negative unit_or_nan le1_or_nan finite_or_nan within same
       strict_eq].


(* ===================================================================== *)
(** * Properties *)
(* ===================================================================== *)

(** ** Arithmetic of [number] *)




Lemma unit_or_nan_le1 (a : number) : unit_or_nan a -> le1_or_nan a.
Proof. destruct a; simpl; tauto. Qed.

Lemma le1_or_nan_finite (a : number) : le1_or_nan a -> finite_or_nan a.
Proof. destruct a; simpl; tauto. Qed.

Lemma div_Num (p q : Q) : ~ q == 0 -> (Num p / Num q)%js = Num (p / q).
Proof.
  intros Hq. js_simpl. destruct (Qeq_bool q 0) eqn:E; [|reflexivity].
  apply Qeq_bool_iff in E. contradiction.
Qed.

Lemma abs_not_negative (a : number) : not_negative (abs a).
Proof. destruct a; simpl; auto. apply Qabs_nonneg. Qed.

Lemma Qmin_le_r (p q : Q) : Qmin p q <= q.
Proof. unfold Qmin. qcases; lra. Qed.

Lemma Qmin_le_l (p q : Q) : Qmin p q <= p.
Proof. unfold Qmin. qcases; lra. Qed.

Lemma Qmin_glb (p q r : Q) : r <= p -> r <= q -> r <= Qmin p q.
Proof. unfold Qmin. qcases; lra. Qed.


(** [Math.min(a, 1)] brings whatever is not negative into the unit
    interval. *)
Lemma min_1_unit (a : number) : not_negative a -> unit_or_nan (min a (Num 1)).
Proof.
  destruct a; simpl; try tauto; try lra.
  intros H. split; [apply Qmin_glb; lra | apply Qmin_le_r].
Qed.

Lemma min_1_le1 (a : number) : a <> NegInf -> le1_or_nan (min a (Num 1)).
Proof.
  destruct a; simpl; try tauto; try lra.
  intros _. apply Qmin_le_r.
Qed.

Lemma add_not_negative (a b : number) :
  not_negative a -> not_negative b -> not_negative (a + b)%js.
Proof. destruct a, b; simpl; try tauto. lra. Qed.

Lemma Qdiv_nonneg (p q : Q) : 0 <= p -> 0 < q -> 0 <= p / q.
Proof. intros. apply Qle_shift_div_l; lra. Qed.

(** A quotient by a constant that is positive keeps the sign. *)
Lemma div_const_not_negative (a : number) (k : Q) :
  0 < k -> not_negative a -> not_negative (a / Num k)%js.
Proof.
  intros Hk. destruct a; simpl; try tauto.
  - qcases; try lra. intros. simpl. now apply Qdiv_nonneg.
  - qcases; simpl; auto; lra.
Qed.

Lemma mul_const_not_negative (a : number) (k : Q) :
  0 < k -> not_negative a -> not_negative (a * Num k)%js.
Proof.
  intros Hk. destruct a; simpl; try tauto.
  - intros. nra.
  - unfold inf_times. qcases; simpl; auto; lra.
Qed.

(** The guarded quotient [b > 0 ? a / b : ...]. *)
Lemma div_guarded_not_negative (a b : number) :
  gt b (Num 0) = true -> not_negative a -> not_negative (a / b)%js.
Proof.
  unfold gt. destruct b as [q| | |]; simpl; try discriminate.
  - destruct (Qcompare_spec 0 q); try discriminate. intros _.
    destruct a; simpl; try tauto.
    + qcases; try lra. intros. simpl. now apply Qdiv_nonneg.
    + qcases; simpl; auto; lra.
  - intros _. destruct a; simpl; try tauto. lra.
Qed.

(** In exact arithmetic the relative deviation [Math.abs(c - h) / h] of a
    finite [c] is never -Infinity; it is not negative when [h] is not. *)
Lemma deviation_not_neginf (c : Q) (h : number) :
  (abs (Num c - h) / h)%js <> NegInf.
Proof.
  destruct h as [q| | |]; js_simpl; try discriminate.
  pose proof (Qabs_nonneg (c + - q)).
  qcases; try discriminate. lra.
Qed.


Lemma mul_const_not_neginf (a : number) (k : Q) :
  0 < k -> a <> NegInf -> (a * Num k)%js <> NegInf.
Proof.
  intros Hk. destruct a; simpl; try congruence.
  unfold inf_times. qcases; try discriminate; lra.
Qed.


Lemma half_sum_le1 (a b : number) :
  le1_or_nan a -> le1_or_nan b -> le1_or_nan ((a + b) / Num 2)%js.
Proof.
  destruct a, b; simpl; try tauto.
  intros. apply Qle_shift_div_r; lra.
Qed.

Lemma third_sum_unit (a b c : number) :
  unit_or_nan a -> unit_or_nan b -> unit_or_nan c ->
  unit_or_nan ((a + b + c) / Num 3)%js.
Proof.
  destruct a, b, c; simpl; try tauto.
  intros. split; [apply Qle_shift_div_l | apply Qle_shift_div_r]; lra.
Qed.


Lemma sum_Num_from (l : list Q) (acc : Q) :
  fold_left add (map Num l) (Num acc) = Num (fold_left Qplus l acc).
Proof.
  revert acc. induction l as [|x l IH]; intros acc; simpl;
    [|rewrite IH]; reflexivity.
Qed.

Lemma sum_Num (l : list Q) : sum (map Num l) = Num (Qsum l).
Proof. apply sum_Num_from. Qed.

Lemma inject_S_neq_0 (n : nat) : ~ inject_Z (Z.of_nat (S n)) == 0.
Proof.
  unfold Qeq. simpl. lia.
Qed.

Lemma inject_S_pos (n : nat) : 0 < inject_Z (Z.of_nat (S n)).
Proof. unfold Qlt. simpl. lia. Qed.

(** ** The factors of the fusion engine *)

Section FactorBounds.
Import Types RiskCalculator.
Context `{Externals}.

Lemma calculateAverage_Num (l : list Q) :
  exists q, calculateAverage (map Num l) = Num q.
Proof.
  destruct l as [|x l]; [now exists 0|].
  unfold calculateAverage. cbn [map]. rewrite <- (map_cons Num).
  rewrite sum_Num, length_map. cbn [length]. unfold of_nat, of_Z.
  js_simpl. destruct (Qeq_bool _ 0) eqn:E.
  - apply Qeq_bool_iff in E. now apply inject_S_neq_0 in E.
  - eauto.
Qed.

(** One half of the temporal and of the behavioural risk:
    [Math.min(Math.abs(c - h) / h * k, 1)] for a finite [c]. *)
Lemma relative_risk_le1 (c k : Q) (h : number) :
  0 < k -> le1_or_nan (min (abs (Num c - h) / h * Num k)%js (Num 1)).
Proof.
  intros Hk. apply min_1_le1, mul_const_not_neginf; [assumption|].
  apply deviation_not_neginf.
Qed.


Lemma temporal_le1 (current : BiometricFeatures)
  (profile : BiometricProfile) :
  le1_or_nan (calculateTemporalRisk current profile).
Proof.
  unfold calculateTemporalRisk, holds, flights.
  destruct (calculateAverage_Num (holdTimes current)) as [c ->].
  destruct (calculateAverage_Num (flightTimes current)) as [c' ->].
  apply half_sum_le1; apply relative_risk_le1; lra.
Qed.


Lemma error_risk_unit (e : Q) (avgErrorRate : number) :
  unit_or_nan (min (abs (Num e - avgErrorRate) * Num 5)%js (Num 1)).
Proof.
  apply min_1_unit, mul_const_not_negative; [lra|]. apply abs_not_negative.
Qed.

Lemma behavioral_le1 (current : BiometricFeatures)
  (profile : BiometricProfile) :
  le1_or_nan (calculateBehavioralRisk current profile).
Proof.
  unfold calculateBehavioralRisk.
  apply half_sum_le1;
    [apply unit_or_nan_le1, error_risk_unit | apply relative_risk_le1; lra].
Qed.


(** [h > 0 ? Math.abs(c - h) / h : d] for a default [d] that is not
    negative. *)
Lemma guarded_deviation_not_negative (c h d : number) :
  not_negative d ->
  not_negative (if (h >? Num 0)%js then (abs (c - h) / h)%js else d).
Proof.
  intros Hd. destruct (h >? Num 0)%js eqn:E; [|assumption].
  apply div_guarded_not_negative; [assumption | apply abs_not_negative].
Qed.

Lemma consistency_unit (current : BiometricFeatures)
  (profile : BiometricProfile) :
  unit_or_nan (calculateConsistencyRisk current profile).
Proof.
  unfold calculateConsistencyRisk.
  apply min_1_unit, div_const_not_negative; [lra|].
  apply add_not_negative; apply guarded_deviation_not_negative; simpl; lra.
Qed.

Lemma zscore_risk_unit (z : number) :
  unit_or_nan (min (abs z / Num 3)%js (Num 1)).
Proof.
  apply min_1_unit, div_const_not_negative; [lra | apply abs_not_negative].
Qed.

Lemma deviation_unit (current : BiometricFeatures)
  (profile : BiometricProfile) :
  unit_or_nan (calculateDeviationRisk current profile).
Proof.
  unfold calculateDeviationRisk.
  apply third_sum_unit; apply zscore_risk_unit.
Qed.

Lemma velocity_unit (current : BiometricFeatures)
  (profile : BiometricProfile) :
  unit_or_nan (calculateVelocityRisk current profile).
Proof.
  unfold calculateVelocityRisk.
  destruct (_ || _); [simpl; lra|].
  apply min_1_unit, guarded_deviation_not_negative. simpl; lra.
Qed.

(** [clientRiskScore || 0] is the client score itself. *)
Lemma client_or_0 (q : Q) :
  exists q', (Num q || Num 0)%js = Num q' /\ q' == q.
Proof.
  unfold or_else, truthy. destruct (Qeq_bool q 0) eqn:E; simpl.
  - apply Qeq_bool_iff in E. exists 0. split; [reflexivity | lra].
  - exists q. split; [reflexivity | lra].
Qed.

End FactorBounds.

(** ** The weighted score and the confidence *)

Section WeightedScore.
Import Types RiskCalculator.
Context `{Externals}.

Lemma weight_of_pos (factor : string) (w : Q) :
  weight_of weights factor = Some w -> 0 < w.
Proof.
  unfold weights. cbn [weight_of].
  repeat (destruct (String.eqb _ factor);
          [intros [= <-]; lra|]).
  discriminate.
Qed.

(** With every factor in the unit interval or NaN, the weighted sum stays
    between zero and the sum of the weights used. *)
Lemma accumulate_unit (es : list (string * number)) (ws tw : Q) :
  Forall (fun e => unit_or_nan e.2) es -> 0 <= ws <= tw ->
  exists ws' tw',
    fold_left accumulate es (Num ws, Num tw) = (Num ws', Num tw')
    /\ 0 <= ws' <= tw'.
Proof.
  intros Hes. revert ws tw.
  induction Hes as [|[factor value] es Hv _ IH]; intros ws tw Htw.
  - simpl. eauto.
  - cbn [fold_left]. unfold accumulate at 2.
    destruct (weight_of weights factor) as [w|] eqn:Ew; [|now apply IH].
    apply weight_of_pos in Ew.
    destruct value as [v| | |]; simpl in Hv; try contradiction;
      cbn [isNaN negb andb]; [|now apply IH].
    destruct (truthy (Num w)); [|now apply IH].
    js_simpl. apply IH. nra.
Qed.

Lemma gt_Num_0 (q : Q) : (Num q >? Num 0)%js = true -> 0 < q.
Proof.
  unfold gt. js_simpl. destruct (Qcompare_spec 0 q); congruence.
Qed.

Lemma weighted_score_unit (es : list (string * number)) :
  Forall (fun e => unit_or_nan e.2) es ->
  within 0 1 (weighted_score_of es).
Proof.
  intros Hes. unfold weighted_score_of.
  destruct (accumulate_unit es 0 0 Hes) as (ws & tw & -> & Hws); [lra|].
  destruct (Num tw >? Num 0)%js eqn:E; [|simpl; lra].
  apply gt_Num_0 in E. rewrite div_Num by lra. simpl.
  split; [apply Qle_shift_div_l | apply Qle_shift_div_r]; lra.
Qed.

Lemma calculateWeightedScore_unit (f : RiskFactors) :
  unit_or_nan (temporal f) -> unit_or_nan (behavioral f) ->
  unit_or_nan (consistency f) -> unit_or_nan (deviation f) ->
  unit_or_nan (velocity f) -> unit_or_nan (client f) ->
  within 0 1 (calculateWeightedScore f).
Proof.
  intros. apply weighted_score_unit. unfold entries.
  repeat constructor; assumption.
Qed.

Lemma ms_per_day_pos : 0 < ms_per_day.
Proof. reflexivity. Qed.


End WeightedScore.

(** ** The fusion engine: cold start, bounds, monotonicity *)

Section FusionEngine.
Import Types RiskCalculator.
Context `{Externals}.

(** C5.  Cold start: when the profile is absent or holds no sample,
    [calculateRisk] returns the factors temporal 0.4, behavioral 0.4,
    consistency 0.5, deviation 0.3, velocity 0.3 and the client score
    unchanged, with confidence 0.3, for every feature vector and every
    client score. *)
Theorem cold_start_factors (now : Z) (features : BiometricFeatures)
  (profile : option BiometricProfile) (clientRiskScore : Q) :
  (profile = None \/ exists p, profile = Some p /\ samples p = []) ->
  let r := calculateRisk now features profile clientRiskScore in
  exists f,
    factors r = Some f
    /\ temporal f = Num 0.4 /\ behavioral f = Num 0.4
    /\ consistency f = Num 0.5 /\ deviation f = Num 0.3
    /\ velocity f = Num 0.3 /\ same (client f) (Num clientRiskScore)
    /\ confidence r = Num 0.3.
Proof.
  intros Hp r.
  assert (Hr : factors r = Some (new_user_factors clientRiskScore)
               /\ confidence r = Num 0.3).
  { subst r. unfold calculateRisk.
    destruct Hp as [-> | (p & -> & ->)]; split; reflexivity. }
  destruct Hr as [Hf Hc]. exists (new_user_factors clientRiskScore).
  repeat split; try assumption.
  cbn [new_user_factors client].
  destruct (client_or_0 clientRiskScore) as (c & -> & Hq). exact Hq.
Qed.










End FusionEngine.

Lemma cold_start_factors_witness :
  ((@None Types.BiometricProfile = None
    \/ exists p, None = Some p /\ Types.samples p = [])
   /\ let r :=
        RiskCalculator.calculateRisk 1000 Demo.steady_features None 0.4 in
      exists f,
        RiskCalculator.factors r = Some f
        /\ RiskCalculator.temporal f = Num 0.4
        /\ RiskCalculator.behavioral f = Num 0.4
        /\ RiskCalculator.consistency f = Num 0.5
        /\ RiskCalculator.deviation f = Num 0.3
        /\ RiskCalculator.velocity f = Num 0.3
        /\ same (RiskCalculator.client f) (Num 0.4)
        /\ RiskCalculator.confidence r = Num 0.3).
Proof.
  split; [left; reflexivity|].
  apply (cold_start_factors 1000 Demo.steady_features None 0.4).
  left; reflexivity.
Defined.


(** Timings below zero pass the request schema, and the login that carries
    them leaves the profile [Demo.negative_profile] behind. *)
Lemma negative_profile_reachable :
  AuthController.loginSchema_parse (Demo.body Demo.negative_features 0.5)
  = Some (Demo.body Demo.negative_features 0.5)
  /\ AuthController.profile_of "u-1" Demo.server_negative
     = Some Demo.negative_profile.
Proof. split; reflexivity. Qed.




(** ** The local risk estimator *)

(** C9.  Whenever the model is not ready ([isModelReady] is false, or no
    model or no normalisation parameters are loaded), [calculateRisk]
    returns the neutral fallback: risk score 0.5, confidence 0.1,
    recommendation STEP_UP, for every feature vector. *)
Theorem not_ready_fallback (st : LocalRisk.State) (features : list number) :
  LocalRisk.isModelReady st = false \/ LocalRisk.model st = None
  \/ LocalRisk.normalizeParams st = None ->
  LocalRisk.calculateRisk st features
  = {| LocalRisk.riskScore := Num 0.5; LocalRisk.confidence := Num 0.1;
       LocalRisk.recommendation := LocalRisk.STEP_UP;
       LocalRisk.features := features |}.
Proof.
  intros Hst. unfold LocalRisk.calculateRisk.
  destruct Hst as [-> | [-> | ->]].
  - reflexivity.
  - now destruct (LocalRisk.isModelReady st).
  - now destruct (LocalRisk.isModelReady st), (LocalRisk.model st).
Qed.

Lemma not_ready_fallback_witness :
  (LocalRisk.isModelReady LocalRisk.initial = false
   \/ LocalRisk.model LocalRisk.initial = None
   \/ LocalRisk.normalizeParams LocalRisk.initial = None)
  /\ LocalRisk.calculateRisk LocalRisk.initial [Num 90; Num 60]
     = {| LocalRisk.riskScore := Num 0.5; LocalRisk.confidence := Num 0.1;
          LocalRisk.recommendation := LocalRisk.STEP_UP;
          LocalRisk.features := [Num 90; Num 60] |}.
Proof.
  split; [left; reflexivity|].
  apply (not_ready_fallback LocalRisk.initial [Num 90; Num 60]).
  left; reflexivity.
Defined.

(** What [isReady()] reports as not ready takes the fallback too. *)
Lemma isReady_false_fallback (st : LocalRisk.State) (features : list number) :
  LocalRisk.isReady st = false ->
  LocalRisk.calculateRisk st features = LocalRisk.moderate_risk features.
Proof.
  unfold LocalRisk.isReady, LocalRisk.calculateRisk.
  destruct (LocalRisk.isModelReady st), (LocalRisk.model st);
    simpl; congruence.
Qed.

(** After [dispose()] the estimator is back on the fallback. *)
Lemma disposed_fallback (st : LocalRisk.State) (features : list number) :
  LocalRisk.calculateRisk (LocalRisk.dispose st) features
  = LocalRisk.moderate_risk features.
Proof. reflexivity. Qed.

(** ** The keystroke capture *)

Section Capture.
Import BiometricCapture.

Lemma updateSession_counters (now : Q) (c : Capture) :
  let s := sessionData (updateSession now c) in
  corrections s = corrections (sessionData c)
  /\ totalKeystrokes s = totalKeystrokes (sessionData c)
  /\ holdTimes s = holdTimes (sessionData c)
  /\ flightTimes s = flightTimes (sessionData c)
  /\ metrics (updateSession now c) = metrics c.
Proof. repeat split. Qed.

Lemma isModifierKey_Backspace : isModifierKey "Backspace" = false.
Proof. reflexivity. Qed.

(** C10.  A Backspace keydown adds one to [corrections] and leaves
    [totalKeystrokes] alone; the error rate it reports is
    [corrections / totalKeystrokes * 100], or 0 without keystrokes; and
    there is a sequence of events, with more Backspace presses than counted
    keystrokes, whose reported error rate exceeds 100. *)
Theorem backspace_error_rate :
  (forall (t : Q) (c : Capture),
      let s := sessionData c in
      let s' := sessionData (captureKeyDown "Backspace" t c) in
      corrections s' = (corrections s + 1)%Z
      /\ totalKeystrokes s' = totalKeystrokes s
      /\ errorRate s'
         = if (totalKeystrokes s' =? 0)%Z then 0
           else inject_Z (corrections s') / inject_Z (totalKeystrokes s')
                * 100)
  /\ (forall s : TypingSession,
         errorRate (calculateErrorRate s)
         = if (totalKeystrokes s =? 0)%Z then 0
           else inject_Z (corrections s) / inject_Z (totalKeystrokes s)
                * 100)
  /\ (exists (start : Q) (events : list KeyboardEvent),
         let s := sessionData (run start events) in
         (totalKeystrokes s < corrections s)%Z /\ 100 < errorRate s).
Proof.
  repeat split.
  - exists 0, [KeyDown "a" 100; KeyUp "a" 180;
               KeyDown "Backspace" 300; KeyDown "Backspace" 400].
    split; reflexivity.
Qed.

Lemma handle_keeps_no_flight (held : gset string) (c : Capture)
  (e : KeyboardEvent) :
  no_flight_invariant held c ->
  match e with
  | KeyUp key _ =>
      isModifierKey key = true \/ String.eqb key "Backspace" = true
      \/ key ∈ held
  | KeyDown _ _ => True
  end ->
  no_flight_invariant (held_after_event held e) (handle c e).
Proof.
  intros (Hf & Hb & Hheld) He. destruct e as [key t | key t]; cbn [handle].
  - unfold captureKeyDown, held_after_event.
    destruct (isModifierKey key) eqn:Em; [now repeat split|].
    destruct (String.eqb_spec key "Backspace") as [->|Hne]; cbn [orb].
    + repeat split; assumption.
    + repeat split; cbn [metrics sessionData add_keystroke flightTimes].
      * assumption.
      * rewrite lookup_insert_ne by assumption. assumption.
      * intros k Hk. destruct (decide (key = k)) as [->|Hk'].
        -- rewrite lookup_insert_eq. eauto.
        -- rewrite lookup_insert_ne by assumption. apply Hheld.
           apply elem_of_union in Hk as [Hk|Hk]; [|exact Hk].
           apply elem_of_singleton in Hk. congruence.
  - unfold captureKeyUp, held_after_event.
    assert (Hsub : forall k, k ∈ held ∖ {[key]} -> k ∈ held /\ key <> k).
    { intros k Hk. apply elem_of_difference in Hk as [Hk Hn].
      split; [exact Hk|]. intros ->. apply Hn. now apply elem_of_singleton. }
    destruct (isModifierKey key) eqn:Em.
    { repeat split; try assumption. intros k Hk. now apply Hheld, Hsub. }
    destruct (String.eqb_spec key "Backspace") as [->|Hne].
    { rewrite Hb. repeat split; try assumption.
      intros k Hk. now apply Hheld, Hsub. }
    destruct He as [He | [He | He]]; try congruence.
    destruct (Hheld key He) as (metric & -> & Hlast).
    unfold flight_sample. rewrite Hlast.
    destruct (Qlt_le_dec 0 0) as [Hlt|_]; [lra|].
    repeat split; cbn [updateSession metrics sessionData flightTimes
      calculateConsistencyScore calculateErrorRate calculateTypingSpeed].
    + rewrite Hf. reflexivity.
    + rewrite lookup_insert_ne by assumption. assumption.
    + intros k Hk. destruct (Hsub k Hk) as [Hk' Hn].
      rewrite lookup_insert_ne by assumption. now apply Hheld.
Qed.

(** X19.  In every trace where a key is released only while it is held, that
    is, in every ordinary sequence of keystrokes, no flight time is ever
    recorded. *)
Lemma no_flight_time_recorded (start : Q) (events : list KeyboardEvent) :
  releases_follow_presses ∅ events ->
  flightTimes (sessionData (run start events)) = [].
Proof.
  unfold run.
  assert (Hinv : no_flight_invariant ∅ (new_capture start)).
  { repeat split. intros k Hk. now apply not_elem_of_empty in Hk. }
  revert Hinv. generalize (new_capture start). generalize (∅ : gset string).
  induction events as [|e events IH]; intros held c Hinv Hev.
  - apply Hinv.
  - destruct Hev as [He Hrest]. cbn [fold_left].
    apply (IH (held_after_event held e)); [|assumption].
    now apply handle_keeps_no_flight.
Qed.

(** C4, on the code.  Two keystrokes in a row: [a] pressed at 100 and
    released at 180, then [b] pressed at 240 and released at 320.  The
    previous release exists when [b] is pressed, so the flight time
    240 - 180 is due, as the specification's definition computes; the
    capture records both hold times and no flight time. *)
Theorem second_keystroke_has_no_flight_time :
  let events := [KeyDown "a" 100; KeyUp "a" 180;
                 KeyDown "b" 240; KeyUp "b" 320] in
  let s := sessionData (run 0 events) in
  flight_times_by_spec None events = [240 - 180]
  /\ holdTimes s = [180 - 100; 320 - 240]
  /\ flightTimes s = []
  /\ flightTimes s <> flight_times_by_spec None events.
Proof. repeat split. discriminate. Qed.

(** The only flight time the capture ever pushes comes from a second
    release of the same key, and is that key's own press time minus its own
    earlier release. *)
Lemma flight_time_of_double_release :
  flightTimes
    (sessionData (run 0 [KeyDown "a" 100; KeyUp "a" 180; KeyUp "a" 200]))
  = [100 - 180].
Proof. reflexivity. Qed.

End Capture.

(** ** The challenge life cycle *)

Section Challenges.
Import ChallengeManager.
Context `{Externals}.

(** Counting an attempt changes neither the type nor the answer that
    [verifySolution] reads. *)
Lemma verifySolution_count_attempt (c : ChallengeData) (solution : string) :
  verifySolution (count_attempt c) solution = verifySolution c solution.
Proof. reflexivity. Qed.

Lemma verify_not_found (now : Z) (challengeId solution : string)
  (challenges : gmap string ChallengeData) :
  challenges !! challengeId = None ->
  verifyChallenge now challengeId solution challenges
  = (Invalid "Challenge not found or expired" None, challenges).
Proof. intros E. unfold verifyChallenge. now rewrite E. Qed.

Lemma verify_expired (now : Z) (challengeId solution : string)
  (challenges : gmap string ChallengeData) (c : ChallengeData) :
  challenges !! challengeId = Some c -> (expiresAt c < now)%Z ->
  verifyChallenge now challengeId solution challenges
  = (Invalid "Challenge expired" None, delete challengeId challenges).
Proof.
  intros E Ht. unfold verifyChallenge. rewrite E.
  apply Z.ltb_lt in Ht. now rewrite Ht.
Qed.

Lemma verify_incorrect (now : Z) (challengeId solution : string)
  (challenges : gmap string ChallengeData) (c : ChallengeData) :
  challenges !! challengeId = Some c -> (now <= expiresAt c)%Z ->
  completed c = false -> (attempts c < maxAttempts c)%Z ->
  verifySolution c solution = false ->
  verifyChallenge now challengeId solution challenges
  = (Invalid "Incorrect solution"
       (Some (maxAttempts c - (attempts c + 1))%Z),
     <[ challengeId := count_attempt c ]> challenges).
Proof.
  intros E Ht Hc Ha Hs. unfold verifyChallenge. rewrite E.
  destruct (Z.ltb_spec (expiresAt c) now); [lia|]. rewrite Hc.
  destruct (Z.leb_spec (maxAttempts c) (attempts c)); [lia|].
  rewrite verifySolution_count_attempt, Hs. reflexivity.
Qed.

Lemma verify_exhausted (now : Z) (challengeId solution : string)
  (challenges : gmap string ChallengeData) (c : ChallengeData) :
  challenges !! challengeId = Some c -> (now <= expiresAt c)%Z ->
  completed c = false -> (maxAttempts c <= attempts c)%Z ->
  verifyChallenge now challengeId solution challenges
  = (Invalid "Maximum attempts exceeded" None,
     delete challengeId challenges).
Proof.
  intros E Ht Hc Ha. unfold verifyChallenge. rewrite E.
  destruct (Z.ltb_spec (expiresAt c) now); [lia|]. rewrite Hc.
  destruct (Z.leb_spec (maxAttempts c) (attempts c)); [|lia].
  reflexivity.
Qed.

(** C7.  A [verifyChallenge] call made after [expiresAt] answers
    "Challenge expired" and deletes the challenge, whatever the solution:
    it never accepts. *)
Theorem expired_challenge_rejected (now : Z) (challengeId solution : string)
  (challenges : gmap string ChallengeData) (c : ChallengeData) :
  challenges !! challengeId = Some c -> (expiresAt c < now)%Z ->
  let '(result, challenges') :=
    verifyChallenge now challengeId solution challenges in
  result = Invalid "Challenge expired" None
  /\ challenges' = delete challengeId challenges
  /\ challenges' !! challengeId = None
  /\ forall userId challengeType attempts,
       result <> Valid userId challengeType attempts.
Proof.
  intros E Ht. rewrite (verify_expired _ _ _ _ c E Ht).
  repeat split; [apply lookup_delete_eq | discriminate].
Qed.

(** C1, as the code has it.  On a stored challenge with no attempt yet,
    three allowed and not completed, for calls made before it expires:
    three incorrect solutions are answered "Incorrect solution" with 2,
    then 1, then 0 attempts remaining, and the challenge stays stored with
    three attempts counted; the fourth call answers "Maximum attempts
    exceeded" and deletes it; the fifth answers "Challenge not found or
    expired". *)
Theorem three_failures_then_exhausted
  (challenges : gmap string ChallengeData) (challengeId : string)
  (c : ChallengeData) (t1 t2 t3 t4 t5 : Z) (s1 s2 s3 s4 s5 : string) :
  challenges !! challengeId = Some c ->
  attempts c = 0%Z -> maxAttempts c = 3%Z -> completed c = false ->
  (t1 <= expiresAt c)%Z -> (t2 <= expiresAt c)%Z ->
  (t3 <= expiresAt c)%Z -> (t4 <= expiresAt c)%Z ->
  verifySolution c s1 = false -> verifySolution c s2 = false ->
  verifySolution c s3 = false ->
  let '(first_three, stored) :=
    verify_all [(t1, s1); (t2, s2); (t3, s3)] challengeId challenges in
  let '(last_two, final) :=
    verify_all [(t4, s4); (t5, s5)] challengeId stored in
  first_three = [Invalid "Incorrect solution" (Some 2%Z);
                 Invalid "Incorrect solution" (Some 1%Z);
                 Invalid "Incorrect solution" (Some 0%Z)]
  /\ stored !! challengeId
     = Some (count_attempt (count_attempt (count_attempt c)))
  /\ last_two = [Invalid "Maximum attempts exceeded" None;
                 Invalid "Challenge not found or expired" None]
  /\ final !! challengeId = None.
Proof.
  intros E Ha Hm Hc H1 H2 H3 H4 W1 W2 W3.
  cbn [verify_all].
  rewrite (verify_incorrect t1 _ s1 _ c) by (assumption || lia).
  rewrite (verify_incorrect t2 _ s2 _ (count_attempt c))
    by (cbn; try assumption; try lia; apply lookup_insert_eq).
  rewrite insert_insert_eq.
  rewrite (verify_incorrect t3 _ s3 _ (count_attempt (count_attempt c)))
    by (cbn; try assumption; try lia; apply lookup_insert_eq).
  rewrite insert_insert_eq.
  rewrite (verify_exhausted t4 _ s4 _
             (count_attempt (count_attempt (count_attempt c))))
    by (cbn; try assumption; try lia; apply lookup_insert_eq).
  rewrite (verify_not_found t5) by apply lookup_delete_eq.
  cbn [maxAttempts attempts count_attempt]. rewrite Ha, Hm.
  repeat split.
  - apply lookup_insert_eq.
  - apply lookup_delete_eq.
Qed.

(** The controller already denies on the failure that uses up the last
    attempt, while the challenge is still stored. *)
Lemma stepUp_denies_last_failure (now : Z) (challengeId solution : string)
  (srv : AuthController.Server) (c : ChallengeData) :
  AuthController.challenges srv !! challengeId = Some c ->
  (now <= expiresAt c)%Z -> completed c = false ->
  (attempts c + 1 = maxAttempts c)%Z ->
  verifySolution c solution = false ->
  let '(response, srv') :=
    AuthController.stepUp now challengeId solution srv in
  AuthController.action response = AuthController.DENY
  /\ AuthController.message response = "Incorrect solution"%string
  /\ AuthController.challenges srv' !! challengeId = Some (count_attempt c).
Proof.
  intros E Ht Hc Ha Hs. unfold AuthController.stepUp.
  rewrite (verify_incorrect now _ solution _ c) by (assumption || lia).
  replace (maxAttempts c - (attempts c + 1))%Z with 0%Z by lia.
  cbn. repeat split. apply lookup_insert_eq.
Qed.

End Challenges.

Lemma expired_challenge_rejected_witness :
  ChallengeManager.verifySolution Demo.captcha "AB2CD" = true
  /\ let '(result, challenges') :=
       ChallengeManager.verifyChallenge 300001 "c-1" "AB2CD"
         {[ "c-1"%string := Demo.captcha ]} in
     result = ChallengeManager.Invalid "Challenge expired" None
     /\ challenges' = delete "c-1"%string {[ "c-1"%string := Demo.captcha ]}
     /\ challenges' !! "c-1"%string = None
     /\ forall userId challengeType attempts,
          result <> ChallengeManager.Valid userId challengeType attempts.
Proof.
  split; [reflexivity|].
  apply (expired_challenge_rejected 300001 "c-1" "AB2CD"
           {[ "c-1"%string := Demo.captcha ]} Demo.captcha).
  - apply lookup_singleton_eq.
  - reflexivity.
Defined.

Lemma three_failures_then_exhausted_witness :
  let '(first_three, stored) :=
    ChallengeManager.verify_all
      [(1000%Z, "x"); (2000%Z, "y"); (3000%Z, "z")]%string "c-1"
      {[ "c-1"%string := Demo.captcha ]} in
  let '(last_two, final) :=
    ChallengeManager.verify_all [(4000%Z, "AB2CD"); (5000%Z, "AB2CD")]%string
      "c-1" stored in
  first_three
  = [ChallengeManager.Invalid "Incorrect solution" (Some 2%Z);
     ChallengeManager.Invalid "Incorrect solution" (Some 1%Z);
     ChallengeManager.Invalid "Incorrect solution" (Some 0%Z)]
  /\ stored !! "c-1"%string
     = Some (ChallengeManager.count_attempt
               (ChallengeManager.count_attempt
                  (ChallengeManager.count_attempt Demo.captcha)))
  /\ last_two
     = [ChallengeManager.Invalid "Maximum attempts exceeded" None;
        ChallengeManager.Invalid "Challenge not found or expired" None]
  /\ final !! "c-1"%string = None.
Proof.
  apply (three_failures_then_exhausted {[ "c-1"%string := Demo.captcha ]}
           "c-1" Demo.captcha 1000 2000 3000 4000 5000
           "x" "y" "z" "AB2CD" "AB2CD");
    try reflexivity; try (apply lookup_singleton_eq); discriminate.
Defined.

(** C1 as stated fails on the code: the third incorrect solution is not
    answered "Maximum attempts exceeded", the challenge is still stored
    after it, and the fourth call does not answer "not found". *)
Lemma third_failure_keeps_challenge :
  let '(results, stored) :=
    ChallengeManager.verify_all
      [(1000%Z, "x"); (2000%Z, "y"); (3000%Z, "z")]%string "c-1"
      {[ "c-1"%string := Demo.captcha ]} in
  results !! 2%nat
  <> Some (ChallengeManager.Invalid "Maximum attempts exceeded" None)
  /\ stored !! "c-1"%string <> None
  /\ fst (ChallengeManager.verifyChallenge 4000 "c-1" "w" stored)
     <> ChallengeManager.Invalid "Challenge not found or expired" None.
Proof. vm_compute. repeat split; discriminate. Qed.

(** ** The login handler *)

Section Login.
Import Types AuthController.
Context `{Externals}.

Lemma lt_Num (p q : Q) : (Num p <? Num q)%js = true <-> p < q.
Proof.
  js_simpl. destruct (Qcompare_spec p q); split; intros;
    try reflexivity; try discriminate; lra.
Qed.

(** The branch of [login] on a finite score. *)
Lemma decide_action_Num (q : Q) :
  (q < 0.3 <-> decide_action (Num q) = GRANT)
  /\ (0.3 <= q < 0.7 <-> decide_action (Num q) = STEP_UP)
  /\ (0.7 <= q <-> decide_action (Num q) = DENY).
Proof.
  unfold decide_action.
  destruct (Num q <? Num 0.3)%js eqn:E1.
  { apply lt_Num in E1.
    repeat split; intros; try reflexivity; try discriminate; lra. }
  assert (~ q < 0.3) by (rewrite <- lt_Num; congruence).
  destruct (Num q <? Num 0.7)%js eqn:E2.
  { apply lt_Num in E2.
    repeat split; intros; try reflexivity; try discriminate; lra. }
  assert (~ q < 0.7) by (rewrite <- lt_Num; congruence).
  repeat split; intros; try reflexivity; try discriminate; lra.
Qed.

(** A challenge that [createChallenge] has just stored survives its own
    sweep of expired challenges. *)
Lemma createChallenge_stores (now : Z) (d : ChallengeManager.Drawn)
  (userId : string) (challenges : gmap string ChallengeManager.ChallengeData) :
  exists c,
    (ChallengeManager.createChallenge now d userId None challenges).2
      !! ChallengeManager.d_id d = Some c
    /\ ChallengeManager.userId c = userId
    /\ ChallengeManager.attempts c = 0%Z
    /\ ChallengeManager.maxAttempts c = 3%Z
    /\ ChallengeManager.expiresAt c = (now + 300000)%Z.
Proof.
  unfold ChallengeManager.createChallenge. cbn [snd].
  unfold ChallengeManager.cleanupExpiredChallenges.
  eexists. split.
  - apply map_lookup_filter_Some. split; [apply lookup_insert_eq|].
    cbn. lia.
  - repeat split.
Qed.

(** Once the body is valid and the credentials match, [login] stores the
    session's sample before it looks at the score: the profile is updated
    whatever the action. *)
Lemma login_updates_before_branch (now : Z) (d : ChallengeManager.Drawn)
  (body validated : LoginBody) (srv : Server) (user : UserRecord)
  (profile : option BiometricProfile) (st1 : UserManager.Store) :
  loginSchema_parse body = Some validated ->
  UserManager.validateUser now (username validated) (password validated)
    (store srv) = (Some (user, profile), st1) ->
  store (login now d body srv).2
  = (UserManager.updateBiometricProfile now (id user) (features validated)
       st1).2.
Proof.
  intros Hv Hu. unfold login. rewrite Hv, Hu.
  destruct (decide_action _); reflexivity.
Qed.

Lemma validateUser_keeps_profiles (now : Z) (name pass : string)
  (st st1 : UserManager.Store) (user : UserRecord)
  (profile : option BiometricProfile) :
  UserManager.validateUser now name pass st = (Some (user, profile), st1) ->
  UserManager.biometricProfiles st1 = UserManager.biometricProfiles st
  /\ profile = UserManager.biometricProfiles st !! id user.
Proof.
  unfold UserManager.validateUser.
  destruct (UserManager.find_active name (UserManager.users st)) as [u|];
    [|discriminate].
  destruct (bcrypt_compare pass (Types.password u)); [|discriminate].
  intros [= <- <- <-]. split; reflexivity.
Qed.

(** In particular a denied login appends the summary of its session to the
    stored profile, evicting the oldest sample beyond fifty. *)
Lemma denied_login_appends_sample (now : Z) (d : ChallengeManager.Drawn)
  (body validated : LoginBody) (srv : Server) (user : UserRecord)
  (stored : BiometricProfile) (st1 : UserManager.Store) :
  loginSchema_parse body = Some validated ->
  UserManager.validateUser now (username validated) (password validated)
    (store srv) = (Some (user, Some stored), st1) ->
  action (login now d body srv).1 = DENY ->
  samples <$> profile_of (id user) (login now d body srv).2
  = Some (UserManager.push_sample
            (UserManager.summarize now (features validated))
            (samples stored)).
Proof.
  intros Hv Hu _. unfold profile_of.
  rewrite (login_updates_before_branch now d body validated srv user
             (Some stored) st1 Hv Hu).
  destruct (validateUser_keeps_profiles _ _ _ _ _ _ _ Hu) as [Hp Hs].
  unfold UserManager.updateBiometricProfile. rewrite Hp, <- Hs.
  cbn. now rewrite lookup_insert_eq.
Qed.

Lemma lt_03_07 (score : number) :
  (score <? Num 0.3)%js = true -> (score <? Num 0.7)%js = true.
Proof.
  destruct score as [q| | |]; cbn; try congruence.
  destruct (q ?= 0.3) eqn:E; try discriminate. intros _.
  rewrite <- Qlt_alt in E.
  assert (Hq : q < 0.7) by lra. rewrite Qlt_alt in Hq. now rewrite Hq.
Qed.

(** X11.  The branch of [login] as a whole.  A login that passes the schema
    and the credential check reports the final score of the risk analysis
    and answers by comparing that score: GRANT, with a token and only then,
    iff the score is below 0.3; STEP_UP, with a new challenge of the user
    and only then, iff it is not below 0.3 and below 0.7; DENY iff it is
    not below 0.7, which is also the answer to a score that is NaN. *)
Theorem login_decision_thresholds (now : Z) (d : ChallengeManager.Drawn)
  (body validated : LoginBody) (srv : Server) (user : UserRecord)
  (profile : option BiometricProfile) (st1 : UserManager.Store) :
  loginSchema_parse body = Some validated ->
  UserManager.validateUser now (username validated) (password validated)
    (store srv) = (Some (user, profile), st1) ->
  let score :=
    RiskCalculator.finalScore
      (RiskCalculator.calculateRisk now (features validated) profile
         (riskScore validated)) in
  let '(response, srv') := login now d body srv in
  r_riskScore response = Some score
  /\ (action response = GRANT <-> (score <? Num 0.3)%js = true)
  /\ (action response = GRANT <-> sessionToken response <> None)
  /\ (action response = STEP_UP
      <-> (score <? Num 0.3)%js = false /\ (score <? Num 0.7)%js = true)
  /\ (action response = STEP_UP
      <-> challengeId response = Some (ChallengeManager.d_id d))
  /\ (action response = STEP_UP ->
      exists c, challenges srv' !! ChallengeManager.d_id d = Some c
                /\ ChallengeManager.userId c = id user)
  /\ (action response <> STEP_UP -> challenges srv' = challenges srv)
  /\ (action response = DENY <-> (score <? Num 0.7)%js = false).
Proof.
  intros Hv Hu score. unfold login. rewrite Hv, Hu. fold score.
  pose proof (lt_03_07 score) as Hlt.
  unfold decide_action.
  destruct (score <? Num 0.3)%js eqn:E3.
  - rewrite (Hlt eq_refl). cbn.
    repeat split; intros; try tauto; try discriminate; try congruence;
      try (exfalso; intuition discriminate).
  - destruct (score <? Num 0.7)%js eqn:E7.
    + pose proof (createChallenge_stores now d (id user) (challenges srv))
        as (c & Hc & Hu' & _).
      destruct (ChallengeManager.createChallenge now d (id user) None
                  (challenges srv)) as [challenge cs] eqn:Ec.
      cbn in *.
      assert (ChallengeManager.p_id challenge = ChallengeManager.d_id d)
        by (unfold ChallengeManager.createChallenge in Ec;
            injection Ec as <- _; reflexivity).
      repeat split; intros; try tauto; try discriminate; try congruence;
        try (exfalso; intuition discriminate); eauto.
    + unfold denied. cbn.
      repeat split; intros; try tauto; try discriminate; try congruence;
        try (exfalso; intuition discriminate).
Qed.

End Login.

Lemma login_decision_thresholds_witness :
  let score :=
    RiskCalculator.finalScore
      (RiskCalculator.calculateRisk 1000 Demo.slow_features
         (Some Demo.alice_profile) 0) in
  let '(response, srv') :=
    AuthController.login 1000 Demo.drawn (Demo.body Demo.slow_features 0)
      Demo.server0 in
  AuthController.r_riskScore response = Some score
  /\ (AuthController.action response = AuthController.GRANT
      <-> (score <? Num 0.3)%js = true)
  /\ (AuthController.action response = AuthController.GRANT
      <-> AuthController.sessionToken response <> None)
  /\ (AuthController.action response = AuthController.STEP_UP
      <-> (score <? Num 0.3)%js = false /\ (score <? Num 0.7)%js = true)
  /\ (AuthController.action response = AuthController.STEP_UP
      <-> AuthController.challengeId response = Some "c-1"%string)
  /\ (AuthController.action response = AuthController.STEP_UP ->
      exists c, AuthController.challenges srv' !! "c-1"%string = Some c
                /\ ChallengeManager.userId c = "u-1"%string)
  /\ (AuthController.action response <> AuthController.STEP_UP ->
      AuthController.challenges srv' = ∅)
  /\ (AuthController.action response = AuthController.DENY
      <-> (score <? Num 0.7)%js = false).
Proof.
  apply (login_decision_thresholds 1000 Demo.drawn
           (Demo.body Demo.slow_features 0) (Demo.body Demo.slow_features 0)
           Demo.server0 (UserManager.logged_in 1000 Demo.alice)
           (Some Demo.alice_profile)
           (UserManager.validateUser 1000 "alice" "pass123"
              (AuthController.store Demo.server0)).2);
    reflexivity.
Defined.

(** C3, on the code.  A login whose final score is exactly 0.7
    (0.5 * 0.25 + 0.2 + 0.2 + 0 + 0.1 + 0.75 * 0.1) is denied and no
    challenge is created, where the thresholds of the claim and of the
    server's README (step-up from 0.3 to 0.7, deny above 0.7) call for a
    step-up challenge. *)
Theorem score_at_threshold_is_denied :
  let '(response, srv') :=
    AuthController.login 1000 Demo.drawn
      (Demo.body Demo.threshold_features 0.75) Demo.server0 in
  same
    (RiskCalculator.finalScore
       (RiskCalculator.calculateRisk 1000 Demo.threshold_features
          (Some Demo.alice_profile) 0.75))
    (Num 0.7)
  /\ AuthController.action response = AuthController.DENY
  /\ AuthController.action response <> AuthController.STEP_UP
  /\ AuthController.challengeId response = None
  /\ AuthController.challenges srv' = ∅.
Proof. vm_compute. repeat split. discriminate. Qed.

(** C2, on the code.  A login of [alice] with a session ten times slower
    than her stored one scores above 0.7 and is denied; her profile, which
    held one sample, holds two afterwards, the second being the summary of
    the denied session. *)
Theorem denied_login_updates_profile :
  let '(response, srv') :=
    AuthController.login 1000 Demo.drawn (Demo.body Demo.slow_features 0.5)
      Demo.server0 in
  AuthController.action response = AuthController.DENY
  /\ Types.samples <$> AuthController.profile_of "u-1" Demo.server0
     = Some [Demo.steady_sample]
  /\ Types.samples <$> AuthController.profile_of "u-1" srv'
     = Some [Demo.steady_sample;
             UserManager.summarize 1000 Demo.slow_features]
  /\ AuthController.profile_of "u-1" srv'
     <> AuthController.profile_of "u-1" Demo.server0.
Proof. vm_compute. repeat split. discriminate. Qed.

(* ===================================================================== *)
(** * Further properties of the modelled code *)
(* ===================================================================== *)

(** ** Challenges: single use, frame, sweep, round trip *)

Section ChallengeStore.
Import ChallengeManager.
Context `{Externals}.

Lemma verify_correct (now : Z) (challengeId solution : string)
  (challenges : gmap string ChallengeData) (c : ChallengeData) :
  challenges !! challengeId = Some c -> (now <= expiresAt c)%Z ->
  completed c = false -> (attempts c < maxAttempts c)%Z ->
  verifySolution c solution = true ->
  verifyChallenge now challengeId solution challenges
  = (Valid (userId c) (type c) (attempts c + 1),
     <[ challengeId := complete (count_attempt c) ]> challenges).
Proof.
  intros E Ht Hc Ha Hs. unfold verifyChallenge. rewrite E.
  destruct (Z.ltb_spec (expiresAt c) now); [lia|]. rewrite Hc.
  destruct (Z.leb_spec (maxAttempts c) (attempts c)); [lia|].
  rewrite verifySolution_count_attempt, Hs. reflexivity.
Qed.

Lemma verify_completed (now : Z) (challengeId solution : string)
  (challenges : gmap string ChallengeData) (c : ChallengeData) :
  challenges !! challengeId = Some c -> (now <= expiresAt c)%Z ->
  completed c = true ->
  verifyChallenge now challengeId solution challenges
  = (Invalid "Challenge already completed" None, challenges).
Proof.
  intros E Ht Hc. unfold verifyChallenge. rewrite E.
  destruct (Z.ltb_spec (expiresAt c) now); [lia|]. now rewrite Hc.
Qed.

(** X1.  A challenge is accepted once.  After the call that accepts a
    correct solution, every further call on the same id made before the
    expiry answers "Challenge already completed", whatever the solution, and
    changes nothing. *)
Theorem accepted_challenge_is_single_use (now1 now2 : Z)
  (challengeId solution1 solution2 : string)
  (challenges : gmap string ChallengeData) (c : ChallengeData) :
  challenges !! challengeId = Some c ->
  (now1 <= expiresAt c)%Z -> (now2 <= expiresAt c)%Z ->
  completed c = false -> (attempts c < maxAttempts c)%Z ->
  verifySolution c solution1 = true ->
  let '(first, stored) :=
    verifyChallenge now1 challengeId solution1 challenges in
  let '(second, final) :=
    verifyChallenge now2 challengeId solution2 stored in
  first = Valid (userId c) (type c) (attempts c + 1)
  /\ second = Invalid "Challenge already completed" None
  /\ final = stored
  /\ stored !! challengeId = Some (complete (count_attempt c)).
Proof.
  intros E H1 H2 Hc Ha Hs.
  rewrite (verify_correct now1 _ solution1 _ c) by assumption.
  rewrite (verify_completed now2 _ solution2 _ (complete (count_attempt c)))
    by (try apply lookup_insert_eq; cbn; try reflexivity; assumption).
  repeat split. apply lookup_insert_eq.
Qed.

(** X2.  [verifyChallenge] never adds an entry and never touches another
    challenge; of the challenge it is called on it changes only the attempt
    count and the completion flag, and the count, raised by at most one,
    stays within [maxAttempts]. *)
Theorem verifyChallenge_touches_counters_only (now : Z)
  (challengeId solution key : string)
  (challenges : gmap string ChallengeData) (c' : ChallengeData) :
  (verifyChallenge now challengeId solution challenges).2 !! key = Some c' ->
  exists c,
    challenges !! key = Some c
    /\ (key <> challengeId -> c' = c)
    /\ id c' = id c /\ userId c' = userId c /\ type c' = type c
    /\ question c' = question c /\ answer c' = answer c
    /\ hints c' = hints c /\ createdAt c' = createdAt c
    /\ expiresAt c' = expiresAt c /\ maxAttempts c' = maxAttempts c
    /\ (attempts c <= attempts c' <= attempts c + 1)%Z
    /\ ((attempts c <= maxAttempts c)%Z ->
        (attempts c' <= maxAttempts c')%Z).
Proof.
  unfold verifyChallenge.
  destruct (challenges !! challengeId) as [c0|] eqn:E.
  2:{ cbn. intros Hk. exists c'. repeat split; auto; lia. }
  assert (Hsame : forall m : gmap string ChallengeData,
             m !! key = Some c' ->
             (m = challenges \/ m = delete challengeId challenges) ->
             exists c, challenges !! key = Some c /\ c' = c).
  { intros m Hm [-> | ->]; [eauto|].
    apply lookup_delete_Some in Hm as [_ Hm]. eauto. }
  assert (Hdone : forall c, challenges !! key = Some c /\ c' = c ->
             exists c, challenges !! key = Some c
               /\ (key <> challengeId -> c' = c)
               /\ id c' = id c /\ userId c' = userId c /\ type c' = type c
               /\ question c' = question c /\ answer c' = answer c
               /\ hints c' = hints c /\ createdAt c' = createdAt c
               /\ expiresAt c' = expiresAt c /\ maxAttempts c' = maxAttempts c
               /\ (attempts c <= attempts c' <= attempts c + 1)%Z
               /\ ((attempts c <= maxAttempts c)%Z ->
                   (attempts c' <= maxAttempts c')%Z)).
  { intros c [Hc ->]. exists c. repeat split; auto; lia. }
  destruct (expiresAt c0 <? now)%Z.
  { cbn. intros Hk. destruct (Hsame _ Hk) as (c & Hc); auto.
    now apply (Hdone c). }
  destruct (completed c0).
  { cbn. intros Hk. destruct (Hsame _ Hk) as (c & Hc); auto.
    now apply (Hdone c). }
  destruct (Z.leb_spec (maxAttempts c0) (attempts c0)).
  { cbn. intros Hk. destruct (Hsame _ Hk) as (c & Hc); auto.
    now apply (Hdone c). }
  destruct (decide (key = challengeId)) as [->|Hne].
  - destruct (verifySolution (count_attempt c0) solution); cbn;
      rewrite lookup_insert_eq; intros [= <-]; exists c0;
      cbn; repeat split; auto; try lia; congruence.
  - destruct (verifySolution (count_attempt c0) solution); cbn;
      rewrite lookup_insert_ne by congruence; intros Hk;
      apply (Hdone c'); auto.
Qed.

(** The sweep keeps exactly the challenges that have not expired, and a
    second sweep at the same reading changes nothing. *)
Theorem cleanup_keeps_live_challenges (now : Z)
  (challenges : gmap string ChallengeData) :
  (forall key c,
      cleanupExpiredChallenges now challenges !! key = Some c
      <-> challenges !! key = Some c /\ (now <= expiresAt c)%Z)
  /\ cleanupExpiredChallenges now (cleanupExpiredChallenges now challenges)
     = cleanupExpiredChallenges now challenges.
Proof.
  split.
  - intros key c. unfold cleanupExpiredChallenges.
    rewrite map_lookup_filter_Some. cbn. intuition lia.
  - unfold cleanupExpiredChallenges. apply map_eq. intros key.
    apply option_eq. intros c.
    rewrite !map_lookup_filter_Some. cbn. intuition.
Qed.

(** What [createChallenge] stores under the drawn id. *)
Lemma createChallenge_record (now : Z) (d : Drawn) (owner : string)
  (challenges : gmap string ChallengeData) :
  (createChallenge now d owner None challenges).2 !! d_id d
  = Some {| id := d_id d; userId := owner; type := d_type d;
            question := d_question d; answer := d_answer d;
            hints := d_hints d; createdAt := now;
            expiresAt := (now + 5 * 60 * 1000)%Z; attempts := 0;
            maxAttempts := 3; completed := false |}.
Proof.
  unfold createChallenge, cleanupExpiredChallenges. cbn [snd].
  apply map_lookup_filter_Some. split; [apply lookup_insert_eq|].
  cbn. lia.
Qed.

(** X3.  [createChallenge] also sweeps: of the challenges stored before
    under other ids it keeps those that have not expired, unchanged, and
    drops the expired ones. *)
Theorem createChallenge_sweeps_expired (now : Z) (d : Drawn)
  (owner key : string) (type : option string)
  (challenges : gmap string ChallengeData) (c : ChallengeData) :
  key <> d_id d ->
  ((createChallenge now d owner type challenges).2 !! key = Some c
   <-> challenges !! key = Some c /\ (now <= expiresAt c)%Z).
Proof.
  intros Hne. unfold createChallenge, cleanupExpiredChallenges. cbn [snd].
  rewrite map_lookup_filter_Some, lookup_insert_ne by congruence.
  cbn. intuition lia.
Qed.

(** X4.  Round trip.  A challenge of a type that is matched exactly (neither
    "math" nor "security_questions") is accepted, on the first attempt, when
    its own answer comes back within the five minutes. *)
Theorem created_challenge_accepts_its_answer (now later : Z) (d : Drawn)
  (owner : string) (challenges : gmap string ChallengeData) :
  d_type d <> "math"%string -> d_type d <> "security_questions"%string ->
  (later <= now + 300000)%Z ->
  let '(public, stored) := createChallenge now d owner None challenges in
  (verifyChallenge later (p_id public) (d_answer d) stored).1
  = Valid owner (d_type d) 1.
Proof.
  intros Hm Hs Hl.
  pose proof (createChallenge_record now d owner challenges) as Hrec.
  destruct (createChallenge now d owner None challenges)
    as [public stored] eqn:Ec.
  assert (p_id public = d_id d)
    by (unfold createChallenge in Ec; injection Ec as <- _; reflexivity).
  cbn [snd] in Hrec. rewrite H0.
  match type of Hrec with
  | _ = Some ?c =>
      rewrite (verify_correct later (d_id d) (d_answer d) stored c)
  end; try assumption; try reflexivity; try (cbn; lia).
  unfold verifySolution. cbn [type answer].
  apply String.eqb_neq in Hm, Hs. rewrite Hm, Hs.
  apply String.eqb_refl.
Qed.

End ChallengeStore.

Lemma accepted_challenge_is_single_use_witness :
  let '(first, stored) :=
    ChallengeManager.verifyChallenge 1000 "c-1" "ab2cd"
      {[ "c-1"%string := Demo.captcha ]} in
  let '(second, final) :=
    ChallengeManager.verifyChallenge 2000 "c-1" "ab2cd" stored in
  first = ChallengeManager.Valid "u-1" "captcha" (0 + 1)
  /\ second = ChallengeManager.Invalid "Challenge already completed" None
  /\ final = stored
  /\ stored !! "c-1"%string
     = Some (ChallengeManager.complete
               (ChallengeManager.count_attempt Demo.captcha)).
Proof.
  apply (accepted_challenge_is_single_use 1000 2000 "c-1" "ab2cd" "ab2cd"
           {[ "c-1"%string := Demo.captcha ]} Demo.captcha);
    try reflexivity; try (apply lookup_singleton_eq); discriminate.
Defined.

Lemma verifyChallenge_touches_counters_only_witness :
  let c' := ChallengeManager.count_attempt Demo.captcha in
  exists c,
    ({[ "c-1"%string := Demo.captcha ]} : gmap string _) !! "c-1"%string
    = Some c
    /\ ("c-1"%string <> "c-1"%string -> c' = c)
    /\ ChallengeManager.id c' = ChallengeManager.id c
    /\ ChallengeManager.userId c' = ChallengeManager.userId c
    /\ ChallengeManager.type c' = ChallengeManager.type c
    /\ ChallengeManager.question c' = ChallengeManager.question c
    /\ ChallengeManager.answer c' = ChallengeManager.answer c
    /\ ChallengeManager.hints c' = ChallengeManager.hints c
    /\ ChallengeManager.createdAt c' = ChallengeManager.createdAt c
    /\ ChallengeManager.expiresAt c' = ChallengeManager.expiresAt c
    /\ ChallengeManager.maxAttempts c' = ChallengeManager.maxAttempts c
    /\ (ChallengeManager.attempts c <= ChallengeManager.attempts c'
        <= ChallengeManager.attempts c + 1)%Z
    /\ ((ChallengeManager.attempts c <= ChallengeManager.maxAttempts c)%Z ->
        (ChallengeManager.attempts c' <= ChallengeManager.maxAttempts c')%Z).
Proof.
  apply (verifyChallenge_touches_counters_only 1000 "c-1" "x" "c-1"
           {[ "c-1"%string := Demo.captcha ]}
           (ChallengeManager.count_attempt Demo.captcha)).
  reflexivity.
Defined.

Lemma createChallenge_sweeps_expired_witness :
  (ChallengeManager.createChallenge 400000
     {| ChallengeManager.d_id := "c-2"; ChallengeManager.d_type := "captcha";
        ChallengeManager.d_question := "Type: XY7ZQ";
        ChallengeManager.d_answer := "XY7ZQ";
        ChallengeManager.d_hints := [] |}
     "u-1" None {[ "c-1"%string := Demo.captcha ]}).2 !! "c-1"%string
  = Some Demo.captcha
  <-> ({[ "c-1"%string := Demo.captcha ]} : gmap string _) !! "c-1"%string
      = Some Demo.captcha
      /\ (400000 <= ChallengeManager.expiresAt Demo.captcha)%Z.
Proof.
  apply (createChallenge_sweeps_expired 400000 _ "u-1" "c-1" None
           {[ "c-1"%string := Demo.captcha ]} Demo.captcha).
  discriminate.
Defined.

Lemma created_challenge_accepts_its_answer_witness :
  let '(public, stored) :=
    ChallengeManager.createChallenge 1000 Demo.drawn "u-1" None ∅ in
  (ChallengeManager.verifyChallenge 200000 (ChallengeManager.p_id public)
     "AB2CD" stored).1
  = ChallengeManager.Valid "u-1" "captcha" 1.
Proof.
  apply (created_challenge_accepts_its_answer 1000 200000 Demo.drawn "u-1" ∅);
    discriminate.
Defined.

(** ** The baseline store: bound, eviction order, frame *)

Section BaselineStore.
Import Types UserManager.
Context `{Externals}.

Lemma push_sample_spec (sample : BiometricSampleSummary)
  (samples : list BiometricSampleSummary) :
  (length samples <= 50)%nat ->
  push_sample sample samples
  = if (length samples <? 50)%nat then samples ++ [sample]
    else tl samples ++ [sample].
Proof.
  intros Hl. unfold push_sample. rewrite length_app. cbn [length].
  destruct (Nat.ltb_spec 50 (length samples + 1));
    destruct (Nat.ltb_spec (length samples) 50); try lia; try reflexivity.
  destruct samples; [cbn in *; lia | reflexivity].
Qed.

(** X5.  The profile stays within fifty samples, first in first out.
    Updating a stored profile of at most fifty samples appends the summary
    of the session as the newest sample; a profile that was full loses its
    oldest sample and keeps the others in order; [createdAt] is kept and
    [lastUpdated] set. *)
Theorem profile_bounded_first_in_first_out (now : Z) (uid : string)
  (features : BiometricFeatures) (st : Store) (p : BiometricProfile) :
  biometricProfiles st !! uid = Some p ->
  (length (samples p) <= 50)%nat ->
  let '(ok, st') := updateBiometricProfile now uid features st in
  ok = true
  /\ exists p',
       biometricProfiles st' !! uid = Some p'
       /\ length (samples p') = Nat.min (S (length (samples p))) 50
       /\ last (samples p') = Some (summarize now features)
       /\ ((length (samples p) < 50)%nat ->
           samples p' = samples p ++ [summarize now features])
       /\ (length (samples p) = 50%nat ->
           samples p' = tl (samples p) ++ [summarize now features])
       /\ createdAt p' = createdAt p /\ lastUpdated p' = now.
Proof.
  intros E Hl. unfold updateBiometricProfile. rewrite E.
  split; [reflexivity|]. eexists. split; [apply lookup_insert_eq|].
  cbn [samples createdAt lastUpdated].
  rewrite (push_sample_spec _ _ Hl).
  destruct (Nat.ltb_spec (length (samples p)) 50).
  - rewrite length_app, last_snoc. cbn [length].
    repeat split; intros; try reflexivity; lia.
  - assert (Hfull : length (samples p) = 50%nat) by lia.
    rewrite length_app, last_snoc. cbn [length].
    destruct (samples p) as [|s0 rest]; [discriminate|].
    cbn in *. repeat split; intros; try reflexivity; lia.
Qed.

(** [updateBiometricProfile] changes one profile at most: an unknown user
    id gives [false] and the same store; otherwise the user records and
    the profiles of the other users are as before. *)
Theorem updateBiometricProfile_frame (now : Z) (uid : string)
  (features : BiometricFeatures) (st : Store) :
  let '(ok, st') := updateBiometricProfile now uid features st in
  users st' = users st
  /\ (forall other, other <> uid ->
        biometricProfiles st' !! other = biometricProfiles st !! other)
  /\ (biometricProfiles st !! uid = None -> ok = false /\ st' = st)
  /\ (ok = false -> st' = st).
Proof.
  unfold updateBiometricProfile.
  destruct (biometricProfiles st !! uid) as [p|] eqn:E.
  - cbn. repeat split; try discriminate.
    intros other Hne. now rewrite lookup_insert_ne.
  - repeat split; reflexivity.
Qed.

Lemma record_login_spec (now : Z) (uid : string) (us : list UserRecord)
  (u : UserRecord) :
  u ∈ record_login now uid us ->
  exists u0, u0 ∈ us
    /\ id u = id u0 /\ username u = username u0
    /\ password u = password u0 /\ isActive u = isActive u0
    /\ (id u0 <> uid -> u = u0)
    /\ (id u0 = uid -> loginCount u = (loginCount u0 + 1)%Z
                       /\ lastLogin u = Some now).
Proof.
  unfold record_login. intros Hu.
  apply list_elem_of_fmap in Hu as (u0 & -> & Hin).
  exists u0. split; [exact Hin|].
  destruct (String.eqb_spec (id u0) uid); cbn;
    repeat split; try reflexivity; congruence.
Qed.

(** X6.  [validateUser] answers only for an active user of that name whose
    stored hash matches the password.  The user it returns is the stored
    record with this login counted ([loginCount] raised by one, [lastLogin]
    set), as the store holds it afterwards, with the profile stored under
    the user's id attached; the login is counted on that user's record and
    on no other.  A refused call leaves the store as it was. *)
Theorem validateUser_sound (now : Z) (name pass : string) (st : Store) :
  match validateUser now name pass st with
  | (Some (user, profile), st') =>
      (exists before,
          before ∈ users st
          /\ username before = name /\ isActive before = true
          /\ bcrypt_compare pass (password before) = true
          /\ id user = id before /\ username user = username before
          /\ password user = password before
          /\ u_createdAt user = u_createdAt before
          /\ isActive user = isActive before
          /\ loginCount user = (loginCount before + 1)%Z
          /\ lastLogin user = Some now)
      /\ user ∈ users st'
      /\ profile = biometricProfiles st !! id user
      /\ biometricProfiles st' = biometricProfiles st
      /\ length (users st') = length (users st)
      /\ forall u, u ∈ users st' ->
           exists u0, u0 ∈ users st
             /\ id u = id u0 /\ username u = username u0
             /\ password u = password u0 /\ isActive u = isActive u0
             /\ (id u0 <> id user -> u = u0)
             /\ (id u0 = id user ->
                 loginCount u = (loginCount u0 + 1)%Z
                 /\ lastLogin u = Some now)
  | (None, st') => st' = st
  end.
Proof.
  unfold validateUser, find_active.
  destruct (List.find _ (users st)) as [user|] eqn:Ef; [|reflexivity].
  destruct (bcrypt_compare pass (password user)) eqn:Eb; [|reflexivity].
  apply find_some in Ef as [Hin Hu].
  apply andb_true_iff in Hu as [Hn Ha]. apply String.eqb_eq in Hn.
  apply list_elem_of_In in Hin.
  cbn [users biometricProfiles]. split; [|split; [|split; [|split; [|split]]]].
  - exists user. repeat split; assumption.
  - unfold record_login. apply list_elem_of_fmap. exists user.
    split; [|exact Hin]. cbn. now rewrite String.eqb_refl.
  - reflexivity.
  - reflexivity.
  - unfold record_login. now rewrite length_map.
  - intros u Hu. now apply record_login_spec.
Qed.

End BaselineStore.

Lemma profile_bounded_first_in_first_out_witness :
  let new := UserManager.summarize 1000 Demo.steady_features in
  let '(ok, st') :=
    UserManager.updateBiometricProfile 1000 "u-1" Demo.steady_features
      Scenario.full_store in
  ok = true
  /\ exists p',
       UserManager.biometricProfiles st' !! "u-1"%string = Some p'
       /\ length (Types.samples p')
          = Nat.min (S (length (Types.samples Scenario.full_profile))) 50
       /\ last (Types.samples p') = Some new
       /\ ((length (Types.samples Scenario.full_profile) < 50)%nat ->
           Types.samples p' = Types.samples Scenario.full_profile ++ [new])
       /\ (length (Types.samples Scenario.full_profile) = 50%nat ->
           Types.samples p'
           = tl (Types.samples Scenario.full_profile) ++ [new])
       /\ Types.createdAt p' = Types.createdAt Scenario.full_profile
       /\ Types.lastUpdated p' = 1000%Z.
Proof.
  apply (profile_bounded_first_in_first_out 1000 "u-1" Demo.steady_features
           Scenario.full_store Scenario.full_profile).
  - reflexivity.
  - cbn. constructor.
Defined.

(** ** The fusion engine: factor ranges, convexity, cold start, NaN *)

Section FusionFacts.
Import Types RiskCalculator.
Context `{Externals}.

Lemma le1_or_nan_not_above (a : number) :
  le1_or_nan a -> (a >? Num 1)%js = false.
Proof.
  destruct a as [q| | |]; cbn; try tauto. intros Hq.
  destruct (Qcompare_spec 1 q); try reflexivity. lra.
Qed.

(** X7.  For every feature vector and every profile, no factor is above 1:
    the temporal and the behavioural factor are never greater than 1 (they
    have no lower bound and may be NaN), and the consistency, deviation and
    velocity factors lie within 0..1 or are NaN. *)
Theorem factors_at_most_one (current : BiometricFeatures)
  (profile : BiometricProfile) :
  (calculateTemporalRisk current profile >? Num 1)%js = false
  /\ (calculateBehavioralRisk current profile >? Num 1)%js = false
  /\ unit_or_nan (calculateConsistencyRisk current profile)
  /\ unit_or_nan (calculateDeviationRisk current profile)
  /\ unit_or_nan (calculateVelocityRisk current profile).
Proof.
  repeat split.
  - apply le1_or_nan_not_above, temporal_le1.
  - apply le1_or_nan_not_above, behavioral_le1.
  - apply consistency_unit.
  - apply deviation_unit.
  - apply velocity_unit.
Qed.

Lemma accumulate_between (lo hi : Q) (es : list (string * number))
  (ws tw : Q) :
  Forall (fun e => between_or_nan lo hi e.2) es ->
  lo * tw <= ws <= hi * tw -> 0 <= tw ->
  exists ws' tw',
    fold_left accumulate es (Num ws, Num tw) = (Num ws', Num tw')
    /\ lo * tw' <= ws' <= hi * tw' /\ tw <= tw'.
Proof.
  intros Hes. revert ws tw.
  induction Hes as [|[factor value] es Hv _ IH]; intros ws tw Hws Htw.
  - simpl. exists ws, tw. repeat split; try apply Hws; lra.
  - cbn [fold_left]. unfold accumulate at 2.
    destruct (weight_of weights factor) as [w|] eqn:Ew; [|now apply IH].
    apply weight_of_pos in Ew.
    destruct value as [v| | |]; simpl in Hv; try contradiction;
      cbn [isNaN negb andb]; [|now apply IH].
    destruct (truthy (Num w)); [|now apply IH].
    js_simpl.
    destruct (IH (ws + v * w) (tw + w)) as (ws' & tw' & E & Hb & Ht);
      [nra | lra |].
    exists ws', tw'. repeat split; try apply Hb; try assumption. lra.
Qed.

Lemma truthy_pos (w : Q) : 0 < w -> truthy (Num w) = true.
Proof.
  intros Hw. cbn. destruct (Qeq_bool w 0) eqn:E; [|reflexivity].
  apply Qeq_bool_iff in E. lra.
Qed.

Lemma accumulate_monotone (es : list (string * number)) (ws tw : Q) :
  Forall (fun e => finite_or_nan e.2) es ->
  exists ws' tw',
    fold_left accumulate es (Num ws, Num tw) = (Num ws', Num tw')
    /\ tw <= tw'.
Proof.
  intros Hes. revert ws tw.
  induction Hes as [|[factor value] es Hv _ IH]; intros ws tw.
  - simpl. exists ws, tw. split; [reflexivity | lra].
  - cbn [fold_left]. unfold accumulate at 2.
    destruct (weight_of weights factor) as [w|] eqn:Ew; [|now apply IH].
    apply weight_of_pos in Ew.
    destruct value as [v| | |]; simpl in Hv; try contradiction;
      cbn [isNaN negb andb]; [|now apply IH].
    destruct (truthy (Num w)); [|now apply IH].
    js_simpl. destruct (IH (ws + v * w) (tw + w)) as (ws' & tw' & E & Ht).
    exists ws', tw'. split; [exact E | lra].
Qed.

(** With every factor's name in the weight table, one usable factor is
    enough for a positive total weight. *)
Lemma accumulate_gains_weight (es : list (string * number)) (ws tw : Q) :
  Forall (fun e => finite_or_nan e.2) es ->
  Forall (fun e => is_Some (weight_of weights e.1)) es ->
  some_usable es ->
  exists ws' tw',
    fold_left accumulate es (Num ws, Num tw) = (Num ws', Num tw')
    /\ tw < tw'.
Proof.
  intros Hes Hw Hu. revert ws tw.
  induction Hu as [[factor value] es Hv | [factor value] es Hu IH];
    intros ws tw;
    apply Forall_cons in Hes as [Hf Hes];
    apply Forall_cons in Hw as [[w Ew] Hw];
    cbn [fold_left]; unfold accumulate at 2; cbn [fst snd] in *;
    rewrite Ew; pose proof (weight_of_pos _ _ Ew) as Hpos;
    rewrite (truthy_pos w Hpos).
  - destruct value as [v| | |]; try contradiction; try discriminate.
    cbn [isNaN negb andb]. js_simpl.
    destruct (accumulate_monotone es (ws + v * w) (tw + w) Hes)
      as (ws' & tw' & E & Ht).
    exists ws', tw'. split; [exact E | lra].
  - destruct value as [v| | |]; try contradiction;
      cbn [isNaN negb andb]; js_simpl.
    + destruct (IH Hes Hw (ws + v * w) (tw + w)) as (ws' & tw' & E & Ht).
      exists ws', tw'. split; [exact E | lra].
    + now apply IH.
Qed.

Lemma accumulate_skips_NaN (es : list (string * number))
  (acc : number * number) :
  Forall (fun e => e.2 = NaN) es -> fold_left accumulate es acc = acc.
Proof.
  intros Hes. revert acc.
  induction Hes as [|[factor value] es Hv _ IH]; intros acc; [reflexivity|].
  cbn [fold_left]. rewrite IH. cbn in Hv. subst value.
  unfold accumulate. destruct acc.
  now destruct (weight_of weights factor).
Qed.

Lemma entries_weighted (f : RiskFactors) :
  Forall (fun e => is_Some (weight_of weights e.1)) (entries f).
Proof. unfold entries. repeat constructor; cbn; eauto. Qed.

Lemma between_or_nan_finite (lo hi : Q) (a : number) :
  between_or_nan lo hi a -> finite_or_nan a.
Proof. destruct a; simpl; tauto. Qed.

(** In exact arithmetic the fused score is a weighted mean of the usable
    factors, NaN factors being left out and the weights renormalised. *)
Lemma weighted_mean_of_usable (lo hi : Q) (f : RiskFactors) :
  between_or_nan lo hi (temporal f) -> between_or_nan lo hi (behavioral f) ->
  between_or_nan lo hi (consistency f) -> between_or_nan lo hi (deviation f) ->
  between_or_nan lo hi (velocity f) -> between_or_nan lo hi (client f) ->
  (some_usable (entries f) ->
   exists q, calculateWeightedScore f = Num q /\ lo <= q <= hi)
  /\ (~ some_usable (entries f) -> calculateWeightedScore f = Num 0.5).
Proof.
  intros Ht Hb Hc Hd Hv Hcl.
  assert (Hall : Forall (fun e => between_or_nan lo hi e.2) (entries f))
    by (unfold entries; repeat constructor; assumption).
  split.
  - intros Hu. unfold calculateWeightedScore, weighted_score_of.
    destruct (accumulate_between lo hi (entries f) 0 0 Hall)
      as (ws & tw & E & Hbnd & _); [lra | lra |].
    destruct (accumulate_gains_weight (entries f) 0 0)
      as (ws' & tw' & E' & Hpos);
      [eapply Forall_impl; [exact Hall | intros e; apply between_or_nan_finite]
      | apply entries_weighted | exact Hu |].
    rewrite E in E'. injection E' as <- <-. rewrite E.
    assert (Eg : (Num tw >? Num 0)%js = true)
      by (unfold gt; apply lt_Num; exact Hpos).
    rewrite Eg, div_Num by lra. exists (ws / tw). split; [reflexivity|].
    split; [apply Qle_shift_div_l | apply Qle_shift_div_r]; lra.
  - intros Hn. unfold calculateWeightedScore, weighted_score_of.
    rewrite accumulate_skips_NaN; [reflexivity|].
    apply Forall_forall. intros e He.
    destruct (e.2) eqn:Ee; try reflexivity; exfalso; apply Hn;
      apply Exists_exists; exists e; rewrite Ee; split; auto.
Qed.

Lemma entries_fields (P : number -> Prop) (f : RiskFactors) :
  Forall (fun e => P e.2) (entries f) ->
  P (temporal f) /\ P (behavioral f) /\ P (consistency f)
  /\ P (deviation f) /\ P (velocity f) /\ P (client f).
Proof.
  unfold entries. intros Hf.
  repeat match goal with
         | H : Forall _ (_ :: _) |- _ => inversion H; subst; clear H
         end.
  cbn in *. tauto.
Qed.

(** X8.  NaN factors are left out of the fused score and the weights of the
    others renormalised.  With every factor within 0..1 or NaN the score
    lies within 0..1; it is 0.5 when every factor is NaN; and as soon as one
    factor is usable, the score is 1 when every usable factor is 1 and 0
    when every usable factor is 0, however many factors are NaN. *)
Theorem weighted_score_renormalised (f : RiskFactors) :
  Forall (fun e => unit_or_nan e.2) (entries f) ->
  within 0 1 (calculateWeightedScore f)
  /\ (~ some_usable (entries f) -> calculateWeightedScore f = Num 0.5)
  /\ (some_usable (entries f) ->
      Forall (fun e => between_or_nan 1 1 e.2) (entries f) ->
      same (calculateWeightedScore f) (Num 1))
  /\ (some_usable (entries f) ->
      Forall (fun e => between_or_nan 0 0 e.2) (entries f) ->
      same (calculateWeightedScore f) (Num 0)).
Proof.
  intros Hunit.
  assert (Hconst : forall v : Q,
             some_usable (entries f) ->
             Forall (fun e => between_or_nan v v e.2) (entries f) ->
             same (calculateWeightedScore f) (Num v)).
  { intros v Hu Hall.
    apply (entries_fields (between_or_nan v v)) in Hall
      as (H1 & H2 & H3 & H4 & H5 & H6).
    destruct (weighted_mean_of_usable v v f H1 H2 H3 H4 H5 H6) as [Hq _].
    destruct (Hq Hu) as (q & -> & Hle). cbn. lra. }
  split; [|split; [|split]].
  - apply (entries_fields unit_or_nan) in Hunit
      as (H1 & H2 & H3 & H4 & H5 & H6).
    now apply calculateWeightedScore_unit.
  - apply (entries_fields unit_or_nan) in Hunit
      as (H1 & H2 & H3 & H4 & H5 & H6).
    apply (weighted_mean_of_usable 0 1 f); assumption.
  - apply Hconst.
  - apply Hconst.
Qed.

Lemma accumulate_Num (ws tw v w : Q) (factor : string) :
  weight_of weights factor = Some w ->
  accumulate (Num ws, Num tw) (factor, Num v)
  = (Num (ws + v * w), Num (tw + w)).
Proof.
  intros Ew. unfold accumulate. rewrite Ew.
  now rewrite (truthy_pos w (weight_of_pos _ _ Ew)).
Qed.

(** With six numeric factors nothing is skipped: the weights add up to 1
    and the score is the plain linear combination. *)
Lemma weighted_score_linear (t b c d v cl : Q) :
  exists q,
    calculateWeightedScore
      {| temporal := Num t; behavioral := Num b; consistency := Num c;
         deviation := Num d; velocity := Num v; client := Num cl |} = Num q
    /\ q == 0.25 * t + 0.2 * b + 0.2 * c + 0.15 * d + 0.1 * v + 0.1 * cl.
Proof.
  unfold calculateWeightedScore, weighted_score_of, entries.
  cbn [fold_left temporal behavioral consistency deviation velocity client].
  rewrite (accumulate_Num _ _ t 0.25) by reflexivity.
  rewrite (accumulate_Num _ _ b 0.2) by reflexivity.
  rewrite (accumulate_Num _ _ c 0.2) by reflexivity.
  rewrite (accumulate_Num _ _ d 0.15) by reflexivity.
  rewrite (accumulate_Num _ _ v 0.1) by reflexivity.
  rewrite (accumulate_Num _ _ cl 0.1) by reflexivity.
  set (tw := 0 + 0.25 + 0.2 + 0.2 + 0.15 + 0.1 + 0.1).
  assert (Etw : tw == 1) by reflexivity.
  assert (Eg : (Num tw >? Num 0)%js = true) by reflexivity.
  rewrite Eg, div_Num by (rewrite Etw; discriminate).
  eexists. split; [reflexivity|].
  rewrite Etw. field.
Qed.

(** The score of a user without history: 0.355 plus a tenth of the client
    score. *)
Lemma new_user_score (clientRiskScore : Q) :
  exists q,
    calculateWeightedScore (new_user_factors clientRiskScore) = Num q
    /\ q == 0.355 + 0.1 * clientRiskScore.
Proof.
  unfold new_user_factors.
  destruct (client_or_0 clientRiskScore) as (c & -> & Ec).
  destruct (weighted_score_linear 0.4 0.4 0.5 0.3 0.3 c) as (q & -> & Eq).
  exists q. split; [reflexivity|]. rewrite Eq, Ec. ring.
Qed.

Lemma sum_from_NaN (l : list number) : fold_left add l NaN = NaN.
Proof. induction l as [|x l IH]; [reflexivity|]. cbn [fold_left]. exact IH. Qed.

Lemma sum_with_NaN (l : list number) (acc : number) :
  NaN ∈ l -> fold_left add l acc = NaN.
Proof.
  revert acc. induction l as [|x l IH]; intros acc Hin.
  - now apply elem_of_nil in Hin.
  - cbn [fold_left]. apply elem_of_cons in Hin as [<-|Hin].
    + replace (acc + NaN)%js with NaN by now destruct acc.
      apply sum_from_NaN.
    + now apply IH.
Qed.

Lemma calculateAverage_with_NaN (l : list number) :
  NaN ∈ l -> calculateAverage l = NaN.
Proof.
  intros Hin. unfold calculateAverage, sum.
  destruct l as [|x l]; [now apply elem_of_nil in Hin|].
  now rewrite sum_with_NaN.
Qed.

Lemma mean_of_empty : UserManager.mean_of [] = NaN.
Proof. reflexivity. Qed.

(** A stored sample whose average hold or flight time is NaN makes the
    temporal factor NaN for every later session, as long as the sample
    stays in the profile. *)
Lemma temporal_NaN_of_sample (current : BiometricFeatures)
  (profile : BiometricProfile) (sample : BiometricSampleSummary) :
  sample ∈ samples profile ->
  avgHoldTime sample = NaN \/ avgFlightTime sample = NaN ->
  calculateTemporalRisk current profile = NaN.
Proof.
  intros Hin Hnan. unfold calculateTemporalRisk.
  destruct Hnan as [Hn|Hn].
  - rewrite (calculateAverage_with_NaN (map avgHoldTime (samples profile)))
      by (rewrite <- Hn; now apply list_elem_of_fmap_2).
    replace (calculateAverage (holds current) - NaN)%js with NaN
      by now destruct (calculateAverage (holds current)).
    reflexivity.
  - rewrite (calculateAverage_with_NaN (map avgFlightTime (samples profile)))
      by (rewrite <- Hn; now apply list_elem_of_fmap_2).
    replace (calculateAverage (flights current) - NaN)%js with NaN
      by now destruct (calculateAverage (flights current)).
    cbn [abs div mul min].
    match goal with
    | |- ((?a + NaN) / _)%js = _ => now destruct a
    end.
Qed.

(** X9.  A session sent without hold times or without flight times is stored
    with a NaN average (0 / 0): after [updateBiometricProfile] has stored
    it, the temporal factor of every session evaluated against that profile
    is NaN. *)
Theorem empty_timings_blank_temporal (now : Z) (uid : string)
  (features : BiometricFeatures) (st : UserManager.Store)
  (p : BiometricProfile) :
  UserManager.biometricProfiles st !! uid = Some p ->
  (length (samples p) <= 50)%nat ->
  holdTimes features = [] \/ flightTimes features = [] ->
  exists p',
    UserManager.biometricProfiles
      (UserManager.updateBiometricProfile now uid features st).2 !! uid
    = Some p'
    /\ forall current, calculateTemporalRisk current p' = NaN.
Proof.
  intros E Hl Hempty. unfold UserManager.updateBiometricProfile. rewrite E.
  cbn [snd UserManager.biometricProfiles]. eexists.
  split; [apply lookup_insert_eq|]. intros current.
  apply (temporal_NaN_of_sample _ _ (UserManager.summarize now features)).
  - cbn [samples]. rewrite (push_sample_spec _ _ Hl).
    destruct (_ <? _)%nat; apply elem_of_app; right;
      apply list_elem_of_singleton;
      reflexivity.
  - unfold UserManager.summarize. cbn [avgHoldTime avgFlightTime].
    destruct Hempty as [-> | ->]; [left | right]; reflexivity.
Qed.

Lemma Qmin_1_of_ge (p : Q) : 1 <= p -> Qmin p 1 == 1.
Proof. intros Hp. unfold Qmin. qcases; lra. Qed.

(** A profile with at least twenty samples that is at least thirty days
    old has confidence 1. *)
Theorem mature_profile_full_confidence (now : Z)
  (profile : BiometricProfile) :
  (20 <= length (samples profile))%nat ->
  (createdAt profile + 30 * 86400000 <= now)%Z ->
  same (calculateConfidence now profile) (Num 1).
Proof.
  intros Hn Ht. unfold calculateConfidence, of_nat, of_Z.
  pose proof ms_per_day_pos as Hd.
  cbn [sub add neg]. rewrite !div_Num by lra. cbn [min add].
  rewrite div_Num by lra. cbn [same].
  assert (Hs : 1 <= inject_Z (Z.of_nat (length (samples profile))) / 20).
  { apply Qle_shift_div_l; [lra|].
    change (1 * 20) with (inject_Z 20). rewrite <- Zle_Qle. lia. }
  assert (Ha : 1 <= (inject_Z now + - inject_Z (createdAt profile))
                    / ms_per_day / 30).
  { apply Qle_shift_div_l; [lra|]. apply Qle_shift_div_l; [lra|].
    assert (inject_Z (createdAt profile) + inject_Z (30 * 86400000)
            <= inject_Z now)
      by (rewrite <- inject_Z_plus, <- Zle_Qle; lia).
    assert (1 * 30 * ms_per_day == inject_Z (30 * 86400000)) by reflexivity.
    lra. }
  rewrite (Qmin_1_of_ge _ Hs), (Qmin_1_of_ge _ Ha). reflexivity.
Qed.

Lemma accumulate_le1 (es : list (string * number)) (ws tw : Q) :
  Forall (fun e => le1_or_nan e.2) es -> ws <= tw -> 0 <= tw ->
  exists ws' tw',
    fold_left accumulate es (Num ws, Num tw) = (Num ws', Num tw')
    /\ ws' <= tw' /\ 0 <= tw'.
Proof.
  intros Hes. revert ws tw.
  induction Hes as [|[factor value] es Hv _ IH]; intros ws tw Hws Htw.
  - simpl. eauto.
  - cbn [fold_left]. unfold accumulate at 2.
    destruct (weight_of weights factor) as [w|] eqn:Ew; [|now apply IH].
    apply weight_of_pos in Ew.
    destruct value as [v| | |]; simpl in Hv; try contradiction;
      cbn [isNaN negb andb]; [|now apply IH].
    destruct (truthy (Num w)); [|now apply IH].
    js_simpl. apply IH; nra.
Qed.

Lemma finalScore_le1 (now : Z) (features : BiometricFeatures)
  (profile : option BiometricProfile) (clientRiskScore : Q) :
  clientRiskScore <= 1 ->
  exists q,
    finalScore (calculateRisk now features profile clientRiskScore) = Num q
    /\ q <= 1.
Proof.
  intros Hc.
  destruct (client_or_0 clientRiskScore) as (c & Ec & Hq).
  assert (Hscore : forall f,
             Forall (fun e => le1_or_nan e.2) (entries f) ->
             exists q, calculateWeightedScore f = Num q /\ q <= 1).
  { intros f Hf. unfold calculateWeightedScore, weighted_score_of.
    destruct (accumulate_le1 (entries f) 0 0 Hf) as (ws & tw & -> & Hws & Htw);
      [lra | lra |].
    destruct (Num tw >? Num 0)%js eqn:E.
    - apply gt_Num_0 in E. rewrite div_Num by lra.
      eexists. split; [reflexivity|]. apply Qle_shift_div_r; lra.
    - exists 0.5. split; [reflexivity | lra]. }
  assert (Hnew : exists q,
             calculateWeightedScore (new_user_factors clientRiskScore) = Num q
             /\ q <= 1).
  { apply Hscore. unfold entries, new_user_factors.
    cbn [temporal behavioral consistency deviation velocity client].
    rewrite Ec. repeat constructor; cbn; lra. }
  unfold calculateRisk.
  destruct profile as [p|]; [|exact Hnew].
  destruct (samples p) eqn:Es; [exact Hnew|].
  cbn [finalScore]. apply Hscore. unfold entries.
  cbn [temporal behavioral consistency deviation velocity client].
  rewrite Ec.
  repeat constructor; cbn [snd].
  - apply temporal_le1.
  - apply behavioral_le1.
  - apply unit_or_nan_le1, consistency_unit.
  - apply unit_or_nan_le1, deviation_unit.
  - apply unit_or_nan_le1, velocity_unit.
  - cbn. lra.
Qed.

(** X10.  Whatever the features and the profile, a client score of at most 1
    keeps the final score from exceeding 1, and the final score is never
    NaN: no stored history can push it above 1.  Nothing bounds it from
    below. *)
Theorem finalScore_at_most_one (now : Z) (features : BiometricFeatures)
  (profile : option BiometricProfile) (clientRiskScore : Q) :
  clientRiskScore <= 1 ->
  let score :=
    finalScore (calculateRisk now features profile clientRiskScore) in
  (score >? Num 1)%js = false /\ isNaN score = false.
Proof.
  intros Hc score. subst score.
  destruct (finalScore_le1 now features profile clientRiskScore Hc)
    as (q & -> & Hq).
  split; [|reflexivity]. now apply le1_or_nan_not_above.
Qed.

End FusionFacts.

Lemma weighted_score_renormalised_witness :
  within 0 1 (RiskCalculator.calculateWeightedScore Scenario.partial_factors)
  /\ (~ some_usable (RiskCalculator.entries Scenario.partial_factors) ->
      RiskCalculator.calculateWeightedScore Scenario.partial_factors
      = Num 0.5)
  /\ (some_usable (RiskCalculator.entries Scenario.partial_factors) ->
      Forall (fun e => between_or_nan 1 1 e.2)
        (RiskCalculator.entries Scenario.partial_factors) ->
      same (RiskCalculator.calculateWeightedScore Scenario.partial_factors)
        (Num 1))
  /\ (some_usable (RiskCalculator.entries Scenario.partial_factors) ->
      Forall (fun e => between_or_nan 0 0 e.2)
        (RiskCalculator.entries Scenario.partial_factors) ->
      same (RiskCalculator.calculateWeightedScore Scenario.partial_factors)
        (Num 0)).
Proof.
  apply (weighted_score_renormalised Scenario.partial_factors).
  repeat constructor; cbn; discriminate.
Defined.

Lemma empty_timings_blank_temporal_witness :
  exists p',
    UserManager.biometricProfiles
      (UserManager.updateBiometricProfile 1000 "u-1"
         Scenario.no_flight_features
         (AuthController.store Demo.server0)).2 !! "u-1"%string
    = Some p'
    /\ forall current,
         RiskCalculator.calculateTemporalRisk current p' = NaN.
Proof.
  apply (empty_timings_blank_temporal 1000 "u-1" Scenario.no_flight_features
           (AuthController.store Demo.server0) Demo.alice_profile).
  - reflexivity.
  - cbn. repeat constructor.
  - right. reflexivity.
Defined.

Lemma mature_profile_full_confidence_witness :
  same (RiskCalculator.calculateConfidence 2592000000 Scenario.mature_profile)
    (Num 1).
Proof.
  apply (mature_profile_full_confidence 2592000000 Scenario.mature_profile).
  - cbn. repeat constructor.
  - discriminate.
Defined.

Lemma finalScore_at_most_one_witness :
  let score :=
    RiskCalculator.finalScore
      (RiskCalculator.calculateRisk 1000 Demo.slow_features
         (Some Demo.negative_profile) 0.5) in
  (score >? Num 1)%js = false /\ isNaN score = false.
Proof.
  apply (finalScore_at_most_one 1000 Demo.slow_features
           (Some Demo.negative_profile) 0.5).
  discriminate.
Defined.

(** ** The handlers: cold start, labels, failures, step-up *)

Section Handlers.
Import Types AuthController.
Context `{Externals}.

Lemma Qbetween_spec (lo hi q : Q) :
  Qbetween lo hi q = true -> lo <= q <= hi.
Proof.
  unfold Qbetween. intros Hb. apply andb_true_iff in Hb as [H1 H2].
  apply Qle_bool_iff in H1, H2. split; assumption.
Qed.

(** What a body that passes [loginSchema] is known to satisfy. *)
Lemma loginSchema_parse_Some (body validated : LoginBody) :
  loginSchema_parse body = Some validated ->
  0 <= riskScore validated <= 1
  /\ riskScore validated = riskScore body
  /\ features validated = features body
  /\ password validated = password body
  /\ username validated = ChallengeManager.trim (username body)
  /\ 0 <= errorRate (features validated) <= 1
  /\ 0 <= typingSpeed (features validated).
Proof.
  unfold loginSchema_parse, biometricSchema.
  destruct (in_range 3 50 (username body)); [|discriminate].
  destruct (in_range 6 100 (password body)); [|discriminate].
  destruct (Qbetween 0 1 (riskScore body)) eqn:Er; [|discriminate].
  destruct (Qbetween 0 1 (errorRate (features body))) eqn:Ee; [|discriminate].
  destruct (Qle_bool 0 (typingSpeed (features body))) eqn:Es; [|discriminate].
  cbn. intros [= <-]. cbn.
  apply Qbetween_spec in Er, Ee. apply Qle_bool_iff in Es.
  repeat split; try reflexivity; try apply Er; try apply Ee; exact Es.
Qed.

(** X12.  A user without history is neither granted nor denied: whenever the
    profile attached to the validated user is absent or holds no sample,
    [login] answers STEP_UP with a new challenge and issues no token,
    whatever the features and the client score. *)
Theorem login_without_history_steps_up (now : Z)
  (d : ChallengeManager.Drawn) (body validated : LoginBody) (srv : Server)
  (user : UserRecord) (profile : option BiometricProfile)
  (st1 : UserManager.Store) :
  loginSchema_parse body = Some validated ->
  UserManager.validateUser now (username validated) (password validated)
    (store srv) = (Some (user, profile), st1) ->
  (profile = None \/ exists p, profile = Some p /\ samples p = []) ->
  let '(response, srv') := login now d body srv in
  action response = STEP_UP
  /\ challengeId response = Some (ChallengeManager.d_id d)
  /\ sessionToken response = None
  /\ exists c, challenges srv' !! ChallengeManager.d_id d = Some c
               /\ ChallengeManager.userId c = id user.
Proof.
  intros Hv Hu Hp.
  destruct (loginSchema_parse_Some _ _ Hv) as (Hr & _).
  destruct (new_user_score (riskScore validated)) as (q & Eq & Hq).
  assert (Ef : RiskCalculator.finalScore
                 (RiskCalculator.calculateRisk now (features validated)
                    profile (riskScore validated)) = Num q).
  { unfold RiskCalculator.calculateRisk.
    destruct Hp as [-> | (p & -> & ->)]; exact Eq. }
  assert (Ea : decide_action (Num q) = STEP_UP)
    by (apply (decide_action_Num q); lra).
  unfold login. rewrite Hv, Hu, Ef, Ea.
  pose proof (createChallenge_stores now d (id user) (challenges srv))
    as (c & Hc & Hcu & _).
  destruct (ChallengeManager.createChallenge now d (id user) None
              (challenges srv)) as [challenge cs] eqn:Ec.
  assert (ChallengeManager.p_id challenge = ChallengeManager.d_id d)
    by (unfold ChallengeManager.createChallenge in Ec;
        injection Ec as <- _; reflexivity).
  cbn in *. repeat split; try congruence. eauto.
Qed.

(** The risk level named by the analysis is the decision of [login]: for a
    user with history, "Low" goes with GRANT, "Medium" with STEP_UP and
    "High" with DENY. *)
Theorem analysis_level_matches_action (now : Z)
  (d : ChallengeManager.Drawn) (body validated : LoginBody) (srv : Server)
  (user : UserRecord) (p : BiometricProfile) (st1 : UserManager.Store) :
  loginSchema_parse body = Some validated ->
  UserManager.validateUser now (username validated) (password validated)
    (store srv) = (Some (user, Some p), st1) ->
  samples p <> [] ->
  let level :=
    RiskCalculator.analysis
      (RiskCalculator.calculateRisk now (features validated) (Some p)
         (riskScore validated)) in
  let response := (login now d body srv).1 in
  (action response = GRANT <-> level = RiskCalculator.RiskLevel "Low")
  /\ (action response = STEP_UP <-> level = RiskCalculator.RiskLevel "Medium")
  /\ (action response = DENY <-> level = RiskCalculator.RiskLevel "High").
Proof.
  intros Hv Hu Hs level response. subst level response.
  unfold login. rewrite Hv, Hu.
  unfold RiskCalculator.calculateRisk.
  destruct (samples p) eqn:Es; [congruence|].
  cbn [RiskCalculator.finalScore RiskCalculator.analysis].
  set (score := RiskCalculator.calculateWeightedScore _).
  unfold decide_action, RiskCalculator.generateAnalysis.
  destruct (score <? Num 0.3)%js.
  { cbn. repeat split; intros; try reflexivity; discriminate. }
  destruct (score <? Num 0.7)%js.
  { destruct (ChallengeManager.createChallenge _ _ _ _ _).
    cbn. repeat split; intros; try reflexivity; discriminate. }
  cbn. repeat split; intros; try reflexivity; discriminate.
Qed.

(** X13.  A login that fails the schema or the credential check changes
    nothing on the server and carries no token: the answer is a DENY with
    risk score 1, under status 400 or 500; every other login is answered
    under status 200. *)
Theorem failed_login_changes_nothing (now : Z) (d : ChallengeManager.Drawn)
  (body : LoginBody) (srv : Server) :
  let '(response, srv') := login now d body srv in
  (status response = 200%Z
   <-> exists validated user profile st1,
         loginSchema_parse body = Some validated
         /\ UserManager.validateUser now (username validated)
              (password validated) (store srv)
            = (Some (user, profile), st1))
  /\ (status response <> 200%Z ->
      srv' = srv /\ action response = DENY /\ success response = false
      /\ sessionToken response = None
      /\ r_riskScore response = Some (Num 1)).
Proof.
  unfold login.
  destruct (loginSchema_parse body) as [validated|] eqn:Hv.
  2:{ cbn. split; [split; [discriminate|]|auto].
      intros (? & ? & ? & ? & [=] & _). }
  destruct (UserManager.validateUser now (username validated)
              (password validated) (store srv))
    as [[[user profile]|] st1] eqn:Hu.
  2:{ cbn. split; [split; [discriminate|]|auto].
      intros (v & ? & ? & ? & [= <-] & Hu'). rewrite Hu in Hu'.
      discriminate. }
  assert (Hex : exists validated0 user0 profile0 st0,
             Some validated = Some validated0
             /\ UserManager.validateUser now (username validated0)
                  (password validated0) (store srv)
                = (Some (user0, profile0), st0)) by eauto 10.
  destruct (decide_action _);
    try destruct (ChallengeManager.createChallenge _ _ _ _ _);
    cbn; (split; [split; [intros _; exact Hex | reflexivity]
                 | intros Hne; now contradiction Hne]).
Qed.

(** X14.  [stepUp] grants only on a correct solution of a stored challenge
    that has not expired, is not completed and has an attempt left; it then
    marks the challenge completed, and the token carries risk 0.2 for the
    challenge's owner. *)
Theorem stepUp_grants_only_correct_solutions (now : Z)
  (challengeId solution : string) (srv : Server) :
  let '(response, srv') := stepUp now challengeId solution srv in
  action response = GRANT ->
  exists c user,
    challenges srv !! challengeId = Some c
    /\ (now <= ChallengeManager.expiresAt c)%Z
    /\ ChallengeManager.completed c = false
    /\ (ChallengeManager.attempts c < ChallengeManager.maxAttempts c)%Z
    /\ ChallengeManager.verifySolution c solution = true
    /\ UserManager.getUserById (ChallengeManager.userId c) (store srv)
       = Some user
    /\ sessionToken response = Some (generateToken now user (Num 0.2))
    /\ challenges srv' !! challengeId
       = Some (ChallengeManager.complete (ChallengeManager.count_attempt c)).
Proof.
  unfold stepUp, ChallengeManager.verifyChallenge.
  destruct (challenges srv !! challengeId) as [c|] eqn:E;
    [|cbn; discriminate].
  destruct (Z.ltb_spec (ChallengeManager.expiresAt c) now);
    [cbn; discriminate|].
  destruct (ChallengeManager.completed c) eqn:Ec; [cbn; discriminate|].
  destruct (Z.leb_spec (ChallengeManager.maxAttempts c)
              (ChallengeManager.attempts c)); [cbn; discriminate|].
  destruct (ChallengeManager.verifySolution
              (ChallengeManager.count_attempt c) solution) eqn:Es.
  - cbn [ChallengeManager.userId ChallengeManager.count_attempt].
    destruct (UserManager.getUserById (ChallengeManager.userId c) (store srv))
      as [user|] eqn:Eu; [|cbn; discriminate].
    cbn. intros _. exists c, user.
    rewrite verifySolution_count_attempt in Es.
    repeat split; try assumption. apply lookup_insert_eq.
  - cbn [ChallengeManager.maxAttempts ChallengeManager.attempts
           ChallengeManager.count_attempt].
    destruct (0 <? _)%Z; cbn; discriminate.
Qed.

End Handlers.

Lemma login_without_history_steps_up_witness :
  let '(response, srv') :=
    AuthController.login 0 Demo.drawn (Demo.body Demo.steady_features 0.1)
      Demo.server_reset in
  AuthController.action response = AuthController.STEP_UP
  /\ AuthController.challengeId response = Some "c-1"%string
  /\ AuthController.sessionToken response = None
  /\ exists c, AuthController.challenges srv' !! "c-1"%string = Some c
               /\ ChallengeManager.userId c = "u-1"%string.
Proof.
  apply (login_without_history_steps_up 0 Demo.drawn
           (Demo.body Demo.steady_features 0.1)
           (Demo.body Demo.steady_features 0.1) Demo.server_reset
           (UserManager.logged_in 0 Demo.alice)
           (Some {| Types.userId := "u-1"; Types.createdAt := 0;
                    Types.lastUpdated := 0; Types.samples := [] |})
           (UserManager.validateUser 0 "alice" "pass123"
              (AuthController.store Demo.server_reset)).2).
  - reflexivity.
  - reflexivity.
  - right. eexists. split; reflexivity.
Defined.

Lemma analysis_level_matches_action_witness :
  let level :=
    RiskCalculator.analysis
      (RiskCalculator.calculateRisk 1000 Demo.slow_features
         (Some Demo.alice_profile) 0.5) in
  let response :=
    (AuthController.login 1000 Demo.drawn (Demo.body Demo.slow_features 0.5)
       Demo.server0).1 in
  (AuthController.action response = AuthController.GRANT
   <-> level = RiskCalculator.RiskLevel "Low")
  /\ (AuthController.action response = AuthController.STEP_UP
      <-> level = RiskCalculator.RiskLevel "Medium")
  /\ (AuthController.action response = AuthController.DENY
      <-> level = RiskCalculator.RiskLevel "High").
Proof.
  apply (analysis_level_matches_action 1000 Demo.drawn
           (Demo.body Demo.slow_features 0.5)
           (Demo.body Demo.slow_features 0.5) Demo.server0
           (UserManager.logged_in 1000 Demo.alice) Demo.alice_profile
           (UserManager.validateUser 1000 "alice" "pass123"
              (AuthController.store Demo.server0)).2).
  - reflexivity.
  - reflexivity.
  - discriminate.
Defined.

Lemma stepUp_grants_only_correct_solutions_witness :
  exists c user,
    AuthController.challenges Scenario.server_challenged !! "c-1"%string
    = Some c
    /\ (1000 <= ChallengeManager.expiresAt c)%Z
    /\ ChallengeManager.completed c = false
    /\ (ChallengeManager.attempts c < ChallengeManager.maxAttempts c)%Z
    /\ ChallengeManager.verifySolution c "ab2cd" = true
    /\ UserManager.getUserById (ChallengeManager.userId c)
         (AuthController.store Scenario.server_challenged) = Some user
    /\ AuthController.sessionToken
         (AuthController.stepUp 1000 "c-1" "ab2cd"
            Scenario.server_challenged).1
       = Some (AuthController.generateToken 1000 user (Num 0.2))
    /\ AuthController.challenges
         (AuthController.stepUp 1000 "c-1" "ab2cd"
            Scenario.server_challenged).2 !! "c-1"%string
       = Some (ChallengeManager.complete (ChallengeManager.count_attempt c)).
Proof.
  pose proof (stepUp_grants_only_correct_solutions 1000 "c-1" "ab2cd"
                Scenario.server_challenged) as Hgrant.
  destruct (AuthController.stepUp 1000 "c-1" "ab2cd"
              Scenario.server_challenged) as [response srv'] eqn:E.
  apply Hgrant.
  change response with (response, srv').1. rewrite <- E. reflexivity.
Defined.

(** ** The capture over whole traces *)

Section CaptureTraces.
Import BiometricCapture Trace.

Lemma handle_counters (c : Capture) (e : KeyboardEvent) :
  let s := sessionData c in
  let s' := sessionData (handle c e) in
  totalKeystrokes s'
  = (totalKeystrokes s + if is_keystroke e then 1 else 0)%Z
  /\ corrections s'
     = (corrections s + if is_correction e then 1 else 0)%Z.
Proof.
  destruct e as [key t|key t]; cbn [handle is_keystroke is_correction].
  - unfold captureKeyDown.
    destruct (isModifierKey key); cbn; [lia|].
    destruct (String.eqb key "Backspace"); cbn; lia.
  - unfold captureKeyUp.
    destruct (isModifierKey key); [lia|].
    destruct (metrics c !! key); cbn; lia.
Qed.

(** X15.  [totalKeystrokes] is the number of presses of tracked keys other
    than Backspace and [corrections] the number of Backspace presses, over
    any sequence of events: releases, ignored keys and repeated presses of a
    held key included. *)
Theorem counters_count_presses (start : Q) (events : list KeyboardEvent) :
  let s := sessionData (run start events) in
  totalKeystrokes s = Z.of_nat (length (List.filter is_keystroke events))
  /\ corrections s
     = Z.of_nat (length (List.filter is_correction events)).
Proof.
  unfold run.
  assert (Hgen : forall c,
    totalKeystrokes (sessionData (fold_left handle events c))
    = (totalKeystrokes (sessionData c)
       + Z.of_nat (length (List.filter is_keystroke events)))%Z
    /\ corrections (sessionData (fold_left handle events c))
       = (corrections (sessionData c)
          + Z.of_nat (length (List.filter is_correction events)))%Z).
  { induction events as [|e events IH]; intros c; cbn [fold_left List.filter].
    - cbn. lia.
    - destruct (IH (handle c e)) as [Ht Hc].
      destruct (handle_counters c e) as [Ht1 Hc1]. cbn zeta in Ht1, Hc1.
      rewrite Ht, Hc, Ht1, Hc1.
      destruct (is_keystroke e), (is_correction e); cbn [length]; lia. }
  destruct (Hgen (new_capture start)) as [Ht Hc]. cbn in Ht, Hc.
  cbn zeta. rewrite Ht, Hc. split; lia.
Qed.

Lemma starts_with_F_ignored (c : Capture) (e : KeyboardEvent) :
  starts_with_F e = true -> handle c e = c.
Proof.
  unfold starts_with_F. intros HF.
  destruct e as [key t|key t]; cbn in HF; cbn [handle];
    unfold captureKeyDown, captureKeyUp, isModifierKey;
    rewrite HF, orb_true_r; reflexivity.
Qed.

(** X16.  Every event of a key whose name starts with [F] is dropped: the
    function keys, and with them the capital letter F itself.  Deleting
    these events from a trace leaves the capture as it was. *)
Theorem keys_starting_with_F_are_dropped (start : Q)
  (events : list KeyboardEvent) :
  run start events
  = run start (List.filter (fun e => negb (starts_with_F e)) events).
Proof.
  unfold run. generalize (new_capture start).
  induction events as [|e events IH]; intros c; [reflexivity|].
  cbn [fold_left List.filter].
  destruct (starts_with_F e) eqn:HF; cbn [negb fold_left].
  - rewrite (starts_with_F_ignored c e HF). apply IH.
  - apply IH.
Qed.

Lemma handle_other_key (c : Capture) (e : KeyboardEvent) (key : string)
  (metric : KeyMetrics) :
  event_key e <> key ->
  metrics c !! key = Some metric ->
  metrics (handle c e) !! key = Some metric.
Proof.
  intros Hne Hm. destruct e as [k t|k t]; cbn in Hne; cbn [handle].
  - unfold captureKeyDown.
    destruct (isModifierKey k); [assumption|].
    destruct (String.eqb k "Backspace"); cbn; [assumption|].
    now rewrite lookup_insert_ne.
  - unfold captureKeyUp.
    destruct (isModifierKey k); [assumption|].
    destruct (metrics c !! k); [|assumption].
    cbn. now rewrite lookup_insert_ne.
Qed.

(** X17.  The hold time of a key is its release time minus its press time,
    also when other keys are pressed and released while it is held: after a
    press of a tracked key at [t1] and any events of other keys, its release
    at [t2] appends [t2 - t1] to the hold times. *)
Theorem hold_time_spans_press_to_release (c : Capture) (key : string)
  (t1 t2 : Q) (between : list KeyboardEvent) :
  isModifierKey key = false ->
  key <> "Backspace"%string ->
  Forall (fun e => event_key e <> key) between ->
  let before := fold_left handle (KeyDown key t1 :: between) c in
  holdTimes (sessionData (handle before (KeyUp key t2)))
  = holdTimes (sessionData before) ++ [t2 - t1].
Proof.
  intros Hmod Hbs Hbetween before.
  assert (Hrec : exists metric,
             metrics before !! key = Some metric /\ downTime metric = t1).
  { subst before. cbn [fold_left].
    assert (H0 : exists metric,
               metrics (handle c (KeyDown key t1)) !! key = Some metric
               /\ downTime metric = t1).
    { cbn [handle]. unfold captureKeyDown. rewrite Hmod.
      apply String.eqb_neq in Hbs. rewrite Hbs. cbn.
      rewrite lookup_insert_eq. eauto. }
    revert H0. generalize (handle c (KeyDown key t1)).
    induction Hbetween as [|e rest He _ IH]; intros c0 H0; [exact H0|].
    cbn [fold_left]. apply IH.
    destruct H0 as (metric & Hm & Hd). exists metric. split; [|exact Hd].
    now apply handle_other_key. }
  destruct Hrec as (metric & Hm & Hd).
  cbn [handle]. unfold captureKeyUp. rewrite Hmod, Hm. cbn.
  now rewrite Hd.
Qed.

Lemma Qsum_from_nonneg (l : list Q) (acc : Q) :
  0 <= acc -> Forall (fun x => 0 <= x) l -> 0 <= fold_left Qplus l acc.
Proof.
  revert acc. induction l as [|x l IH]; intros acc Hacc Hl; [exact Hacc|].
  cbn [fold_left]. inversion Hl; subst. apply IH; [lra|assumption].
Qed.

Lemma capture_variance_nonneg (values : list Q) :
  0 <= BiometricCapture.calculateVariance values.
Proof.
  unfold BiometricCapture.calculateVariance.
  destruct values as [|v values]; [lra|].
  set (n := inject_Z (Z.of_nat (length (v :: values)))).
  assert (Hn : 0 < n).
  { subst n. cbn [length]. rewrite Nat2Z.inj_succ.
    change 0 with (inject_Z 0). rewrite <- Zlt_Qlt. lia. }
  apply Qle_shift_div_l; [exact Hn|]. rewrite Qmult_0_l.
  apply Qsum_from_nonneg; [lra|].
  apply List.Forall_forall. intros x Hx.
  apply in_map_iff in Hx as (y & <- & _).
  change ((y - Qsum (v :: values) / n) ^ 2)
    with ((y - Qsum (v :: values) / n) * (y - Qsum (v :: values) / n)).
  generalize (y - Qsum (v :: values) / n). intros d. nra.
Qed.

Lemma normalized_variance_range (v : Q) :
  0 <= v -> 0 <= Qmax 0 (100 - v / 10) <= 100.
Proof.
  intros Hv. unfold Qmax. destruct (Qle_bool 0 (100 - v / 10)) eqn:E.
  - apply Qle_bool_iff in E. split; [exact E|].
    assert (0 <= v / 10) by (apply Qle_shift_div_l; lra). lra.
  - lra.
Qed.

Lemma consistency_range (s : TypingSession) :
  0 <= consistencyScore (calculateConsistencyScore s) <= 100.
Proof.
  unfold calculateConsistencyScore. cbn [consistencyScore].
  destruct (length (holdTimes s) <? 2)%nat; [lra|].
  pose proof (normalized_variance_range _
                (capture_variance_nonneg (holdTimes s))) as Hh.
  assert (Hf : 0 <= (if (1 <? length (flightTimes s))%nat
                     then BiometricCapture.calculateVariance (flightTimes s)
                     else 0)).
  { destruct (1 <? length (flightTimes s))%nat;
      [apply capture_variance_nonneg | lra]. }
  pose proof (normalized_variance_range _ Hf) as Hfl.
  cbv zeta.
  set (a := Qmax 0 (100 - BiometricCapture.calculateVariance (holdTimes s)
                             / 10)) in *.
  set (b := Qmax 0 _) in *.
  split.
  - apply Qle_shift_div_l; lra.
  - apply Qle_shift_div_r; lra.
Qed.

(** X18.  The consistency score stays within 0 and 100 over every sequence
    of events, whatever the time stamps, and the error rate is never
    negative. *)
Theorem session_scores_in_range (start : Q) (events : list KeyboardEvent) :
  let s := sessionData (run start events) in
  0 <= consistencyScore s <= 100 /\ 0 <= errorRate s.
Proof.
  unfold run.
  assert (Hgen : forall c,
    let s := sessionData c in
    (0 <= consistencyScore s <= 100 /\ 0 <= errorRate s
     /\ (0 <= totalKeystrokes s)%Z /\ (0 <= corrections s)%Z) ->
    let s' := sessionData (fold_left handle events c) in
    0 <= consistencyScore s' <= 100 /\ 0 <= errorRate s').
  { induction events as [|e events IH]; intros c s Hs.
    { subst s. cbn [fold_left]. cbv zeta. tauto. }
    cbn [fold_left]. apply IH. clear IH.
    assert (Hupd : forall now c0,
      (0 <= totalKeystrokes (sessionData c0))%Z ->
      (0 <= corrections (sessionData c0))%Z ->
      let s0 := sessionData (updateSession now c0) in
      0 <= consistencyScore s0 <= 100 /\ 0 <= errorRate s0
      /\ (0 <= totalKeystrokes s0)%Z /\ (0 <= corrections s0)%Z).
    { intros now c0 Ht Hc. split; [apply consistency_range|].
      cbn. split; [|split; assumption].
      destruct (Z.eqb_spec (totalKeystrokes (sessionData c0)) 0); [lra|].
      assert (0 < inject_Z (totalKeystrokes (sessionData c0))).
      { change 0 with (inject_Z 0). rewrite <- Zlt_Qlt. lia. }
      assert (0 <= inject_Z (corrections (sessionData c0))).
      { change 0 with (inject_Z 0). rewrite <- Zle_Qle. lia. }
      assert (0 <= inject_Z (corrections (sessionData c0))
                   / inject_Z (totalKeystrokes (sessionData c0))).
      { apply Qle_shift_div_l; [assumption|]. lra. }
      nra. }
    subst s. destruct Hs as (Hcs & He & Ht & Hc).
    destruct e as [key t|key t]; cbn [handle].
    - unfold captureKeyDown. destruct (isModifierKey key); [tauto|].
      destruct (String.eqb key "Backspace").
      + apply Hupd; cbn; lia.
      + cbn. repeat split; try tauto; lia.
    - unfold captureKeyUp. destruct (isModifierKey key); [tauto|].
      destruct (metrics c !! key); [|tauto].
      apply Hupd; cbn; lia. }
  apply Hgen. cbn. repeat split; try lra; lia.
Qed.

End CaptureTraces.

Lemma hold_time_spans_press_to_release_witness :
  BiometricCapture.holdTimes
    (BiometricCapture.sessionData
       (BiometricCapture.run 0 Trace.overlapping))
  = [210 - 150; 260 - 100].
Proof.
  apply (hold_time_spans_press_to_release (BiometricCapture.new_capture 0)
           "a" 100 260
           [BiometricCapture.KeyDown "b" 150; BiometricCapture.KeyUp "b" 210]).
  - reflexivity.
  - discriminate.
  - repeat constructor; discriminate.
Defined.

Lemma no_flight_time_recorded_witness :
  BiometricCapture.flightTimes
    (BiometricCapture.sessionData
       (BiometricCapture.run 0 Trace.overlapping)) = [].
Proof.
  apply (no_flight_time_recorded 0 Trace.overlapping).
  cbn. repeat split; right; right; set_solver.
Defined.

(** ** The local model: confidence and recommendation *)

Section LocalModel.
Import LocalRisk.

(** X20.  The confidence that the local calculator reports is a rational
    between 0.18816 and 1 for every feature row, missing and non-numeric
    entries included: the five penalties multiply to 0.18816 at least, so
    the floor of 0.1 is never the value returned. *)
Theorem local_confidence_range (features : list number) :
  exists q, calculateConfidence features = Num q /\ 0.18816 <= q <= 1.
Proof.
  unfold calculateConfidence.
  destruct ((elem features 0 <? Num 20)%js || (elem features 0 >? Num 300)%js);
    destruct ((elem features 1 <? Num 10)%js
              || (elem features 1 >? Num 500)%js);
    destruct ((elem features 4 <? Num 10)%js
              || (elem features 4 >? Num 200)%js);
    destruct (elem features 5 >? Num 20)%js;
    destruct (elem features 6 <? Num 30)%js;
    (eexists; split; [vm_compute; reflexivity | split; discriminate]).
Qed.

(** X21.  The local calculator recommends GRANT or DENY only from a
    prediction of a loaded model with confidence 0.5 or more: GRANT for a
    prediction below 0.3 and DENY for one above 0.7.  A prediction that is
    NaN, a model that is not ready and a failed prediction all end in
    STEP_UP. *)
Theorem local_decision_needs_prediction (st : State)
  (features : list number) :
  let r := calculateRisk st features in
  recommendation r <> STEP_UP ->
  isReady st = true
  /\ (confidence r <? Num 0.5)%js = false
  /\ match recommendation r with
     | GRANT => (riskScore r <? Num 0.3)%js = true
     | DENY => (riskScore r <? Num 0.3)%js = false
               /\ (riskScore r >? Num 0.7)%js = true
     | STEP_UP => False
     end.
Proof.
  unfold calculateRisk, isReady.
  destruct (isModelReady st); [|cbn; congruence].
  destruct (model st) as [m|]; [|cbn; congruence].
  destruct (normalizeParams st) as [params|]; [|cbn; congruence].
  destruct (predict m _) as [risk|]; [|cbn; congruence].
  cbn [recommendation confidence riskScore]. unfold getRecommendation.
  destruct (calculateConfidence features <? Num 0.5)%js; [congruence|].
  destruct (risk <? Num 0.3)%js eqn:E1; [intros _; repeat split|].
  destruct (risk >? Num 0.7)%js eqn:E2; [intros _; repeat split|].
  congruence.
Qed.

End LocalModel.

Lemma local_decision_needs_prediction_witness :
  let r := LocalRisk.calculateRisk Scenario.ready_model
             Scenario.typical_features in
  LocalRisk.isReady Scenario.ready_model = true
  /\ (LocalRisk.confidence r <? Num 0.5)%js = false
  /\ match LocalRisk.recommendation r with
     | LocalRisk.GRANT => (LocalRisk.riskScore r <? Num 0.3)%js = true
     | LocalRisk.DENY => (LocalRisk.riskScore r <? Num 0.3)%js = false
                         /\ (LocalRisk.riskScore r >? Num 0.7)%js = true
     | LocalRisk.STEP_UP => False
     end.
Proof.
  apply (local_decision_needs_prediction Scenario.ready_model
           Scenario.typical_features).
  discriminate.
Defined.

(** ** From the form to the controller *)

Section FormToController.
Import Client.
Context `{Externals}.

(** X22.  The capture reports the error rate in percent and the login schema
    admits 0..1: whenever the session's error rate is above 1, the request
    that the form builds is refused with status 400 before the credentials
    are looked at, the server is left as it was, and the API client turns
    the answer into its network-error DENY, keeping the token it had. *)
Theorem percent_error_rate_is_refused (now : Z)
  (d : ChallengeManager.Drawn) (srv : AuthController.Server)
  (username password : string)
  (currentRisk : option LocalRisk.RiskPrediction)
  (session : BiometricCapture.TypingSession) (clock : Q)
  (request : LoginRequest) (stored : option AuthController.Token) :
  handleSubmit username password currentRisk session clock = Some request ->
  1 < BiometricCapture.errorRate session ->
  let '(response, srv') := post_login now d request srv in
  AuthController.status response = 400%Z
  /\ srv' = srv
  /\ AuthClient_login response stored = (network_error, stored).
Proof.
  intros Hreq Hrate.
  assert (Hr : errorRate (features request)
               = BiometricCapture.errorRate session).
  { unfold handleSubmit in Hreq.
    destruct username, password; try discriminate;
      injection Hreq as <-; reflexivity. }
  unfold post_login.
  destruct (received request) as [body|] eqn:Eb; [|repeat split].
  assert (Hb : Types.errorRate (AuthController.features body)
               = BiometricCapture.errorRate session).
  { unfold received in Eb.
    destruct (json_number (riskScore request)); [|discriminate].
    destruct (json_number (typingSpeed (features request))); [|discriminate].
    injection Eb as <-. exact Hr. }
  assert (Hp : AuthController.loginSchema_parse body = None).
  { unfold AuthController.loginSchema_parse, AuthController.biometricSchema,
      AuthController.Qbetween.
    rewrite Hb.
    assert (E : Qle_bool (BiometricCapture.errorRate session) 1 = false).
    { destruct (Qle_bool (BiometricCapture.errorRate session) 1) eqn:E;
        [|reflexivity].
      apply Qle_bool_iff in E. lra. }
    rewrite E. rewrite !andb_false_r. cbn. reflexivity. }
  unfold AuthController.login. rewrite Hp. repeat split.
Qed.

End FormToController.

Lemma percent_error_rate_is_refused_witness :
  let request :=
    {| Client.username := "alice"; Client.password := "pass123";
       Client.riskScore := Num 0.5;
       Client.features :=
         {| Client.holdTimes := [180 - 100]; Client.flightTimes := [];
            Client.typingSpeed :=
              BiometricCapture.typingSpeed Scenario.corrected_session;
            Client.errorRate :=
              BiometricCapture.errorRate Scenario.corrected_session;
            Client.consistencyScore := 0; Client.timestamp := 1000 |} |} in
  let '(response, srv') :=
    Client.post_login 1000 Demo.drawn request Demo.server0 in
  AuthController.status response = 400%Z
  /\ srv' = Demo.server0
  /\ Client.AuthClient_login response None = (Client.network_error, None).
Proof.
  apply (percent_error_rate_is_refused 1000 Demo.drawn Demo.server0
           "alice" "pass123" None Scenario.corrected_session 1000).
  - reflexivity.
  - reflexivity.
Defined.

(** ** The rate limiter *)

Section RateLimits.
Import RateLimiter.

(** The bucket that [checkLimit] works on: the stored one while its window
    lasts, a new one otherwise. *)
Lemma checkLimit_unfold (sweep : bool) (now : Z) (identifier endpoint : string)
  (windowMs maxRequests : Z) (store : gmap string Bucket) :
  let key := key_of identifier endpoint in
  let swept := if sweep then cleanup now store else store in
  let fresh :=
    {| count := 0; resetTime := (now + windowMs)%Z; firstRequest := now |} in
  let bucket :=
    match swept !! key with
    | Some b => if (resetTime b <? now)%Z then fresh else b
    | None => fresh
    end in
  checkLimit sweep now identifier endpoint windowMs maxRequests store
  = if (maxRequests <=? count bucket)%Z
    then (false, <[ key := bucket ]> swept)
    else (true,
          <[ key := {| count := (count bucket + 1)%Z;
                       resetTime := resetTime bucket;
                       firstRequest := firstRequest bucket |} ]> swept).
Proof.
  intros key swept fresh bucket. unfold checkLimit.
  fold key. fold swept. fold fresh. subst bucket.
  destruct (swept !! key) as [b|] eqn:Eb.
  - destruct (resetTime b <? now)%Z.
    + destruct (maxRequests <=? count fresh)%Z; [reflexivity|].
      now rewrite insert_insert_eq.
    + destruct (maxRequests <=? count b)%Z; [|reflexivity].
      now rewrite insert_id.
  - destruct (maxRequests <=? count fresh)%Z; [reflexivity|].
    now rewrite insert_insert_eq.
Qed.

Lemma cleanup_lookup (now : Z) (store : gmap string Bucket) (key : string) :
  cleanup now store !! key
  = match store !! key with
    | Some b => if (resetTime b <? now)%Z then None else Some b
    | None => None
    end.
Proof.
  unfold cleanup. apply option_eq. intros b.
  rewrite map_lookup_filter_Some. cbn.
  destruct (store !! key) as [b0|]; [|intuition discriminate].
  destruct (Z.ltb_spec (resetTime b0) now).
  - split; [intros [[= ->] Hn]; lia | discriminate].
  - split; [intros [Hb _]; exact Hb | intros [= ->]; split; [reflexivity|lia]].
Qed.

(** X23.  The random sweep is not observable in the answer: with or without
    it, [checkLimit] answers the same, and for a window that is not negative
    the store it leaves is the sweep of the store left without it. *)
Theorem sweep_never_changes_the_answer (now : Z)
  (identifier endpoint : string) (windowMs maxRequests : Z)
  (store : gmap string Bucket) :
  (0 <= windowMs)%Z ->
  let swept :=
    checkLimit true now identifier endpoint windowMs maxRequests store in
  let unswept :=
    checkLimit false now identifier endpoint windowMs maxRequests store in
  swept.1 = unswept.1 /\ swept.2 = cleanup now unswept.2.
Proof.
  intros Hw swept unswept. subst swept unswept.
  rewrite !checkLimit_unfold. cbv zeta.
  rewrite cleanup_lookup.
  set (key := key_of identifier endpoint).
  set (fresh := {| count := 0; resetTime := (now + windowMs)%Z;
                   firstRequest := now |}).
  set (bucket := match store !! key with
                 | Some b => if (resetTime b <? now)%Z then fresh else b
                 | None => fresh
                 end).
  assert (Hsame : match
                    match store !! key with
                    | Some b => if (resetTime b <? now)%Z then None else Some b
                    | None => None
                    end
                  with
                  | Some b => if (resetTime b <? now)%Z then fresh else b
                  | None => fresh
                  end = bucket).
  { subst bucket. destruct (store !! key) as [b|]; [|reflexivity].
    destruct (resetTime b <? now)%Z eqn:E; [reflexivity|]. now rewrite E. }
  rewrite Hsame.
  assert (Hlive : ¬ (resetTime bucket < now)%Z).
  { subst bucket. destruct (store !! key) as [b|]; [|cbn; lia].
    destruct (Z.ltb_spec (resetTime b) now); [cbn; lia | lia]. }
  destruct (maxRequests <=? count bucket)%Z; cbn [fst snd];
    (split; [reflexivity|]); unfold cleanup;
    rewrite map_filter_insert_True; try reflexivity; cbn; exact Hlive.
Qed.

Lemma serve_within_window (calls : list (bool * Z))
  (identifier endpoint : string) (windowMs maxRequests : Z)
  (store : gmap string Bucket) (b : Bucket) :
  store !! key_of identifier endpoint = Some b ->
  Forall (fun call => (call.2 <= resetTime b)%Z) calls ->
  (serve calls identifier endpoint windowMs maxRequests store).1
  = map (fun i => (count b + Z.of_nat i <? maxRequests)%Z)
      (seq 0 (length calls)).
Proof.
  revert store b.
  induction calls as [|[sweep now] calls IH]; intros store b Hb Hcalls;
    [reflexivity|].
  inversion Hcalls as [|? ? Hnow Hrest]; subst. cbn in Hnow.
  cbn [serve length seq map].
  rewrite checkLimit_unfold. cbv zeta.
  assert (Hsw : (if sweep then cleanup now store else store)
                !! key_of identifier endpoint = Some b).
  { destruct sweep; [|exact Hb]. rewrite cleanup_lookup, Hb.
    destruct (Z.ltb_spec (resetTime b) now); [lia|reflexivity]. }
  rewrite Hsw.
  destruct (Z.ltb_spec (resetTime b) now) as [|_]; [lia|].
  rewrite Z.add_0_r.
  destruct (Z.leb_spec maxRequests (count b)) as [Hfull|Hroom].
  - match goal with
    | |- context [serve calls ?i ?e ?w ?m ?s] =>
        pose proof (IH s b (lookup_insert_eq _ _ _) Hrest) as IH';
        destruct (serve calls i e w m s) as [answers store']
    end.
    cbn [fst] in *. rewrite IH'.
    f_equal; [symmetry; apply Z.ltb_ge; lia|].
    rewrite <- seq_shift, map_map. apply map_ext_in. intros i _.
    rewrite (proj2 (Z.ltb_ge _ _)) by lia.
    symmetry. apply Z.ltb_ge. lia.
  - set (b' := {| count := (count b + 1)%Z; resetTime := resetTime b;
                  firstRequest := firstRequest b |}).
    match goal with
    | |- context [serve calls ?i ?e ?w ?m ?s] =>
        pose proof (IH s b' (lookup_insert_eq _ _ _) Hrest) as IH';
        destruct (serve calls i e w m s) as [answers store']
    end.
    cbn [fst] in *. rewrite IH'.
    f_equal; [symmetry; apply Z.ltb_lt; lia|].
    rewrite <- seq_shift, map_map. apply map_ext_in. intros i _.
    cbn [count b']. f_equal. lia.
Qed.

(** X24.  A window admits the first [maxRequests] calls and no other: when
    no live bucket exists at the first call and every later call comes no
    later than [windowMs] after it, the call number [i], counted from 0, is
    admitted exactly when [i < maxRequests], sweeps or not. *)
Theorem window_admits_first_calls_only (sweep0 : bool) (t0 : Z)
  (calls : list (bool * Z)) (identifier endpoint : string)
  (windowMs maxRequests : Z) (store : gmap string Bucket) :
  match store !! key_of identifier endpoint with
  | Some b => (resetTime b < t0)%Z
  | None => True
  end ->
  Forall (fun call => (call.2 <= t0 + windowMs)%Z) calls ->
  (serve ((sweep0, t0) :: calls) identifier endpoint windowMs maxRequests
     store).1
  = map (fun i => (Z.of_nat i <? maxRequests)%Z)
      (seq 0 (S (length calls))).
Proof.
  intros Hstart Hcalls.
  cbn [serve length seq map].
  rewrite checkLimit_unfold. cbv zeta.
  set (key := key_of identifier endpoint) in *.
  set (fresh := {| count := 0; resetTime := (t0 + windowMs)%Z;
                   firstRequest := t0 |}).
  assert (Hb : match (if sweep0 then cleanup t0 store else store) !! key with
               | Some b => if (resetTime b <? t0)%Z then fresh else b
               | None => fresh
               end = fresh).
  { destruct sweep0.
    - rewrite cleanup_lookup. destruct (store !! key) as [b|]; [|reflexivity].
      destruct (Z.ltb_spec (resetTime b) t0); [reflexivity|lia].
    - destruct (store !! key) as [b|]; [|reflexivity].
      destruct (Z.ltb_spec (resetTime b) t0); [reflexivity|lia]. }
  rewrite Hb. cbn [count fresh].
  destruct (Z.leb_spec maxRequests 0) as [Hfull|Hroom].
  - match goal with
    | |- context [serve calls ?i ?e ?w ?m ?s] =>
        pose proof (serve_within_window calls i e w m s fresh
                      (lookup_insert_eq _ _ _) Hcalls) as Hrest;
        destruct (serve calls i e w m s) as [answers store']
    end.
    cbn [fst] in *. rewrite Hrest.
    f_equal; [symmetry; apply Z.ltb_ge; lia|].
    rewrite <- seq_shift, map_map. apply map_ext_in. intros i _.
    cbn [count fresh].
    rewrite (proj2 (Z.ltb_ge _ _)) by lia.
    symmetry. apply Z.ltb_ge. lia.
  - set (b' := {| count := (0 + 1)%Z; resetTime := resetTime fresh;
                  firstRequest := firstRequest fresh |}).
    match goal with
    | |- context [serve calls ?i ?e ?w ?m ?s] =>
        pose proof (serve_within_window calls i e w m s b'
                      (lookup_insert_eq _ _ _) Hcalls) as Hrest;
        destruct (serve calls i e w m s) as [answers store']
    end.
    cbn [fst] in *. rewrite Hrest.
    f_equal; [symmetry; apply Z.ltb_lt; lia|].
    rewrite <- seq_shift, map_map. apply map_ext_in. intros i _.
    cbn [count b']. f_equal. lia.
Qed.

Lemma append_assoc (a b c : string) :
  ((a ++ b) ++ c = a ++ b ++ c)%string.
Proof.
  induction a as [|x a IH]; [reflexivity|].
  change (String x ((a ++ b) ++ c) = String x (a ++ b ++ c))%string.
  now f_equal.
Qed.

Lemma prefix_app (a b : string) : String.prefix a (a ++ b) = true.
Proof.
  induction a as [|c a IH]; [now destruct b|]. simpl.
  destruct (ascii_dec c c); [exact IH|congruence].
Qed.

(** After [reset], the identifier starts anew: the bucket of the endpoint
    that was named, or of every endpoint when none was, is gone, the next
    call for it is admitted exactly when [maxRequests] is positive, and a
    bucket whose key does not start with the identifier and a colon is
    left alone. *)
Theorem reset_reopens_the_window (now : Z) (identifier endpoint : string)
  (named : option string) (windowMs maxRequests : Z)
  (store : gmap string Bucket) :
  named = None \/ named = Some endpoint ->
  let store' := reset identifier named store in
  store' !! key_of identifier endpoint = None
  /\ (forall sweep,
        (checkLimit sweep now identifier endpoint windowMs maxRequests
           store').1 = (0 <? maxRequests)%Z)
  /\ (forall key,
        String.prefix (identifier ++ ":") key = false ->
        store' !! key = store !! key).
Proof.
  intros Hnamed store'.
  assert (Hgone : store' !! key_of identifier endpoint = None).
  { subst store'. unfold reset.
    assert (Hall : filter (fun entry : string * Bucket =>
                             String.prefix (identifier ++ ":") entry.1 = false)
                     store !! key_of identifier endpoint = None).
    { apply map_lookup_filter_None. right. intros b _. cbn.
      unfold key_of. rewrite <- append_assoc, prefix_app. discriminate. }
    destruct Hnamed as [-> | ->]; [exact Hall|].
    destruct endpoint; [exact Hall|]. apply lookup_delete_eq. }
  split; [exact Hgone|]. split.
  - intros sweep. rewrite checkLimit_unfold. cbv zeta.
    assert (Hsw : (if sweep then cleanup now store' else store')
                  !! key_of identifier endpoint = None).
    { destruct sweep; [|exact Hgone]. now rewrite cleanup_lookup, Hgone. }
    rewrite Hsw. cbn [count].
    destruct (Z.leb_spec maxRequests 0); cbn [fst]; symmetry;
      [apply Z.ltb_ge | apply Z.ltb_lt]; lia.
  - intros key Hkey. subst store'. unfold reset.
    assert (Hall : filter (fun entry : string * Bucket =>
                             String.prefix (identifier ++ ":") entry.1 = false)
                     store !! key = store !! key).
    { apply option_eq. intros b. rewrite map_lookup_filter_Some. cbn.
      intuition. }
    destruct Hnamed as [-> | ->]; [exact Hall|].
    destruct endpoint as [|a rest]; [exact Hall|].
    apply lookup_delete_ne. intros <-.
    unfold key_of in Hkey.
    rewrite <- append_assoc, prefix_app in Hkey. discriminate.
Qed.

End RateLimits.

Lemma sweep_never_changes_the_answer_witness :
  let swept :=
    RateLimiter.checkLimit true 1000 "10.0.0.1" "/api/login" 900000 10
      RateLimiter.sample_store in
  let unswept :=
    RateLimiter.checkLimit false 1000 "10.0.0.1" "/api/login" 900000 10
      RateLimiter.sample_store in
  swept.1 = unswept.1 /\ swept.2 = RateLimiter.cleanup 1000 unswept.2.
Proof.
  apply (sweep_never_changes_the_answer 1000 "10.0.0.1" "/api/login"
           900000 10 RateLimiter.sample_store).
  lia.
Defined.

Lemma window_admits_first_calls_only_witness :
  (RateLimiter.serve
     [(false, 1000%Z); (true, 2000%Z); (false, 3000%Z); (false, 4000%Z)]
     "10.0.0.1" "/api/login" 900000 3 RateLimiter.sample_store).1
  = [true; true; true; false].
Proof.
  apply (window_admits_first_calls_only false 1000
           [(true, 2000%Z); (false, 3000%Z); (false, 4000%Z)]
           "10.0.0.1" "/api/login" 900000 3 RateLimiter.sample_store).
  - vm_compute. reflexivity.
  - repeat constructor; cbn; lia.
Defined.

Lemma reset_reopens_the_window_witness :
  let store' :=
    RateLimiter.reset "10.0.0.2" None RateLimiter.sample_store in
  store' !! RateLimiter.key_of "10.0.0.2" "/api/login" = None
  /\ (forall sweep,
        (RateLimiter.checkLimit sweep 4500 "10.0.0.2" "/api/login" 900000 10
           store').1 = (0 <? 10)%Z)
  /\ (forall key,
        String.prefix ("10.0.0.2" ++ ":") key = false ->
        store' !! key = RateLimiter.sample_store !! key).
Proof.
  apply (reset_reopens_the_window 4500 "10.0.0.2" "/api/login" None
           900000 10 RateLimiter.sample_store).
  left. reflexivity.
Defined.

(** ** Creating and deleting users *)

Section UserAdministration.
Import Types UserManager UserAdmin.
Context `{Externals}.

Lemma find_none_names (name : string) (us : list UserRecord) :
  List.find (fun user => String.eqb (Types.username user) name) us = None ->
  ~ In name (map Types.username us).
Proof.
  intros Hfind Hin. apply in_map_iff in Hin as (u & Hu & Hin).
  apply (find_none _ _ Hfind) in Hin. cbn in Hin.
  rewrite Hu, String.eqb_refl in Hin. discriminate.
Qed.

Lemma replace_absent (user : UserRecord) (us : list UserRecord) :
  ~ In (id user) (map id us) ->
  map (fun u => if String.eqb (id u) (id user) then user else u) us = us.
Proof.
  induction us as [|u us IH]; intros Hno; [reflexivity|].
  cbn [map]. rewrite IH by (intros Hin; apply Hno; now right).
  destruct (String.eqb_spec (id u) (id user)) as [E|_]; [|reflexivity].
  exfalso. apply Hno. left. exact E.
Qed.

Lemma replace_keeps_ids (user : UserRecord) (us : list UserRecord) :
  map id (map (fun u => if String.eqb (id u) (id user) then user else u) us)
  = map id us.
Proof.
  rewrite map_map. apply map_ext. intros u.
  destruct (String.eqb_spec (id u) (id user)); congruence.
Qed.

Lemma replace_names (user : UserRecord) (us : list UserRecord) :
  List.NoDup (map id us) ->
  List.NoDup (map Types.username us) ->
  ~ In (Types.username user) (map Types.username us) ->
  let us' :=
    map (fun u => if String.eqb (id u) (id user) then user else u) us in
  List.NoDup (map Types.username us')
  /\ (forall n, In n (map Types.username us') ->
        In n (map Types.username us) \/ n = Types.username user).
Proof.
  induction us as [|u us IH]; intros Hids Hnames Hnew us'.
  { split; [constructor | intros n []]. }
  apply List.NoDup_cons_iff in Hids as [Hid Hids].
  apply List.NoDup_cons_iff in Hnames as [Hname Hnames].
  assert (Hnew' : ~ In (Types.username user) (map Types.username us))
    by (intros Hin; apply Hnew; now right).
  destruct (IH Hids Hnames Hnew') as [IHnd IHin]. subst us'. cbn [map].
  destruct (String.eqb_spec (id u) (id user)) as [E|_].
  - rewrite replace_absent by (rewrite <- E; exact Hid). split.
    + constructor; assumption.
    + intros n [<-|Hin]; [now right | left; now right].
  - split.
    + constructor; [|exact IHnd]. intros Hin.
      destruct (IHin _ Hin) as [Hold|Heq]; [contradiction|].
      apply Hnew. left. exact Heq.
    + intros n [<-|Hin]; [left; now left|].
      destruct (IHin _ Hin) as [Hold|Heq]; [left; now right | now right].
Qed.

(** X25.  [createUser] refuses a user name that any stored user bears,
    active or not, and then changes nothing; otherwise it returns the new
    user. Either way, ids and user names stay without repetition, also when
    the drawn id is one that the store already holds. *)
Theorem createUser_keeps_users_unique (now : Z) (drawn : Creation)
  (username profileType : string) (st : Store) :
  unique_users st ->
  let '(created, st') := createUser now drawn username profileType st in
  unique_users st'
  /\ (In username (map Types.username (users st)) ->
      created = None /\ st' = st)
  /\ (~ In username (map Types.username (users st)) ->
      exists user, created = Some user
                   /\ Types.username user = username
                   /\ id user = c_userId drawn
                   /\ In user (users st')).
Proof.
  intros [Hids Hnames]. unfold createUser.
  destruct (List.find _ (users st)) as [found|] eqn:Efind.
  - apply find_some in Efind as [Hin E]. cbn in E.
    apply String.eqb_eq in E.
    assert (Htaken : In username (map Types.username (users st))).
    { apply in_map_iff. eauto. }
    split; [split; assumption|]. split; [auto|]. intros Hno. contradiction.
  - pose proof (find_none_names _ _ Efind) as Hfresh.
    set (user := {| id := c_userId drawn; username := username;
                    password := c_hashedPassword drawn; u_createdAt := now;
                    lastLogin := None; loginCount := 0; isActive := true |}).
    split; [|split; [intros Hin; contradiction|]].
    + unfold unique_users, set_user. cbn [users].
      destruct (existsb _ (users st)) eqn:Eex.
      * rewrite replace_keeps_ids. split; [exact Hids|].
        apply (replace_names user (users st)); assumption.
      * assert (Hnoid : ~ In (id user) (map id (users st))).
        { intros Hin. apply in_map_iff in Hin as (u & Hu & Hin).
          assert (Hex : existsb (fun u => String.eqb (id u) (id user))
                          (users st) = true).
          { apply existsb_exists. exists u. split; [exact Hin|].
            now apply String.eqb_eq. }
          rewrite Hex in Eex. discriminate. }
        rewrite !map_app. cbn [map].
        split; apply List.NoDup_app; try assumption;
          try (constructor; [intros []|constructor]);
          intros a Ha [<-|[]]; contradiction.
    + intros _. exists user. repeat split.
      cbn [users]. unfold set_user.
      destruct (existsb _ (users st)) eqn:Eex.
      * apply existsb_exists in Eex as (u & Hin & E).
        apply in_map_iff. exists u. split; [|exact Hin]. now rewrite E.
      * apply in_or_app. right. now left.
Qed.

Lemma find_active_set_user (user : UserRecord) (us : list UserRecord) :
  isActive user = true ->
  ~ In (Types.username user) (map Types.username us) ->
  find_active (Types.username user) (set_user user us) = Some user.
Proof.
  intros Hact Hfresh. unfold find_active, set_user.
  assert (Hself : String.eqb (Types.username user) (Types.username user)
                  && isActive user = true)
    by (now rewrite String.eqb_refl, Hact).
  destruct (existsb _ us) eqn:Eex.
  - induction us as [|u us IH]; [discriminate|]. cbn [map List.find].
    assert (Hu : String.eqb (Types.username u) (Types.username user) = false).
    { apply String.eqb_neq. intros E. apply Hfresh. left. exact E. }
    destruct (String.eqb_spec (id u) (id user)) as [E|Hne].
    + now rewrite Hself.
    + rewrite Hu. cbn [andb]. apply IH.
      * intros Hin. apply Hfresh. now right.
      * cbn [existsb] in Eex. apply String.eqb_neq in Hne.
        now rewrite Hne in Eex.
  - clear Eex. induction us as [|u us IH]; cbn [app List.find].
    + now rewrite Hself.
    + assert (Hu : String.eqb (Types.username u) (Types.username user)
                   = false).
      { apply String.eqb_neq. intros E. apply Hfresh. left. exact E. }
      rewrite Hu. cbn [andb]. apply IH.
      intros Hin. apply Hfresh. now right.
Qed.

Lemma Qfloor_draw (r : Q) :
  0 <= r < 1 -> (0 <= Qfloor (r * 15) <= 14)%Z.
Proof.
  intros [H0 H1]. split.
  - change 0%Z with (Qfloor 0). apply Qfloor_resp_le. lra.
  - assert (Hlt : inject_Z (Qfloor (r * 15)) < inject_Z 15).
    { apply Qle_lt_trans with (r * 15); [apply Qfloor_le|].
      change (inject_Z 15) with 15. lra. }
    rewrite <- Zlt_Qlt in Hlt. lia.
Qed.

(** X26.  A user that [createUser] made has a history from the start: the
    password that was hashed validates, the record returned is the created
    one with this first login counted ([loginCount] 1, [lastLogin] set),
    and the profile handed to the risk calculator holds between 5 and 19
    samples, so a created user never takes the branch for users without
    history. *)
Theorem created_user_has_history (now later : Z) (drawn : Creation)
  (username password profileType : string) (st st' : Store)
  (user : UserRecord) :
  createUser now drawn username profileType st = (Some user, st') ->
  0 <= c_countDraw drawn < 1 ->
  bcrypt_compare password (c_hashedPassword drawn) = true ->
  exists validated profile st'',
    validateUser later username password st'
    = (Some (validated, Some profile), st'')
    /\ id validated = id user
    /\ Types.username validated = username
    /\ Types.password validated = Types.password user
    /\ loginCount user = 0%Z /\ lastLogin user = None
    /\ loginCount validated = 1%Z /\ lastLogin validated = Some later
    /\ (5 <= length (samples profile) <= 19)%nat.
Proof.
  unfold createUser. intros Hcreate Hdraw Hhash.
  destruct (List.find _ (users st)) as [found|] eqn:Efind; [discriminate|].
  injection Hcreate as <- <-.
  pose proof (find_none_names _ _ Efind) as Hfresh.
  set (user := {| id := c_userId drawn; username := username;
                  password := c_hashedPassword drawn; u_createdAt := now;
                  lastLogin := None; loginCount := 0; isActive := true |}).
  unfold validateUser. cbn [users biometricProfiles].
  change username with (Types.username user) at 1.
  rewrite find_active_set_user by (try reflexivity; exact Hfresh).
  cbn [Types.password user]. rewrite Hhash. cbn [id user].
  rewrite lookup_insert_eq. eexists _, _, _. split; [reflexivity|].
  repeat split.
  - unfold createBiometricProfile. cbn [samples].
    rewrite length_map, length_seq.
    pose proof (Qfloor_draw _ Hdraw). lia.
  - unfold createBiometricProfile. cbn [samples].
    rewrite length_map, length_seq.
    pose proof (Qfloor_draw _ Hdraw). lia.
Qed.

Lemma spread_range (base variance random : Q) :
  0 <= base -> 0 <= variance <= 0.2 -> 0 <= random < 1 ->
  0.9 * base <= spread base variance random <= 1.1 * base.
Proof.
  intros Hb Hv Hr. unfold spread.
  assert (Hd : -(0.1) <= (random - 0.5) * variance <= 0.1) by nra.
  revert Hd. generalize ((random - 0.5) * variance). intros x Hd. nra.
Qed.

Lemma Qsum_from_range (l : list Q) (lo hi acc : Q) :
  Forall (fun x => lo <= x <= hi) l ->
  acc + inject_Z (Z.of_nat (length l)) * lo <= fold_left Qplus l acc
  /\ fold_left Qplus l acc <= acc + inject_Z (Z.of_nat (length l)) * hi.
Proof.
  revert acc. induction l as [|x l IH]; intros acc Hl.
  - cbn [fold_left length]. change (inject_Z (Z.of_nat 0)) with 0. lra.
  - inversion Hl as [|? ? Hx Hrest]; subst.
    destruct (IH (acc + x) Hrest) as [IHlo IHhi].
    cbn [fold_left length]. rewrite Nat2Z.inj_succ. unfold Z.succ.
    rewrite inject_Z_plus. change (inject_Z 1) with 1.
    revert IHlo IHhi. generalize (inject_Z (Z.of_nat (length l))).
    generalize (fold_left Qplus l (acc + x)). intros s n IHlo IHhi.
    lra.
Qed.

Lemma mean_of_range (l : list Q) (lo hi : Q) :
  l <> [] ->
  Forall (fun x => lo <= x <= hi) l ->
  exists q, mean_of l = Num q /\ lo <= q <= hi.
Proof.
  intros Hne Hl. destruct l as [|x l]; [congruence|].
  unfold mean_of, of_nat, of_Z.
  rewrite div_Num by apply inject_S_neq_0.
  eexists. split; [reflexivity|].
  destruct (Qsum_from_range (x :: l) lo hi 0 Hl) as [Hlo Hhi].
  pose proof (inject_S_pos (length l)) as Hn.
  change (fold_left Qplus (x :: l) 0) with (Qsum (x :: l)) in Hlo, Hhi.
  cbn [length] in *.
  split; [apply Qle_shift_div_l | apply Qle_shift_div_r]; try exact Hn; lra.
Qed.

Lemma squares_from (a : Q) (l : list Q) (acc : Q) :
  0 <= acc ->
  exists v,
    fold_left (fun s val => (s + (Num val - Num a) * (Num val - Num a))%js)
      l (Num acc) = Num v /\ 0 <= v.
Proof.
  revert acc. induction l as [|x l IH]; intros acc Hacc; [eauto|].
  cbn [fold_left].
  change (Num acc + (Num x - Num a) * (Num x - Num a))%js
    with (Num (acc + (x - a) * (x - a))).
  apply IH. generalize (x - a). intros d. nra.
Qed.

Lemma variance_about_finite (a : Q) (l : list Q) :
  l <> [] -> exists v, variance_about (Num a) l = Num v /\ 0 <= v.
Proof.
  intros Hne. destruct l as [|x l]; [congruence|].
  unfold variance_about.
  destruct (squares_from a (x :: l) 0 ltac:(lra)) as (s & -> & Hs).
  unfold of_nat, of_Z. rewrite div_Num by apply inject_S_neq_0.
  eexists. split; [reflexivity|].
  apply Qle_shift_div_l; [apply inject_S_pos | lra].
Qed.

Lemma base_of_range (profileType : string) :
  let b := base_of profileType in
  0 <= baseHoldTime b /\ 0 <= baseFlightTime b /\ 0 <= baseErrorRate b
  /\ 0 <= baseTypingSpeed b /\ 0 <= variance b <= 0.2.
Proof.
  unfold base_of.
  destruct (String.eqb profileType "consistent");
    [|destruct (String.eqb profileType "robotic")];
    cbn; repeat split; discriminate.
Qed.

Lemma synthetic_sample_near_base (profileType : string)
  (draws : SampleDraws) :
  unit_draws draws ->
  near_base (base_of profileType)
    (generateSyntheticSample profileType draws).
Proof.
  intros (Hh & Hf & He & Hs & Hv).
  destruct (base_of_range profileType) as (Bh & Bf & Be & Bs & Bv).
  cbv zeta in *. unfold generateSyntheticSample.
  set (b := base_of profileType) in *.
  set (holdTimes := map _ (seq 0 8)).
  set (flightTimes := map _ (seq 0 7)).
  assert (Hhold : exists q, mean_of holdTimes = Num q
                    /\ 0.9 * baseHoldTime b <= q <= 1.1 * baseHoldTime b).
  { apply mean_of_range; [discriminate|].
    apply List.Forall_forall. intros x Hx.
    apply in_map_iff in Hx as (i & <- & _). now apply spread_range. }
  assert (Hflight : exists q, mean_of flightTimes = Num q
                      /\ 0.9 * baseFlightTime b <= q
                         <= 1.1 * baseFlightTime b).
  { apply mean_of_range; [discriminate|].
    apply List.Forall_forall. intros x Hx.
    apply in_map_iff in Hx as (i & <- & _). now apply spread_range. }
  destruct Hhold as (h & Eh & Hhr). destruct Hflight as (f & Ef & Hfr).
  unfold near_base.
  cbn [avgHoldTime avgFlightTime holdTimeVariance flightTimeVariance
         s_errorRate s_typingSpeed holdVelocityVariance].
  rewrite Eh, Ef. cbn [within].
  repeat split; try apply Hhr; try apply Hfr;
    try (apply spread_range; assumption).
  - apply variance_about_finite. discriminate.
  - apply variance_about_finite. discriminate.
  - eexists. split; [reflexivity|]. lra.
Qed.

(** X27.  The synthetic history of a new user stays near the constants of
    its profile type: with every draw in the range of [Math.random()], each
    sample has its mean hold time, mean flight time, error rate and typing
    speed within a tenth of the base value, finite variances that are not
    negative and a hold-velocity variance within 0..10, and the samples are
    dated one day apart, the first one now. *)
Theorem synthetic_history_near_base (now : Z) (userId profileType : string)
  (countDraw : Q) (draws : nat -> SampleDraws) :
  (forall i, unit_draws (draws i)) ->
  let profile :=
    createBiometricProfile now userId profileType countDraw draws in
  Forall (near_base (base_of profileType)) (samples profile)
  /\ map s_timestamp (samples profile)
     = map (fun i => Some (now - Z.of_nat i * 86400000)%Z)
         (seq 0 (length (samples profile))).
Proof.
  intros Hdraws profile. subst profile.
  unfold createBiometricProfile. cbn [samples]. split.
  - apply List.Forall_forall. intros s Hs.
    apply in_map_iff in Hs as (i & <- & _).
    pose proof (synthetic_sample_near_base profileType (draws i)
                  (Hdraws i)) as Hnear.
    exact Hnear.
  - rewrite length_map, length_seq, map_map. reflexivity.
Qed.

Lemma filter_names (p : UserRecord -> bool) (us : list UserRecord)
  (name : string) :
  In name (map Types.username (List.filter p us)) ->
  exists u, In u us /\ p u = true /\ Types.username u = name.
Proof.
  intros Hin. apply in_map_iff in Hin as (u & Hu & Hin).
  apply filter_In in Hin as [Hin Hp]. eauto.
Qed.

(** X28.  A deleted user is gone for good: in a store without repeated ids
    and names, after [deleteUser] the id resolves to no user and to no
    profile, no password validates under the user's name, and the name is
    free for [createUser] again. *)
Theorem deleted_user_cannot_log_in (now : Z) (userId password : string)
  (user : UserRecord) (st : Store) (drawn : Creation)
  (profileType : string) :
  unique_users st ->
  getUserById userId st = Some user ->
  let '(deleted, st') := deleteUser userId st in
  deleted = true
  /\ getUserById userId st' = None
  /\ biometricProfiles st' !! userId = None
  /\ validateUser now (Types.username user) password st' = (None, st')
  /\ (createUser now drawn (Types.username user) profileType st').1 <> None.
Proof.
  intros [Hids Hnames] Hget. unfold deleteUser.
  unfold getUserById in Hget. pose proof Hget as Hfound.
  apply find_some in Hfound as [Hin Hid]. cbn in Hid.
  apply String.eqb_eq in Hid.
  set (st' := {| users := _; biometricProfiles := _ |}).
  assert (Hno : ~ In (Types.username user)
                    (map Types.username (users st'))).
  { cbn [users st']. intros Hname.
    apply filter_names in Hname as (u & Hu & Hp & Hn).
    assert (u = user); [|subst u; rewrite Hid, String.eqb_refl in Hp;
                         discriminate].
    clear - Hnames Hu Hin Hn. revert Hnames Hu Hin Hn.
    generalize (users st). intros us. induction us as [|x us IH];
      intros Hnd Hu Hin Hn; [contradiction|].
    cbn [map] in Hnd. apply List.NoDup_cons_iff in Hnd as [Hx Hnd].
    destruct Hu as [->|Hu], Hin as [->|Hin]; try reflexivity.
    - exfalso. apply Hx. apply in_map_iff. exists user. split; congruence.
    - exfalso. apply Hx. apply in_map_iff. exists u. split; congruence.
    - now apply IH. }
  repeat split.
  - apply existsb_exists. exists user. split; [exact Hin|].
    now apply String.eqb_eq.
  - unfold getUserById. cbn [users st'].
    destruct (List.find _ (List.filter _ (users st))) as [u|] eqn:E;
      [|reflexivity].
    apply find_some in E as [Hu E]. apply filter_In in Hu as [_ Hp].
    cbn in E. now rewrite E in Hp.
  - cbn [biometricProfiles st']. apply lookup_delete_eq.
  - unfold validateUser, find_active.
    destruct (List.find _ (users st')) as [u|] eqn:E; [|reflexivity].
    apply find_some in E as [Hu E]. cbn in E.
    apply andb_true_iff in E as [E _]. apply String.eqb_eq in E.
    exfalso. apply Hno. apply in_map_iff. eauto.
  - unfold createUser.
    destruct (List.find _ (users st')) as [u|] eqn:E; [|cbn; discriminate].
    apply find_some in E as [Hu E]. cbn in E. apply String.eqb_eq in E.
    exfalso. apply Hno. apply in_map_iff. eauto.
Qed.

End UserAdministration.

Lemma createUser_keeps_users_unique_witness :
  let '(created, st') :=
    UserAdmin.createUser 1000 UserAdmin.bob_creation "bob" "normal"
      (AuthController.store Demo.server0) in
  UserAdmin.unique_users st'
  /\ (In "bob"%string
        (map Types.username
           (UserManager.users (AuthController.store Demo.server0))) ->
      created = None /\ st' = AuthController.store Demo.server0)
  /\ (~ In "bob"%string
          (map Types.username
             (UserManager.users (AuthController.store Demo.server0))) ->
      exists user, created = Some user
                   /\ Types.username user = "bob"%string
                   /\ Types.id user = "u-2"%string
                   /\ In user (UserManager.users st')).
Proof.
  apply (createUser_keeps_users_unique 1000 UserAdmin.bob_creation "bob"
           "normal" (AuthController.store Demo.server0)).
  split; repeat constructor; cbn; tauto.
Defined.

Lemma created_user_has_history_witness :
  let created :=
    {| Types.id := "u-2"; Types.username := "bob";
       Types.password := "bcrypt:hunter22"; Types.u_createdAt := 1000;
       Types.lastLogin := None; Types.loginCount := 0;
       Types.isActive := true |} in
  exists validated profile st'',
    UserManager.validateUser 2000 "bob" "hunter22"
      (UserAdmin.createUser 1000 UserAdmin.bob_creation "bob" "normal"
         (AuthController.store Demo.server0)).2
    = (Some (validated, Some profile), st'')
    /\ Types.id validated = Types.id created
    /\ Types.username validated = "bob"%string
    /\ Types.password validated = Types.password created
    /\ Types.loginCount created = 0%Z /\ Types.lastLogin created = None
    /\ Types.loginCount validated = 1%Z
    /\ Types.lastLogin validated = Some 2000%Z
    /\ (5 <= length (Types.samples profile) <= 19)%nat.
Proof.
  intros created.
  apply (created_user_has_history 1000 2000 UserAdmin.bob_creation "bob"
           "hunter22" "normal" (AuthController.store Demo.server0)
           (UserAdmin.createUser 1000 UserAdmin.bob_creation "bob" "normal"
              (AuthController.store Demo.server0)).2 created).
  - reflexivity.
  - split; [discriminate | reflexivity].
  - reflexivity.
Defined.

Lemma synthetic_history_near_base_witness :
  let profile :=
    UserAdmin.createBiometricProfile 1000 "u-2" "normal" 0.5
      (fun _ => UserAdmin.middle_draws) in
  Forall (UserAdmin.near_base (UserAdmin.base_of "normal"))
    (Types.samples profile)
  /\ map Types.s_timestamp (Types.samples profile)
     = map (fun i => Some (1000 - Z.of_nat i * 86400000)%Z)
         (seq 0 (length (Types.samples profile))).
Proof.
  apply (synthetic_history_near_base 1000 "u-2" "normal" 0.5
           (fun _ => UserAdmin.middle_draws)).
  intros _. unfold UserAdmin.unit_draws. cbn.
  repeat split; try discriminate; reflexivity.
Defined.

Lemma deleted_user_cannot_log_in_witness :
  let '(deleted, st') :=
    UserAdmin.deleteUser "u-1" (AuthController.store Demo.server0) in
  deleted = true
  /\ UserManager.getUserById "u-1" st' = None
  /\ UserManager.biometricProfiles st' !! "u-1"%string = None
  /\ UserManager.validateUser 1000 "alice" "pass123" st' = (None, st')
  /\ (UserAdmin.createUser 1000 UserAdmin.bob_creation "alice" "normal"
        st').1 <> None.
Proof.
  apply (deleted_user_cannot_log_in 1000 "u-1" "pass123" Demo.alice
           (AuthController.store Demo.server0) UserAdmin.bob_creation
           "normal").
  - split; repeat constructor; cbn; tauto.
  - reflexivity.
Defined.

(** ** The fuzzy matcher *)

Section Matcher.
Import ChallengeManager Matching.

Lemma includes_empty (hay : string) : includes hay EmptyString = true.
Proof. destruct hay; reflexivity. Qed.

(** A solution that the normal form of the matcher reduces to nothing is
    accepted for every answer: the empty string is contained in each
    normalised answer.  Such is every solution made of the dropped words and
    of characters other than lower-case letters, digits and spaces. *)
Lemma fuzzyMatch_accepts_empty_normal_form (solution answer : string) :
  normalize solution = EmptyString ->
  Matching.fuzzyMatch solution answer = true.
Proof.
  intros Hs. unfold Matching.fuzzyMatch. rewrite Hs.
  destruct (String.eqb EmptyString (normalize answer)); [reflexivity|].
  now rewrite includes_empty, orb_true_r.
Qed.

(** X29.  With the matcher of the source, a security question is answered by
    any solution whose lower-cased, trimmed text normalises to nothing,
    whatever answer the challenge holds. *)
Theorem security_question_accepts_dropped_words (challenge : ChallengeData)
  (solution : string) :
  type challenge = "security_questions"%string ->
  normalize (trim (toLowerCase solution)) = EmptyString ->
  @verifySolution source_matcher challenge solution = true.
Proof.
  intros Ht Hs. unfold verifySolution. rewrite Ht. cbn [String.eqb].
  change (Matching.fuzzyMatch (trim (toLowerCase solution))
            (trim (toLowerCase (answer challenge))) = true).
  now apply fuzzyMatch_accepts_empty_normal_form.
Qed.

Lemma similarity_threshold (d m : nat) :
  (0 < m)%nat ->
  Qle_bool 0.8 (1 - inject_Z (Z.of_nat d) / inject_Z (Z.of_nat m)) = true
  <-> (5 * d <= m)%nat.
Proof.
  intros Hm.
  assert (HM : 0 < inject_Z (Z.of_nat m)).
  { change 0 with (inject_Z 0). rewrite <- Zlt_Qlt. lia. }
  rewrite Qle_bool_iff.
  assert (Hiff : inject_Z (Z.of_nat d) / inject_Z (Z.of_nat m) <= 0.2
                 <-> inject_Z (Z.of_nat d) <= 0.2 * inject_Z (Z.of_nat m)).
  { split; intros Hle.
    - apply (Qmult_le_compat_r _ _ (inject_Z (Z.of_nat m))) in Hle;
        [|now apply Qlt_le_weak].
      assert (E : inject_Z (Z.of_nat d) / inject_Z (Z.of_nat m)
                  * inject_Z (Z.of_nat m) == inject_Z (Z.of_nat d)).
      { field. intros E. rewrite E in HM. now apply Qlt_irrefl in HM. }
      now rewrite E in Hle.
    - apply Qle_shift_div_r; assumption. }
  split.
  - intros Hs.
    assert (Hle : inject_Z (Z.of_nat d) / inject_Z (Z.of_nat m) <= 0.2)
      by lra.
    apply Hiff in Hle. unfold Qle in Hle. cbn in Hle. lia.
  - intros Hle.
    assert (Hq : inject_Z (Z.of_nat d) <= 0.2 * inject_Z (Z.of_nat m)).
    { unfold Qle. cbn. lia. }
    apply Hiff in Hq. lra.
Qed.

(** The third test of the matcher in whole numbers: two texts that are
    neither equal nor contained in one another after normalising match
    exactly when five times their distance is at most the longer length. *)
Theorem fuzzyMatch_threshold (solution answer : string) :
  let s := normalize solution in
  let a := normalize answer in
  Matching.fuzzyMatch solution answer = true
  <-> s = a \/ includes s a = true \/ includes a s = true
      \/ (5 * levenshteinDistance s a
          <= Nat.max (String.length s) (String.length a))%nat.
Proof.
  intros s a. unfold Matching.fuzzyMatch. fold s. fold a.
  destruct (String.eqb_spec s a) as [E|Hne]; [tauto|].
  destruct (includes s a) eqn:E1; [cbn; tauto|].
  destruct (includes a s) eqn:E2; [cbn; tauto|].
  cbn [orb]. cbv zeta.
  assert (Hlen : (0 < Nat.max (String.length s) (String.length a))%nat).
  { destruct s as [|c s']; [|cbn; lia].
    rewrite includes_empty in E2. discriminate. }
  destruct (Nat.eqb_spec (Nat.max (String.length s) (String.length a)) 0)
    as [E0|_]; [lia|].
  rewrite similarity_threshold by exact Hlen.
  split; [tauto|]. intros [E|[E|[E|E]]]; congruence.
Qed.

Lemma edit_distance_nil_r (ra : list ascii) :
  edit_distance ra [] = length ra.
Proof. destruct ra; reflexivity. Qed.

Lemma edit_distance_cons (x y : ascii) (ra rb : list ascii) :
  edit_distance (x :: ra) (y :: rb)
  = Nat.min
      (Nat.min (edit_distance ra (y :: rb) + 1)
         (edit_distance (x :: ra) rb + 1))
      (edit_distance ra rb + if Ascii.eqb x y then 0 else 1).
Proof. reflexivity. Qed.

Lemma row_of_head (ra rp : list ascii) (rest : string) :
  row_of ra rp rest
  = edit_distance ra rp
    :: match rest with
       | EmptyString => []
       | String y rest' => row_of ra (y :: rp) rest'
       end.
Proof. destruct rest; reflexivity. Qed.

Lemma fill_row_spec (x : ascii) (ra : list ascii) (rest : string)
  (rp : list ascii) :
  fill_row x rest (row_of ra rp rest) (edit_distance (x :: ra) rp)
  = tl (row_of (x :: ra) rp rest).
Proof.
  revert rp. induction rest as [|y rest IH]; intros rp; [reflexivity|].
  rewrite (row_of_head ra rp), (row_of_head (x :: ra) rp). cbn [tl].
  rewrite (row_of_head ra (y :: rp)).
  cbn [fill_row]. rewrite <- (row_of_head ra (y :: rp)).
  rewrite <- edit_distance_cons.
  rewrite IH. rewrite (row_of_head (x :: ra) (y :: rp)). reflexivity.
Qed.

Lemma first_row_spec (rp : list ascii) (rest : string) :
  seq (length rp) (S (String.length rest)) = row_of [] rp rest.
Proof.
  revert rp. induction rest as [|y rest IH]; intros rp; [reflexivity|].
  rewrite row_of_head. cbn [seq String.length]. f_equal.
  apply (IH (y :: rp)).
Qed.

Lemma last_row_spec (a b : string) (ra : list ascii) :
  last_row a b (length ra) (row_of ra [] b)
  = row_of (rev (String.list_ascii_of_string a) ++ ra) [] b.
Proof.
  revert ra. induction a as [|x a IH]; intros ra; [reflexivity|].
  cbn [last_row String.list_ascii_of_string rev].
  rewrite <- app_assoc. cbn [app]. rewrite <- (IH (x :: ra)).
  cbn [length]. f_equal.
  change (S (length ra)) with (length (x :: ra)).
  rewrite <- (edit_distance_nil_r (x :: ra)), fill_row_spec.
  now rewrite (row_of_head (x :: ra) []).
Qed.

Lemma row_of_last (ra rp : list ascii) (rest : string) :
  List.last (row_of ra rp rest) 0%nat
  = edit_distance ra (rev (String.list_ascii_of_string rest) ++ rp).
Proof.
  revert rp. induction rest as [|y rest IH]; intros rp; [reflexivity|].
  rewrite row_of_head. cbn [String.list_ascii_of_string rev].
  rewrite <- app_assoc. cbn [app]. rewrite <- IH.
  rewrite (row_of_head ra (y :: rp)). reflexivity.
Qed.

Lemma levenshtein_is_edit_distance (a b : string) :
  levenshteinDistance a b
  = edit_distance (rev (String.list_ascii_of_string a))
      (rev (String.list_ascii_of_string b)).
Proof.
  unfold levenshteinDistance.
  pose proof (first_row_spec [] b) as Hfirst. cbn [length] in Hfirst.
  rewrite Hfirst.
  pose proof (last_row_spec a b []) as Hlast. cbn [length] in Hlast.
  rewrite Hlast, row_of_last. now rewrite !app_nil_r.
Qed.

Lemma edit_distance_refl (ra : list ascii) : edit_distance ra ra = 0%nat.
Proof.
  induction ra as [|x ra IH]; [reflexivity|].
  rewrite edit_distance_cons, IH, Ascii.eqb_refl. apply Nat.min_0_r.
Qed.

Lemma edit_distance_zero (ra rb : list ascii) :
  edit_distance ra rb = 0%nat -> ra = rb.
Proof.
  revert rb. induction ra as [|x ra IH]; intros [|y rb] Hd;
    try reflexivity; try discriminate.
  rewrite edit_distance_cons in Hd.
  destruct (Ascii.eqb_spec x y) as [->|Hne].
  - f_equal. apply IH. lia.
  - lia.
Qed.

Lemma edit_distance_le_max (ra rb : list ascii) :
  (edit_distance ra rb <= Nat.max (length ra) (length rb))%nat.
Proof.
  revert rb. induction ra as [|x ra IH]; intros [|y rb];
    [cbn; lia | cbn; lia | cbn [edit_distance length]; lia |].
  rewrite edit_distance_cons. specialize (IH rb). cbn [length].
  destruct (Ascii.eqb x y); lia.
Qed.

Lemma string_of_rev_inj (a b : string) :
  rev (String.list_ascii_of_string a) = rev (String.list_ascii_of_string b) ->
  a = b.
Proof.
  intros E. apply (f_equal (@rev ascii)) in E. rewrite !rev_involutive in E.
  apply (f_equal String.string_of_list_ascii) in E.
  now rewrite !String.string_of_list_ascii_of_string in E.
Qed.

Lemma length_list_ascii (s : string) :
  length (String.list_ascii_of_string s) = String.length s.
Proof. induction s as [|c s IH]; [reflexivity|]. cbn. now rewrite IH. Qed.

(** X30.  The matrix of [levenshteinDistance] holds the edit distance: the
    cell it returns obeys the recurrence of deletion, insertion and
    substitution on the whole strings, with the other string's length
    against an empty one; it is 0 exactly on equal strings and never exceeds
    the longer length. *)
Theorem levenshteinDistance_is_the_edit_distance (a b : string) :
  levenshteinDistance a b
  = edit_distance (rev (String.list_ascii_of_string a))
      (rev (String.list_ascii_of_string b))
  /\ levenshteinDistance a EmptyString = String.length a
  /\ levenshteinDistance EmptyString b = String.length b
  /\ (levenshteinDistance a b = 0%nat <-> a = b)
  /\ (levenshteinDistance a b
      <= Nat.max (String.length a) (String.length b))%nat.
Proof.
  rewrite !levenshtein_is_edit_distance. repeat split.
  - cbn [String.list_ascii_of_string rev]. rewrite edit_distance_nil_r.
    now rewrite length_rev, length_list_ascii.
  - cbn [String.list_ascii_of_string rev edit_distance].
    now rewrite length_rev, length_list_ascii.
  - intros Hd. apply string_of_rev_inj. now apply edit_distance_zero.
  - intros ->. apply edit_distance_refl.
  - pose proof (edit_distance_le_max (rev (String.list_ascii_of_string a))
                  (rev (String.list_ascii_of_string b))) as Hle.
    now rewrite !length_rev, !length_list_ascii in Hle.
Qed.

End Matcher.

Lemma security_question_accepts_dropped_words_witness :
  @ChallengeManager.verifySolution Matching.source_matcher
    Matching.pet_question " The " = true.
Proof.
  apply (security_question_accepts_dropped_words Matching.pet_question
           " The ").
  - reflexivity.
  - reflexivity.
Defined.
